(** * Request orchestration of the multi-model tools

    A shallow embedding of the OpenRouter-calling code of
    [recommendations/multi_ai_recs.py] and [writing/multi_ai_writer.py]
    (token budgeting, batch and streaming transport, retry and fallback,
    fan-out), of the prompt builder, of the draft normaliser and of the
    command-line entry points, of the lookup of keys in the environment and
    in a .env file, of the extraction of a section from a sources file and
    of the writing of results, followed by the properties proved of them.

    Conventions of the model
    - Python [str] is [string]; a character is a code point below 256, so
      the whitespace of [str.strip] is the set of such code points that
      Python classifies as whitespace.
    - A decoded JSON document is a [json] value; JSON numbers are integers.
    - A [dict] built by the program (request payload, per-model result) is
      a [gmap string json].
    - [elapsed_seconds] holds integer milliseconds read from the clock of
      the modelled network instead of a rounded float.
    - Diagnostics printed on stderr are not part of the model. *)

From Stdlib Require Import ZArith Ascii String List Bool Lia.
From stdpp Require Import base option list gmap strings pretty.

Set Warnings "-register-all".
Local Open Scope Z_scope.

(* ===================================================================== *)
(** ** Python values *)
(* ===================================================================== *)

Module Py.

(** Decoded JSON, as [json.loads] and [resp.json()] return it. *)
Inductive json : Type :=
| JNull
| JBool (b : bool)
| JNum (n : Z)
| JStr (s : string)
| JArr (xs : list json)
| JObj (kvs : list (string * json)).

(** Exceptions, by the classes the [except] clauses tell apart. *)
Inductive exn : Type :=
| ClientError (detail : string)      (* aiohttp.ClientError and subclasses *)
| TimeoutError                       (* asyncio.TimeoutError *)
| PyError (cls : string).            (* any other Exception, by class name *)

Inductive res (A : Type) : Type :=
| Ok (a : A)
| Raise (e : exn).
Arguments Ok {A} a.
Arguments Raise {A} e.

Definition res_bind {A B} (r : res A) (k : A -> res B) : res B :=
  match r with
  | Ok a => k a
  | Raise e => Raise e
  end.

Notation "'let?' x ':=' r 'in' k" := (res_bind r (fun x => k))
  (at level 10, x name, r at level 100, k at level 200).

(** The part of the interpreter and of its standard library that the code
    calls and that is not re-implemented here. *)
Record runtime : Type := {
  json_loads : string -> option json;     (* None: json.JSONDecodeError *)
  repr_container : json -> string;        (* str() of a list or a dict *)
  err_text : string -> string;            (* str(e) of a PyError, by class *)
  re_sub : string -> string -> string -> string;   (* re.sub(pattern, repl, s) *)
  re_search1 : string -> string -> option string   (* re.search(p, s).group(1) *)
}.

(** *** Characters and strings *)

Definition LF : ascii := "010"%char.
Definition CR : ascii := "013"%char.
Definition nl : string := String LF "".

(** [c.isspace()] for a code point below 256. *)
Definition is_space (c : ascii) : bool :=
  let n := nat_of_ascii c in
  ((9 <=? n) && (n <=? 13) || (28 <=? n) && (n <=? 32)
   || (n =? 133) || (n =? 160))%nat.

Fixpoint lstrip_by (p : ascii -> bool) (s : string) : string :=
  match s with
  | EmptyString => EmptyString
  | String c t => if p c then lstrip_by p t else s
  end.

Fixpoint rstrip_by (p : ascii -> bool) (s : string) : string :=
  match s with
  | EmptyString => EmptyString
  | String c t =>
      match rstrip_by p t with
      | EmptyString => if p c then EmptyString else String c EmptyString
      | r => String c r
      end
  end.

Definition lstrip : string -> string := lstrip_by is_space.
Definition rstrip : string -> string := rstrip_by is_space.
Definition strip (s : string) : string := rstrip (lstrip s).

(** [line.rstrip("\n\r")] *)
Definition rstrip_newlines : string -> string :=
  rstrip_by (fun c => Ascii.eqb c LF || Ascii.eqb c CR).

Definition nonempty (s : string) : bool :=
  match s with EmptyString => false | _ => true end.

Fixpoint startswith (p s : string) : bool :=
  match p, s with
  | EmptyString, _ => true
  | String a p', String b s' => Ascii.eqb a b && startswith p' s'
  | String _ _, EmptyString => false
  end.

(** [needle in s] on strings. *)
Fixpoint contains (needle s : string) : bool :=
  startswith needle s ||
  match s with
  | EmptyString => false
  | String _ t => contains needle t
  end.

(** [c in s] for a character. *)
Fixpoint has_char (c : ascii) (s : string) : bool :=
  match s with
  | EmptyString => false
  | String a t => Ascii.eqb a c || has_char c t
  end.

(** [s[n:]] and [s[:n]] *)
Fixpoint drop_str (n : nat) (s : string) : string :=
  match n, s with
  | O, _ => s
  | S n', String _ t => drop_str n' t
  | S _, EmptyString => EmptyString
  end.

Fixpoint take_str (n : nat) (s : string) : string :=
  match n, s with
  | O, _ => EmptyString
  | S n', String c t => String c (take_str n' t)
  | S _, EmptyString => EmptyString
  end.

(** [s.split(sep)] for a one-character separator. *)
Fixpoint split_on (sep : ascii) (s : string) : list string :=
  match s with
  | EmptyString => [EmptyString]
  | String c t =>
      if Ascii.eqb c sep then EmptyString :: split_on sep t
      else match split_on sep t with
           | h :: r => String c h :: r
           | [] => [String c EmptyString]
           end
  end.

(** [sep.join(parts)] *)
Fixpoint join (sep : string) (parts : list string) : string :=
  match parts with
  | [] => EmptyString
  | [x] => x
  | x :: r => x +:+ sep +:+ join sep r
  end.

Definition lower_char (c : ascii) : ascii :=
  let n := nat_of_ascii c in
  if ((65 <=? n) && (n <=? 90) || (192 <=? n) && (n <=? 222) && negb (n =? 215))%nat
  then ascii_of_nat (n + 32) else c.

Fixpoint lower (s : string) : string :=
  match s with
  | EmptyString => EmptyString
  | String c t => String (lower_char c) (lower t)
  end.

(** *** Dynamic operations on decoded values *)

Fixpoint assoc (k : string) (kvs : list (string * json)) : option json :=
  match kvs with
  | [] => None
  | (k', v) :: r => if String.eqb k k' then Some v else assoc k r
  end.

(** [bool(v)] *)
Definition truthy (v : json) : bool :=
  match v with
  | JNull => false
  | JBool b => b
  | JNum n => negb (n =? 0)
  | JStr s => nonempty s
  | JArr xs => match xs with [] => false | _ => true end
  | JObj kvs => match kvs with [] => false | _ => true end
  end.

(** [v or d] *)
Definition por (v d : json) : json := if truthy v then v else d.

(** [v == s] for a string literal [s] *)
Definition is_str (s : string) (v : json) : bool :=
  match v with JStr t => String.eqb t s | _ => false end.

Definition is_dict (v : json) : bool :=
  match v with JObj _ => true | _ => false end.

(** [k in v] *)
Definition py_in (k : string) (v : json) : res bool :=
  match v with
  | JObj kvs => Ok (bool_decide (is_Some (assoc k kvs)))
  | JArr xs => Ok (existsb (is_str k) xs)
  | JStr s => Ok (contains k s)
  | _ => Raise (PyError "TypeError")
  end.

(** [v[k]] for a string key *)
Definition py_item (v : json) (k : string) : res json :=
  match v with
  | JObj kvs => match assoc k kvs with
                | Some x => Ok x
                | None => Raise (PyError "KeyError")
                end
  | _ => Raise (PyError "TypeError")
  end.

(** [v[0]] *)
Definition py_item0 (v : json) : res json :=
  match v with
  | JArr (x :: _) => Ok x
  | JArr [] => Raise (PyError "IndexError")
  | JStr (String c _) => Ok (JStr (String c EmptyString))
  | JStr EmptyString => Raise (PyError "IndexError")
  | JObj _ => Raise (PyError "KeyError")
  | _ => Raise (PyError "TypeError")
  end.

(** [v.get(k)] *)
Definition py_get (v : json) (k : string) : res json :=
  match v with
  | JObj kvs => Ok (default JNull (assoc k kvs))
  | _ => Raise (PyError "AttributeError")
  end.

(** [str(v)], also what [%s] and an f-string field produce. *)
Definition py_str (rt : runtime) (v : json) : string :=
  match v with
  | JNull => "None"
  | JBool true => "True"
  | JBool false => "False"
  | JNum n => pretty n
  | JStr s => s
  | _ => repr_container rt v
  end.

(** [str(e)] of an exception. *)
Definition exn_str (rt : runtime) (e : exn) : string :=
  match e with
  | ClientError d => d
  | TimeoutError => ""
  | PyError c => err_text rt c
  end.

(** [_coerce_content_to_text], the same function in both modules. *)
Definition coerce_part (part : json) : option string :=
  match part with
  | JStr s => Some s
  | JObj kvs => match assoc "text" kvs with
                | Some (JStr t) => Some t
                | _ => None
                end
  | _ => None
  end.

Definition _coerce_content_to_text (content : json) : string :=
  match content with
  | JNull => ""
  | JStr s => s
  | JArr parts => join "" (omap coerce_part parts)
  | _ => ""
  end.

End Py.
Export Py.

(* ===================================================================== *)
(** ** Prompt builder (multi_ai_recs.py) *)
(* ===================================================================== *)

Module Prompt.

Definition build_user_prompt (request_text sources_text today : string) : string :=
  if nonempty (strip sources_text)
  then "TODAY: " +:+ today +:+ nl +:+ nl +:+ "REQUEST:" +:+ nl
       +:+ strip request_text +:+ nl +:+ nl +:+ "SOURCES:" +:+ nl
       +:+ strip sources_text +:+ nl
  else "TODAY: " +:+ today +:+ nl +:+ nl +:+ "REQUEST:" +:+ nl
       +:+ strip request_text +:+ nl.

(** The two parts of a prompt in the words of the design: the dated
    request, and the delimited grounding section. *)
Definition request_part (request_text today : string) : string :=
  "TODAY: " +:+ today +:+ nl +:+ nl +:+ "REQUEST:" +:+ nl
  +:+ strip request_text +:+ nl.

Definition grounding_section (grounding : string) : string :=
  nl +:+ "SOURCES:" +:+ nl +:+ grounding +:+ nl.

End Prompt.

(* ===================================================================== *)
(** ** The HTTP session *)
(* ===================================================================== *)

Module Net.

(** [aiohttp.ClientTimeout(total=..., sock_read=...)], in seconds. *)
Record client_timeout : Type := {
  total : option Z;
  sock_read : option Z
}.

(** One [session.post(url, headers=..., json=..., timeout=...)]. *)
Record request : Type := {
  req_url : string;
  req_headers : gmap string string;
  req_json : gmap string json;
  req_timeout : client_timeout
}.

(** The response object, as the record of what its accessors give:
    [resp.status], [await resp.text()], [await resp.json()], and the lines
    that iterating [resp.content] delivers, after which the iteration
    either ends or raises (stall timeout, broken transfer, safety cap). *)
Record response : Type := {
  status : Z;
  text : res string;
  json_body : res json;
  content : list string;
  content_end : option exn
}.

Inductive reply : Type :=
| Fails (e : exn)            (* entering [session.post] raises *)
| Responds (r : response).

(** The remote side: the reply to the [n]-th request of a call sequence,
    and the loop time (ms) observed once [n] requests have been made. *)
Record network : Type := {
  respond : nat -> request -> reply;
  clock : nat -> Z
}.

(** The requests made so far, oldest first. *)
Abbreviation world := (list request).

(** Code that talks to the session: state passing with exceptions. *)
Definition M (A : Type) : Type := world -> res A * world.

Definition ret {A} (a : A) : M A := fun w => (Ok a, w).

Definition raise {A} (e : exn) : M A := fun w => (Raise e, w).

Definition bind {A B} (m : M A) (k : A -> M B) : M B := fun w =>
  match m w with
  | (Ok a, w') => k a w'
  | (Raise e, w') => (Raise e, w')
  end.

Definition lift {A} (r : res A) : M A := fun w => (r, w).

(** [try: m  except ... as e: h e] *)
Definition try_with {A} (m : M A) (h : exn -> M A) : M A := fun w =>
  match m w with
  | (Ok a, w') => (Ok a, w')
  | (Raise e, w') => h e w'
  end.

Definition session_post (net : network) (rq : request) : M response := fun w =>
  match respond net (length w) rq with
  | Fails e => (Raise e, w ++ [rq])
  | Responds r => (Ok r, w ++ [rq])
  end.

(** [asyncio.get_running_loop().time()] *)
Definition loop_time (net : network) : M Z := fun w =>
  (Ok (clock net (length w)), w).

Notation "'let*' x ':=' m 'in' k" := (bind m (fun x => k))
  (at level 10, x name, m at level 100, k at level 200).

(** A per-model result dict. *)
Abbreviation dict := (gmap string json).

(** [d.get(k) == s] for a string literal [s] *)
Definition get_is (d : dict) (k s : string) : bool :=
  match d !! k with
  | Some v => is_str s v
  | None => false
  end.

(** [d.get(k)] is truthy *)
Definition get_truthy (d : dict) (k : string) : bool :=
  match d !! k with
  | Some v => truthy v
  | None => false
  end.

(** Reading a finished call: whether it returned a dict, and an entry of
    that dict. *)
Definition returns (r : res dict) : bool :=
  match r with
  | Ok _ => true
  | Raise _ => false
  end.

Definition returned (r : res dict) (k : string) : option json :=
  match r with
  | Ok d => d !! k
  | Raise _ => None
  end.

Definition OPENROUTER_URL : string := "https://openrouter.ai/api/v1/chat/completions".

Definition headers (api_key : string) : gmap string string :=
  {[ "Authorization" := "Bearer " +:+ api_key;
     "Content-Type" := "application/json" ]}.

Definition messages (system_prompt user_prompt : string) : json :=
  JArr [ JObj [("role", JStr "system"); ("content", JStr system_prompt)];
         JObj [("role", JStr "user"); ("content", JStr user_prompt)] ].

End Net.
Export Net.

(* ===================================================================== *)
(** ** recommendations/multi_ai_recs.py *)
(* ===================================================================== *)

Module Recs.

Definition DEFAULT_GPT_MODEL_ID : string := "openai/gpt-5.2".
Definition DEFAULT_GEMINI_MODEL_ID : string := "google/gemini-3.1-pro-preview".

Definition MODEL_REASONING_OVERHEAD : gmap string Z :=
  {[ "openai/gpt-5.2" := 4096;
     "google/gemini-3.1-pro-preview" := 4096 ]}.

Definition MODEL_EXTRA_PARAMS : gmap string dict :=
  {[ "openai/gpt-5.2" := {[ "reasoning" := JObj [("effort", JStr "high")] ]};
     "google/gemini-3.1-pro-preview" :=
       {[ "reasoning" := JObj [("max_tokens", JNum 4096)] ]} ]}.

Definition MODELS_WITH_RETRY : gset string :=
  {[ "openai/gpt-5.2"; "google/gemini-3.1-pro-preview" ]}.

Definition DEFAULT_TIMEOUT_SECONDS : Z := 300.
Definition DEFAULT_MAX_TOKENS : Z := 4096.
Definition DEFAULT_STALL_TIMEOUT_SECONDS : Z := 60.
Definition MODEL_STALL_TIMEOUTS : gmap string Z :=
  {[ "openai/gpt-5.2" := 90;
     "google/gemini-3.1-pro-preview" := 60 ]}.
Definition MAX_TOTAL_TIMEOUT_SECONDS : Z := 600.

(** The override the retry passes to [_post]. *)
Definition REDUCED_REASONING : dict :=
  {[ "reasoning" := JObj [("max_tokens", JNum 512)] ]}.

(** [min(max(max_tokens * 3, 8000), 16000)] *)
Definition retry_max_tokens (max_tokens : Z) : Z :=
  Z.min (Z.max (max_tokens * 3) 8000) 16000.

(** The test that guards both retries. *)
Definition wants_retry (model_id : string) (result : dict) : bool :=
  bool_decide (model_id ∈ MODELS_WITH_RETRY)
  && get_is result "error" "Empty response from model"
  && get_is result "finish_reason" "length".

(** [result["retried_with_max_tokens"] = ...; result["retried_reasoning_effort"] = "medium"] *)
Definition annotate_retry (budget : Z) (result : dict) : dict :=
  <["retried_reasoning_effort" := JStr "medium"]>
    (<["retried_with_max_tokens" := JNum budget]> result).

Section Transport.

Context (rt : runtime) (net : network).
(** The module's [SYSTEM_PROMPT] literal. *)
Context (SYSTEM_PROMPT : string).
Context (model_id user_prompt api_key : string).
(** [temperature] is a number handed through to the payload. *)
Context (temperature : json).

(** *** Batch strategy *)

Definition batch_payload (effective_max_tokens : Z) (extra_params : option dict) : dict :=
  let overhead := default 0 (MODEL_REASONING_OVERHEAD !! model_id) in
  let api_max_tokens := effective_max_tokens + overhead in
  default ∅ extra_params
  ∪ default ∅ (MODEL_EXTRA_PARAMS !! model_id)
  ∪ {[ "model" := JStr model_id;
       "messages" := messages SYSTEM_PROMPT user_prompt;
       "max_tokens" := JNum api_max_tokens;
       "temperature" := temperature ]}.

Definition batch_request (timeout_seconds effective_max_tokens : Z)
    (extra_params : option dict) : request :=
  {| req_url := OPENROUTER_URL;
     req_headers := headers api_key;
     req_json := batch_payload effective_max_tokens extra_params;
     req_timeout := {| total := Some timeout_seconds; sock_read := None |} |}.

(** The body of [_post] once the response is there; [elapsed] is the
    reading [loop.time() - started] a success reports. *)
Definition read_batch_response (elapsed : Z) (resp : response) : res dict :=
  if negb (status resp =? 200) then
    let? error_text := text resp in
    Ok {[ "error" := JStr ("HTTP " +:+ pretty (status resp) +:+ ": "
                           +:+ take_str 300 error_text) ]}
  else
    let? data := json_body resp in
    let? has_error := py_in "error" data in
    if has_error then
      let? err := py_item data "error" in
      if is_dict err then
        let? msg := py_get err "message" in
        Ok {[ "error" := if truthy msg then msg else JStr (py_str rt err) ]}
      else Ok {[ "error" := JStr (py_str rt err) ]}
    else
      let? choices_raw := py_get data "choices" in
      let choices := por choices_raw (JArr []) in
      if negb (truthy choices) then
        Ok {[ "error" := JStr "Unexpected response structure" ]}
      else
        let? first := py_item0 choices in
        let choice0 := por first (JObj []) in
        let? message_raw := py_get choice0 "message" in
        let message := por message_raw (JObj []) in
        let? raw_content := py_get message "content" in
        let content := _coerce_content_to_text raw_content in
        let? finish_reason := py_get choice0 "finish_reason" in
        let? reasoning := py_get message "reasoning" in
        if nonempty content then
          Ok {[ "content" := JStr (strip content);
                "finish_reason" := finish_reason;
                "elapsed_seconds" := JNum elapsed ]}
        else
          Ok {[ "error" := JStr "Empty response from model";
                "finish_reason" := finish_reason;
                "has_reasoning" := JBool (truthy reasoning) ]}.

Definition _post (started timeout_seconds effective_max_tokens : Z)
    (extra_params : option dict) : M dict :=
  let* resp := session_post net
                 (batch_request timeout_seconds effective_max_tokens extra_params) in
  let* now := loop_time net in
  lift (read_batch_response (now - started) resp).

Definition batch_handlers (timeout_seconds : Z) (e : exn) : M dict :=
  match e with
  | TimeoutError =>
      ret {[ "error" := JStr ("Timeout after " +:+ pretty timeout_seconds +:+ "s") ]}
  | ClientError _ =>
      ret {[ "error" := JStr ("Network error: " +:+ exn_str rt e) ]}
  | PyError _ =>
      ret {[ "error" := JStr ("Unexpected error: " +:+ exn_str rt e) ]}
  end.

Definition _call_openrouter_batch (max_tokens timeout_seconds : Z) : M dict :=
  let* started := loop_time net in
  try_with
    (let* result := _post started timeout_seconds max_tokens None in
     let* result :=
       if wants_retry model_id result then
         let budget := retry_max_tokens max_tokens in
         let* result := _post started timeout_seconds budget (Some REDUCED_REASONING) in
         ret (annotate_retry budget result)
       else ret result in
     if bool_decide (is_Some (result !! "elapsed_seconds")) then ret result
     else
       let* now := loop_time net in
       ret (<["elapsed_seconds" := JNum (now - started)]> result))
    (batch_handlers timeout_seconds).

(** *** Streaming strategy *)

Definition stream_payload (max_tokens : Z) : dict :=
  let overhead := default 0 (MODEL_REASONING_OVERHEAD !! model_id) in
  let api_max_tokens := max_tokens + overhead in
  default ∅ (MODEL_EXTRA_PARAMS !! model_id)
  ∪ {[ "model" := JStr model_id;
       "messages" := messages SYSTEM_PROMPT user_prompt;
       "max_tokens" := JNum api_max_tokens;
       "temperature" := temperature;
       "stream" := JBool true ]}.

Definition stream_request (max_tokens : Z) : request :=
  let stall_timeout :=
    default DEFAULT_STALL_TIMEOUT_SECONDS (MODEL_STALL_TIMEOUTS !! model_id) in
  {| req_url := OPENROUTER_URL;
     req_headers := headers api_key;
     req_json := stream_payload max_tokens;
     req_timeout := {| total := None; sock_read := Some stall_timeout |} |}.

(** The three accumulators of [_call_openrouter_stream]. *)
Record stream_state : Type := {
  content_parts : list json;
  reasoning_parts : list json;
  finish_reason : json
}.

Definition initial_state : stream_state :=
  {| content_parts := []; reasoning_parts := []; finish_reason := JNull |}.

(** What one iteration of the line loop does. *)
Inductive line_effect : Type :=
| Continue (st : stream_state)
| Break (st : stream_state)
| Return (d : dict).

Definition handle_line (st : stream_state) (raw_line : string) : res line_effect :=
  let line := rstrip_newlines raw_line in
  if negb (nonempty line) || startswith ":" line then Ok (Continue st)
  else if negb (startswith "data: " line) then Ok (Continue st)
  else
    let data_str := drop_str 6 line in
    if String.eqb (strip data_str) "[DONE]" then Ok (Break st)
    else
      match json_loads rt data_str with
      | None => Ok (Continue st)
      | Some chunk =>
          let? has_error := py_in "error" chunk in
          if has_error then
            let? err := py_item chunk "error" in
            let? msg := if is_dict err then py_get err "message"
                        else Ok (JStr (py_str rt err)) in
            Ok (Return {[ "error" :=
                  JStr ("Stream error: "
                        +:+ py_str rt (por msg (JStr (py_str rt err)))) ]})
          else
            let? choices_raw := py_get chunk "choices" in
            let choices := por choices_raw (JArr []) in
            if negb (truthy choices) then Ok (Continue st)
            else
              let? first := py_item0 choices in
              let? delta_raw := py_get (por first (JObj [])) "delta" in
              let delta := por delta_raw (JObj []) in
              let? c := py_get delta "content" in
              let parts := if truthy c then content_parts st ++ [c]
                           else content_parts st in
              let? r := py_get delta "reasoning" in
              let rparts := if truthy r then reasoning_parts st ++ [r]
                            else reasoning_parts st in
              let? fr := py_get (por first (JObj [])) "finish_reason" in
              Ok (Continue {| content_parts := parts;
                              reasoning_parts := rparts;
                              finish_reason := if truthy fr then fr
                                               else finish_reason st |})
      end.

(** The [async for] loop over [resp.content]: the state at loop exit, or
    the dict an in-band error returns. *)
Fixpoint consume (st : stream_state) (lines : list string) (ending : option exn)
    : res (stream_state + dict) :=
  match lines with
  | [] => match ending with
          | Some e => Raise e
          | None => Ok (inl st)
          end
  | raw_line :: rest =>
      let? eff := handle_line st raw_line in
      match eff with
      | Continue st' => consume st' rest ending
      | Break st' => Ok (inl st')
      | Return d => Ok (inr d)
      end
  end.

(** ["".join(content_parts)] *)
Fixpoint join_parts (parts : list json) : res string :=
  match parts with
  | [] => Ok EmptyString
  | JStr s :: rest => let? t := join_parts rest in Ok (s +:+ t)
  | _ :: _ => Raise (PyError "TypeError")
  end.

Definition finish_stream (elapsed : Z) (st : stream_state) : res dict :=
  let? joined := join_parts (content_parts st) in
  let content := strip joined in
  if nonempty content then
    Ok {[ "content" := JStr content;
          "finish_reason" := finish_reason st;
          "elapsed_seconds" := JNum elapsed;
          "streamed" := JBool true ]}
  else
    Ok {[ "error" := JStr "Empty response from model";
          "finish_reason" := finish_reason st;
          "has_reasoning" := JBool (truthy (JArr (reasoning_parts st)));
          "elapsed_seconds" := JNum elapsed;
          "streamed" := JBool true ]}.

(** [_stream_inner] once the response is there. *)
Definition read_stream_response (elapsed : Z) (resp : response) : res dict :=
  if negb (status resp =? 200) then
    let? error_text := text resp in
    Ok {[ "error" := JStr ("HTTP " +:+ pretty (status resp) +:+ ": "
                           +:+ take_str 300 error_text) ]}
  else
    let? out := consume initial_state (content resp) (content_end resp) in
    match out with
    | inr d => Ok d
    | inl st => finish_stream elapsed st
    end.

(** The safety cap [asyncio.wait_for(..., MAX_TOTAL_TIMEOUT_SECONDS)] shows
    as a [TimeoutError] of the network: [Fails] or [content_end]. *)
Definition _call_openrouter_stream (max_tokens : Z) : M dict :=
  let* started := loop_time net in
  let* resp := session_post net (stream_request max_tokens) in
  let* now := loop_time net in
  lift (read_stream_response (now - started) resp).

(** *** Dispatcher *)

Definition _call_openrouter (max_tokens timeout_seconds : Z) (stream : bool) : M dict :=
  if stream then
    try_with
      (let* result := _call_openrouter_stream max_tokens in
       if wants_retry model_id result then
         let budget := retry_max_tokens max_tokens in
         let* result := _call_openrouter_batch budget timeout_seconds in
         ret (annotate_retry budget result)
       else ret result)
      (fun e =>
         match e with
         | ClientError _ | TimeoutError =>
             _call_openrouter_batch max_tokens timeout_seconds
         | PyError _ => raise e
         end)
  else _call_openrouter_batch max_tokens timeout_seconds.

End Transport.

(** *** Fan-out *)

Record fanout : Type := {
  results : gmap string dict;
  meta_models : gmap string string;
  has_sources : bool
}.

(** [for label, task in tasks: out[label] = await task] *)
Fixpoint await_all (tasks : list (string * res dict)) (out : gmap string dict)
    : res (gmap string dict) :=
  match tasks with
  | [] => Ok out
  | (label, task) :: rest =>
      let? r := task in
      await_all rest (<[label := r]> out)
  end.

(** [{label: model_id for (label, model_id) in models}] *)
Definition models_dict (models : list (string * string)) : gmap string string :=
  foldl (fun m lm => <[lm.1 := lm.2]> m) ∅ models.

(** Every task talks to the session on its own: [nets i] is the network
    as the [i]-th task meets it, and a task starts with no request made. *)
Definition run_models (rt : runtime) (nets : nat -> network) (SYSTEM_PROMPT today : string)
    (prompt sources api_key : string) (models : list (string * string))
    (max_tokens : Z) (temperature : json) (timeout_seconds : Z) (stream : bool)
    : res fanout :=
  let user_prompt := Prompt.build_user_prompt prompt sources today in
  let tasks :=
    imap (fun i lm =>
            (lm.1, (_call_openrouter rt (nets i) SYSTEM_PROMPT lm.2 user_prompt api_key
                      temperature max_tokens timeout_seconds stream []).1))
         models in
  let? out := await_all tasks ∅ in
  Ok {| results := out;
        meta_models := models_dict models;
        has_sources := nonempty (strip sources) |}.

End Recs.

(* ===================================================================== *)
(** ** writing/multi_ai_writer.py *)
(* ===================================================================== *)

Module Writer.

Definition DEFAULT_GPT_MODEL_ID : string := "openai/gpt-5.2".
Definition DEFAULT_GEMINI_MODEL_ID : string := "google/gemini-3.1-pro-preview".

Definition MODEL_REASONING_OVERHEAD : gmap string Z :=
  {[ "openai/gpt-5.2" := 2048;
     "google/gemini-3.1-pro-preview" := 2048 ]}.

Definition MODEL_EXTRA_PARAMS : gmap string dict :=
  {[ "openai/gpt-5.2" := {[ "reasoning" := JObj [("max_tokens", JNum 2048)] ]};
     "google/gemini-3.1-pro-preview" :=
       {[ "reasoning" := JObj [("max_tokens", JNum 2048)] ]} ]}.

Definition DEFAULT_TIMEOUT_SECONDS : Z := 90.
Definition DEFAULT_MAX_TOKENS : Z := 2000.

Definition REDUCED_REASONING : dict :=
  {[ "reasoning" := JObj [("max_tokens", JNum 512)] ]}.

(** [min(max(max_tokens * 3, 2000), 8000)] *)
Definition retry_max_tokens (max_tokens : Z) : Z :=
  Z.min (Z.max (max_tokens * 3) 2000) 8000.

Definition wants_retry (model_id : string) (result : dict) : bool :=
  String.eqb model_id "google/gemini-3.1-pro-preview"
  && get_is result "error" "Empty response from model"
  && get_is result "finish_reason" "length".

Section Transport.

Context (rt : runtime) (net : network).
Context (SYSTEM_PROMPT : string).
Context (model_id prompt api_key : string).
Context (temperature : json).

Definition payload (effective_max_tokens : Z) (extra_params : option dict) : dict :=
  let overhead := default 0 (MODEL_REASONING_OVERHEAD !! model_id) in
  let api_max_tokens := effective_max_tokens + overhead in
  default ∅ extra_params
  ∪ default ∅ (MODEL_EXTRA_PARAMS !! model_id)
  ∪ {[ "model" := JStr model_id;
       "messages" := messages SYSTEM_PROMPT prompt;
       "max_tokens" := JNum api_max_tokens;
       "temperature" := temperature ]}.

Definition post_request (timeout_seconds effective_max_tokens : Z)
    (extra_params : option dict) : request :=
  {| req_url := OPENROUTER_URL;
     req_headers := headers api_key;
     req_json := payload effective_max_tokens extra_params;
     req_timeout := {| total := Some timeout_seconds; sock_read := None |} |}.

(** [d.get("message", fallback)] *)
Definition get_message_or (err : json) (fallback : json) : res json :=
  match err with
  | JObj kvs => Ok (default fallback (assoc "message" kvs))
  | _ => Raise (PyError "AttributeError")
  end.

Definition read_response (elapsed : Z) (resp : response) : res dict :=
  if negb (status resp =? 200) then
    let? error_text := text resp in
    Ok {[ "error" := JStr ("HTTP " +:+ pretty (status resp) +:+ ": "
                           +:+ take_str 300 error_text);
          "elapsed_seconds" := JNum elapsed ]}
  else
    let? data := json_body resp in
    let? has_error := py_in "error" data in
    if has_error then
      let? err := py_item data "error" in
      let? msg := get_message_or err (JStr (py_str rt err)) in
      Ok {[ "error" := msg; "elapsed_seconds" := JNum elapsed ]}
    else
      let? choices_raw := py_get data "choices" in
      let choices := por choices_raw (JArr []) in
      if negb (truthy choices) then
        Ok {[ "error" := JStr ("Unexpected response structure: "
                               +:+ take_str 200 (py_str rt data));
              "elapsed_seconds" := JNum elapsed ]}
      else
        let? first := py_item0 choices in
        let choice0 := por first (JObj []) in
        let? message_raw := py_get choice0 "message" in
        let message := por message_raw (JObj []) in
        let? finish_reason := py_get choice0 "finish_reason" in
        let? raw_content := py_get message "content" in
        let content := _coerce_content_to_text raw_content in
        let? reasoning := py_get message "reasoning" in
        if nonempty content then
          Ok {[ "content" := JStr content;
                "finish_reason" := finish_reason;
                "elapsed_seconds" := JNum elapsed ]}
        else
          Ok {[ "error" := JStr "Empty response from model";
                "finish_reason" := finish_reason;
                "has_reasoning" := JBool (truthy reasoning);
                "elapsed_seconds" := JNum elapsed ]}.

Definition _post (started timeout_seconds effective_max_tokens : Z)
    (extra_params : option dict) : M dict :=
  let* resp := session_post net
                 (post_request timeout_seconds effective_max_tokens extra_params) in
  let* now := loop_time net in
  lift (read_response (now - started) resp).

Definition handlers (started timeout_seconds : Z) (e : exn) : M dict :=
  let* now := loop_time net in
  let message :=
    match e with
    | TimeoutError => "Timeout after " +:+ pretty timeout_seconds +:+ "s"
    | ClientError _ => "Network error: " +:+ exn_str rt e
    | PyError _ => "Unexpected error: " +:+ exn_str rt e
    end in
  ret {[ "error" := JStr message; "elapsed_seconds" := JNum (now - started) ]}.

Definition call_openrouter (max_tokens timeout_seconds : Z) : M dict :=
  let* started := loop_time net in
  try_with
    (let* result := _post started timeout_seconds max_tokens None in
     if wants_retry model_id result then
       let budget := retry_max_tokens max_tokens in
       let* result := _post started timeout_seconds budget (Some REDUCED_REASONING) in
       ret (<["retried_with_max_tokens" := JNum budget]> result)
     else ret result)
    (handlers started timeout_seconds).

End Transport.

(** *** Platform inference and draft clean-up *)

Definition infer_platform (rt : runtime) (prompt : string) : option string :=
  match re_search1 rt
          "(?im)^\s*platform\s*:\s*(slack|email|linkedin|substack|article|other)\b"
          prompt with
  | Some g =>
      let platform := lower g in
      if String.eqb platform "other" then None else Some platform
  | None =>
      match re_search1 rt
              "(?im)^\s*<platform>\s*(slack|email|linkedin|substack|article|other)\b"
              prompt with
      | Some g =>
          let platform := lower g in
          if String.eqb platform "other" then None else Some platform
      | None => None
      end
  end.

(** [platform in {"slack", "linkedin"}] *)
Definition short_form (platform : option string) : bool :=
  match platform with
  | Some p => String.eqb p "slack" || String.eqb p "linkedin"
  | None => false
  end.

(** The regular-expression passes of [normalize_draft], up to the
    [strip] that ends them. *)
Definition clean_markup (rt : runtime) (text : string) : string :=
  let cleaned := strip text in
  let cleaned := re_sub rt "^```(?:\w+)?\s*" "" cleaned in
  let cleaned := re_sub rt "\s*```$" "" cleaned in
  let cleaned := re_sub rt "(?im)^\s*(here(?:'|')s|here is)\b.*?\n+" "" cleaned in
  let cleaned := re_sub rt "(?im)^\s*(draft|email draft|message)\s*:\s*\n+" "" cleaned in
  let cleaned := re_sub rt "(?im)^\s*#{1,6}\s+.*\n+" "" cleaned in
  let cleaned := re_sub rt "\r\n" nl cleaned in
  strip (re_sub rt "\n{3,}" (nl +:+ nl) cleaned).

(** [[line for line in lines if line.strip()]] over the right-stripped lines *)
Definition non_empty_lines (cleaned : string) : list string :=
  filter (fun line => nonempty (strip line) = true)
         (map rstrip (split_on LF cleaned)).

Definition limit_lines (cleaned : string) : string :=
  let non_empty := non_empty_lines cleaned in
  if (6 <? length non_empty)%nat
  then strip (join nl (take 6 non_empty))
  else cleaned.

Definition normalize_draft (rt : runtime) (text : string) (platform : option string)
    : string :=
  let cleaned := clean_markup rt text in
  if short_form platform then limit_lines cleaned else cleaned.

(** *** Fan-out *)

Record request_info : Type := {
  ri_max_tokens : Z;
  ri_temperature : json;
  ri_timeout_seconds : Z;
  ri_platform : option string
}.

Record output : Type := {
  model_a : dict;
  model_b : dict;
  models_used : gmap string string;
  model_a_label : string;
  model_b_label : string;
  runtime_name : string;
  request : request_info
}.

(** [_second_model_id], [_second_model_label]: [codex] is
    [_is_codex_runtime()], [opus_id] is [DEFAULT_OPUS_MODEL_ID]. *)
Definition _second_model_id (codex : bool) (opus_id : string) : string :=
  if codex then opus_id else DEFAULT_GPT_MODEL_ID.

Definition _second_model_label (codex : bool) : string :=
  if codex then "Claude Opus 4.6" else "GPT-5.2".

(** One slot of [asyncio.gather(..., return_exceptions=True)], turned into
    a dict. *)
Definition gathered (rt : runtime) (r : res dict) : dict :=
  match r with
  | Ok d => d
  | Raise e => {[ "error" := JStr (exn_str rt e) ]}
  end.

(** [if result.get("content"): result["content"] = normalize_draft(...)] *)
Definition normalize_result (rt : runtime) (platform : option string) (result : dict)
    : res dict :=
  if get_truthy result "content" then
    match result !! "content" with
    | Some (JStr text) =>
        Ok (<["content" := JStr (normalize_draft rt text platform)]> result)
    | _ => Raise (PyError "AttributeError")
    end
  else Ok result.

(** [net_a] and [net_b] are the network as each of the two calls meets it. *)
Definition run_parallel_calls (rt : runtime) (net_a net_b : network)
    (SYSTEM_PROMPT : string) (codex : bool) (opus_id : string)
    (prompt api_key : string) (max_tokens : Z) (temperature : json)
    (timeout_seconds : Z) (platform : option string) : res output :=
  let id_a := _second_model_id codex opus_id in
  let id_b := DEFAULT_GEMINI_MODEL_ID in
  let task_a := (call_openrouter rt net_a SYSTEM_PROMPT id_a prompt api_key temperature
                   max_tokens timeout_seconds []).1 in
  let task_b := (call_openrouter rt net_b SYSTEM_PROMPT id_b prompt api_key temperature
                   max_tokens timeout_seconds []).1 in
  let? model_a_result := normalize_result rt platform (gathered rt task_a) in
  let? model_b_result := normalize_result rt platform (gathered rt task_b) in
  Ok {| model_a := model_a_result;
        model_b := model_b_result;
        models_used := {[ "model_a" := id_a; "model_b" := id_b ]};
        model_a_label := _second_model_label codex;
        model_b_label := "Gemini 3.1 Pro";
        runtime_name := if codex then "codex" else "claude-code";
        request := {| ri_max_tokens := max_tokens;
                      ri_temperature := temperature;
                      ri_timeout_seconds := timeout_seconds;
                      ri_platform := platform |} |}.

End Writer.

(* ===================================================================== *)
(** ** Command-line entry points *)
(* ===================================================================== *)

Module Cli.

(** The exit status of a script run: the value given to [SystemExit],
    or 1 when an exception reaches the top level. *)
Definition exit_status (r : res Z) : Z :=
  match r with
  | Ok n => n
  | Raise _ => 1
  end.

(** [argparse] ends the process with status 2 on a command line it
    rejects; [None] stands for such a command line. *)
Definition ARGPARSE_ERROR : Z := 2.

(** [raw.split("=", 1)] when ["=" in raw] *)
Fixpoint split_once (sep : ascii) (s : string) : option (string * string) :=
  match s with
  | EmptyString => None
  | String c t =>
      if Ascii.eqb c sep then Some (EmptyString, t)
      else match split_once sep t with
           | Some (a, b) => Some (String c a, b)
           | None => None
           end
  end.

(** *** multi_ai_recs.py *)

Record recs_args : Type := {
  ra_prompt : string;
  ra_prompt_file : string;
  ra_sources_file : string;
  ra_sources_section : string;
  ra_model : list string;
  ra_max_tokens : Z;
  ra_temperature : json;
  ra_timeout : Z;
  ra_no_stream : bool
}.

(** What the process finds around it. *)
Record recs_host : Type := {
  read_text : string -> res string;              (* _read_text(path) *)
  openrouter_key : res (option string);          (* _getenv_with_dotenv(...) *)
  codex_runtime : bool;                          (* _is_codex_runtime() *)
  opus_model_id : string;                        (* DEFAULT_OPUS_MODEL_ID *)
  write_results : Recs.fanout -> res unit        (* --out-dir, --out or stdout *)
}.

Definition _default_models (codex : bool) (opus_id : string) : list (string * string) :=
  if codex
  then [("Claude Opus 4.5", opus_id); ("Gemini 3.1 Pro", Recs.DEFAULT_GEMINI_MODEL_ID)]
  else [("GPT-5.2", Recs.DEFAULT_GPT_MODEL_ID);
        ("Gemini 3.1 Pro", Recs.DEFAULT_GEMINI_MODEL_ID)].

(** The loop over [args.model]; [None] where [main] returns 2. *)
Fixpoint parse_models (raws : list string) : option (list (string * string)) :=
  match raws with
  | [] => Some []
  | raw :: rest =>
      match split_once "="%char raw with
      | None => None
      | Some (label, model_id) =>
          let label := strip label in
          let model_id := strip model_id in
          if negb (nonempty label) || negb (nonempty model_id) then None
          else match parse_models rest with
               | Some ms => Some ((label, model_id) :: ms)
               | None => None
               end
      end
  end.

Section RecsMain.

Context (rt : runtime) (host : recs_host) (nets : nat -> network).
Context (SYSTEM_PROMPT today : string).
(** [_extract_markdown_section(text, heading_query=...)]; [main] only
    forwards what it returns. *)
Context (_extract_markdown_section : string -> string -> string).

Definition recs_main (argv : option recs_args) : res Z :=
  match argv with
  | None => Ok ARGPARSE_ERROR
  | Some args =>
      let? prompt :=
        if negb (nonempty (ra_prompt args)) && nonempty (ra_prompt_file args)
        then read_text host (ra_prompt_file args)
        else Ok (ra_prompt args) in
      if negb (nonempty (strip prompt)) then Ok 2
      else
        let? sources :=
          if nonempty (ra_sources_file args)
          then read_text host (ra_sources_file args)
          else Ok EmptyString in
        let sources :=
          if nonempty sources && nonempty (strip (ra_sources_section args)) then
            let extracted := _extract_markdown_section sources (ra_sources_section args) in
            if nonempty extracted then extracted else sources
          else sources in
        let? key := openrouter_key host in
        let api_key := default EmptyString key in
        if negb (nonempty api_key) then Ok 2
        else
          let parsed :=
            match ra_model args with
            | [] => Some (_default_models (codex_runtime host) (opus_model_id host))
            | raws => parse_models raws
            end in
          match parsed with
          | None => Ok 2
          | Some models =>
              let? result :=
                Recs.run_models rt nets SYSTEM_PROMPT today prompt sources api_key models
                  (Z.max 500 (Z.min (ra_max_tokens args) 16000))
                  (ra_temperature args)
                  (Z.max 30 (Z.min (ra_timeout args) 600))
                  (negb (ra_no_stream args)) in
              let? _ := write_results host result in
              Ok 0
          end
  end.

End RecsMain.

(** What [main] hands to the fan-out, part by part. *)
Section RecsInputs.

Context (host : recs_host).
Context (_extract_markdown_section : string -> string -> string).




End RecsInputs.

(** *** multi_ai_writer.py *)

Record writer_args : Type := {
  wa_prompt : string;
  wa_force_codex_runtime : bool;
  wa_max_tokens : Z;
  wa_temperature : json;
  wa_timeout : Z;
  wa_user_set_max_tokens : bool;      (* "--max-tokens" in sys.argv *)
  wa_user_set_timeout : bool          (* "--timeout" in sys.argv *)
}.

Record writer_host : Type := {
  environ_key : option string;        (* os.environ.get("OPENROUTER_API_KEY") *)
  dotenv_key : option string;         (* _load_dotenv_var(...) *)
  codex_env : bool;                   (* a CODEX* variable is set *)
  opus_id : string                    (* DEFAULT_OPUS_MODEL_ID *)
}.

(** [a or b] on optional strings *)
Definition or_else (a b : option string) : option string :=
  match a with
  | Some s => if nonempty s then a else b
  | None => b
  end.

Definition platform_max_tokens (platform : option string) (user_set : bool)
    (max_tokens : Z) : Z :=
  match platform with
  | Some p =>
      if user_set then max_tokens
      else if String.eqb p "slack" then Z.min max_tokens 250
      else if String.eqb p "linkedin" then Z.min max_tokens 300
      else if String.eqb p "email" then Z.min max_tokens 800
      else if String.eqb p "substack" || String.eqb p "article"
           then Z.max max_tokens 2500
      else max_tokens
  | None => max_tokens
  end.

Section WriterMain.

Context (rt : runtime) (host : writer_host) (net_a net_b : network).
Context (SYSTEM_PROMPT : string).

Definition writer_main (argv : option writer_args) : res Z :=
  match argv with
  | None => Ok ARGPARSE_ERROR
  | Some args =>
      let codex := wa_force_codex_runtime args || codex_env host in
      let platform := Writer.infer_platform rt (wa_prompt args) in
      let effective_max_tokens :=
        platform_max_tokens platform (wa_user_set_max_tokens args) (wa_max_tokens args) in
      let effective_timeout :=
        if Writer.short_form platform && negb (wa_user_set_timeout args)
        then Z.min (wa_timeout args) 35 else wa_timeout args in
      match or_else (environ_key host) (dotenv_key host) with
      | None => Ok 1
      | Some api_key =>
          if negb (nonempty api_key) then Ok 1
          else
            let? results :=
              Writer.run_parallel_calls rt net_a net_b SYSTEM_PROMPT codex (opus_id host)
                (wa_prompt args) api_key effective_max_tokens (wa_temperature args)
                effective_timeout platform in
            Ok 0
      end
  end.

End WriterMain.

(** *** firecrawl_search.py *)

Record search_args : Type := {
  sa_query : string;
  sa_limit : Z;
  sa_lang : string;
  sa_country : string;
  sa_format : string
}.

Record search_host : Type := {
  firecrawl_key : option string;                  (* os.getenv("FIRECRAWL_API_KEY") *)
  request_json : string -> dict -> res json       (* _request_json(api_key, payload) *)
}.

Definition is_list (v : json) : bool :=
  match v with JArr _ => true | _ => false end.

Definition _coerce_results (data : json) : res json :=
  let? d := py_get data "data" in
  let? nested :=
    if is_dict d then let? r := py_get d "results" in Ok (is_list r) else Ok false in
  if nested then let? d := py_item data "data" in py_item d "results"
  else
    let? r := py_get data "results" in
    if is_list r then py_item data "results"
    else
      let? d := py_get data "data" in
      if is_list d then py_item data "data" else Ok (JArr []).

(** [v.strip()] *)
Definition py_strip (v : json) : res string :=
  match v with
  | JStr s => Ok (strip s)
  | _ => Raise (PyError "AttributeError")
  end.

Section SearchMain.

Context (rt : runtime) (host : search_host).
(** The placeholder literal that stands for a missing title. *)
Context (NO_TITLE : string).

(** [(r.get(k1) or r.get(k2) or fallback).strip()] *)
Definition field (r : json) (k1 k2 fallback : string) : res string :=
  let? a := py_get r k1 in
  let? v := if truthy a then Ok a
            else let? b := py_get r k2 in Ok (por b (JStr fallback)) in
  py_strip v.

Fixpoint md_lines (i : Z) (results : list json) : res (list string) :=
  match results with
  | [] => Ok []
  | r :: rest =>
      let? title := field r "title" "name" NO_TITLE in
      let? url := field r "url" "link" "" in
      let? snippet := field r "snippet" "description" "" in
      let here :=
        if nonempty url then
          (pretty i +:+ ". " +:+ title +:+ nl +:+ "   - <" +:+ url +:+ ">")
          :: (if nonempty snippet then ["   - " +:+ snippet] else [])
        else [pretty i +:+ ". " +:+ title] in
      let? more := md_lines (i + 1) rest in
      Ok (here ++ more)
  end.

Definition _to_md (results : json) : res string :=
  match results with
  | JArr rs => let? lines := md_lines 1 rs in Ok (rstrip (join nl lines) +:+ nl)
  | _ => Raise (PyError "TypeError")
  end.

Definition search_payload (args : search_args) : dict :=
  let base : dict :=
    {[ "query" := JStr (sa_query args);
       "limit" := JNum (Z.max 1 (Z.min (sa_limit args) 50)) ]} in
  let with_lang :=
    if nonempty (sa_lang args) then <["lang" := JStr (sa_lang args)]> base else base in
  if nonempty (sa_country args)
  then <["country" := JStr (sa_country args)]> with_lang else with_lang.

Definition search_main (argv : option search_args) : res Z :=
  match argv with
  | None => Ok ARGPARSE_ERROR
  | Some args =>
      let api_key := default EmptyString (firecrawl_key host) in
      if negb (nonempty api_key) then Ok 2
      else
        match request_json host api_key (search_payload args) with
        | Raise _ => Ok 1
        | Ok data =>
            let? results := _coerce_results data in
            if String.eqb (sa_format args) "json" then Ok 0
            else let? md := _to_md results in Ok 0
        end
  end.

End SearchMain.

End Cli.

(* ===================================================================== *)
(** ** Sample runs *)
(* ===================================================================== *)

Module Sample.

Definition dq : string := String "034"%char EmptyString.
Definition quoted (s : string) : string := dq +:+ s +:+ dq.

(** The text [{"choices":[{"delta":{"content":<c>}}]}] *)
Definition content_chunk_text (c : string) : string :=
  "{" +:+ quoted "choices" +:+ ":[{" +:+ quoted "delta" +:+ ":{"
  +:+ quoted "content" +:+ ":" +:+ quoted c +:+ "}}]}".

Definition content_chunk (c : string) : json :=
  JObj [("choices", JArr [JObj [("delta", JObj [("content", JStr c)])]])].

(** [json.loads] on the documents the sample runs receive; any other text
    is taken as undecodable. *)
Definition sample_loads (s : string) : option json :=
  if String.eqb s "5" then Some (JNum 5)
  else if String.eqb s (content_chunk_text "Hel") then Some (content_chunk "Hel")
  else if String.eqb s (content_chunk_text "lo") then Some (content_chunk "lo")
  else None.

(** A runtime for the sample runs: none of them renders a container or an
    exception text, and none of their drafts matches a clean-up pattern. *)
Definition sample_runtime : runtime :=
  {| json_loads := sample_loads;
     repr_container := fun _ => "{...}";
     err_text := fun cls => cls;
     re_sub := fun _ _ s => s;
     re_search1 := fun _ _ => None |}.

Definition data_line (payload : string) : string := "data: " +:+ payload +:+ nl.

Definition ok_response (data : json) : response :=
  {| status := 200; text := Raise (PyError "unread");
     json_body := Ok data; content := []; content_end := None |}.

Definition stream_response (lines : list string) : response :=
  {| status := 200; text := Raise (PyError "unread");
     json_body := Raise (PyError "unread"); content := lines; content_end := None |}.

Definition error_response (code : Z) (body : string) : response :=
  {| status := code; text := Ok body;
     json_body := Raise (PyError "unread"); content := []; content_end := None |}.

Definition always (r : reply) : network :=
  {| respond := fun _ _ => r; clock := fun n => 1000 * Z.of_nat n |}.

(** A completion that spent its budget on reasoning: no content,
    [finish_reason] is ["length"]. *)
Definition truncated_completion : json :=
  JObj [("choices",
         JArr [JObj [("message", JObj [("content", JStr "");
                                       ("reasoning", JStr "thinking")]);
                     ("finish_reason", JStr "length")]])].

Definition completion (content : string) : json :=
  JObj [("choices",
         JArr [JObj [("message", JObj [("content", JStr content)]);
                     ("finish_reason", JStr "stop")]])].

(** The stream [Hel], [lo], then the terminal marker. *)
Definition hello_lines : list string :=
  [data_line (content_chunk_text "Hel"); data_line (content_chunk_text "lo");
   data_line "[DONE]"].

(** A streaming call to a server that answers 500 to everything. *)
Definition rate_limited : network := always (Responds (error_response 500 "rate limited")).

Definition rate_limited_run : res dict * world :=
  Recs._call_openrouter sample_runtime rate_limited "S" "openai/gpt-5.2" "u" "k"
    (JNum 0) 1000 60 true [].

(** A server whose every completion is truncated before any content. *)
Definition truncating : network := always (Responds (ok_response truncated_completion)).

Definition writer_truncated_run : res dict * world :=
  Writer.call_openrouter sample_runtime truncating "S" "google/gemini-3.1-pro-preview"
    "u" "k" (JNum 0) 1000 90 [].

(** What a truncated completion is read as by the recommendations module. *)
Definition truncated_result : dict :=
  {[ "error" := JStr "Empty response from model";
     "finish_reason" := JStr "length";
     "has_reasoning" := JBool true ]}.

(** A 200 response whose choices array is empty. *)
Definition no_choices : response := ok_response (JObj [("choices", JArr [])]).

(** A draft of eight lines, and a server that answers with it. *)
Definition eight_lines : string :=
  join nl ["one"; "two"; "three"; "four"; "five"; "six"; "seven"; "eight"].

Definition six_lines : string :=
  join nl ["one"; "two"; "three"; "four"; "five"; "six"].

Definition drafting : network := always (Responds (ok_response (completion eight_lines))).

(** A stream whose only fragment is the JSON number 5, and one that
    answers [Hello]. *)
Definition scalar_fragment : network :=
  always (Responds (stream_response [data_line "5"])).

Definition answering : network := always (Responds (stream_response hello_lines)).

(** A fan-out over two models: the first meets the scalar fragment, the
    second is answered. *)
Definition fanout_nets (i : nat) : network :=
  match i with
  | O => scalar_fragment
  | S _ => answering
  end.

Definition two_models : list (string * string) := [("A", "model/a"); ("B", "model/b")].

Definition broken_fanout : res Recs.fanout :=
  Recs.run_models sample_runtime fanout_nets "S" "2026-01-01" "which laptop" "" "k"
    two_models 1000 (JNum 0) 60 true.

(** The second call of that fan-out, taken alone. *)
Definition second_call : res dict :=
  (Recs._call_openrouter sample_runtime (fanout_nets 1) "S" "model/b"
     (Prompt.build_user_prompt "which laptop" "" "2026-01-01") "k" (JNum 0)
     1000 60 true []).1.






Definition recs_command : Cli.recs_args :=
  {| Cli.ra_prompt := "which laptop"; Cli.ra_prompt_file := "";
     Cli.ra_sources_file := ""; Cli.ra_sources_section := "";
     Cli.ra_model := []; Cli.ra_max_tokens := 4096; Cli.ra_temperature := JNum 0;
     Cli.ra_timeout := 300; Cli.ra_no_stream := true |}.

Definition recs_host_ok : Cli.recs_host :=
  {| Cli.read_text := fun _ => Raise (PyError "FileNotFoundError");
     Cli.openrouter_key := Ok (Some "k");
     Cli.codex_runtime := false;
     Cli.opus_model_id := "anthropic/claude-opus-4.5";
     Cli.write_results := fun _ => Ok tt |}.

(** A streaming call over a connection on which every request times out. *)
Definition unreachable : network := always (Fails TimeoutError).

(** A server that truncates the first completion and never answers the
    request that follows. *)
Definition truncated_then_silent : network :=
  {| respond := fun n _ =>
       match n with
       | O => Responds (ok_response truncated_completion)
       | S _ => Fails TimeoutError
       end;
     clock := fun n => 1000 * Z.of_nat n |}.

Definition silent_retry_run : res dict * world :=
  Recs._call_openrouter_batch sample_runtime truncated_then_silent "S" "openai/gpt-5.2"
    "u" "k" (JNum 0) 1000 60 [].

Definition writer_silent_retry_run : res dict * world :=
  Writer.call_openrouter sample_runtime truncated_then_silent "S"
    "google/gemini-3.1-pro-preview" "u" "k" (JNum 0) 1000 90 [].



End Sample.

(* ===================================================================== *)
(** ** Vocabulary of the statements *)
(* ===================================================================== *)

Module Policy.

(** The failures of one exchange that the retry policy leaves alone. *)
Inductive failure : Type :=
| HttpError (code : Z) (body : string)
| Timeout
| NetworkError (detail : string)
| StreamError (d : dict).

Definition is_streaming (rq : request) : bool :=
  match req_json rq !! "stream" with
  | Some (JBool true) => true
  | _ => false
  end.

(** A transport exception met by the batch strategy. *)
Definition batch_transport_failure (e : exn) : option failure :=
  match e with
  | TimeoutError => Some Timeout
  | ClientError d => Some (NetworkError d)
  | PyError _ => None
  end.

(** Which of these failures, if any, the reply [rp] to the request [rq]
    is: a status other than 200 whose body can be read, a timeout or a
    network error of a batch request, an error object inside a stream.
    A timeout or network error of a streaming request is not one of them:
    it is the transition to the batch strategy. *)
Definition terminal_failure (rt : runtime) (rq : request) (rp : reply) : option failure :=
  match rp with
  | Fails e => if is_streaming rq then None else batch_transport_failure e
  | Responds r =>
      if negb (status r =? 200) then
        match text r with
        | Ok body => Some (HttpError (status r) body)
        | Raise e => if is_streaming rq then None else batch_transport_failure e
        end
      else if is_streaming rq then
        match Recs.consume rt Recs.initial_state (content r) (content_end r) with
        | Ok (inr d) => Some (StreamError d)
        | _ => None
        end
      else
        match json_body r with
        | Ok _ => None
        | Raise e => batch_transport_failure e
        end
  end.

(** The ["error"] entry that reports such a failure. *)
Definition failure_report (rt : runtime) (timeout_seconds : Z) (f : failure) : option json :=
  match f with
  | HttpError code body =>
      Some (JStr ("HTTP " +:+ pretty code +:+ ": " +:+ take_str 300 body))
  | Timeout => Some (JStr ("Timeout after " +:+ pretty timeout_seconds +:+ "s"))
  | NetworkError d => Some (JStr ("Network error: " +:+ d))
  | StreamError d => d !! "error"
  end.

(** *** Closed forms used to describe a run *)

(** The outcome of the batch exchange made as request number [n]. *)
Definition batch_exchange (rt : runtime) (net : network) (started : Z)
    (n : nat) (rq : request) : res dict :=
  match respond net n rq with
  | Fails e => Raise e
  | Responds r => Recs.read_batch_response rt (clock net (S n) - started) r
  end.

(** The outcome of the streaming exchange made as request number [n]. *)
Definition stream_exchange (rt : runtime) (net : network) (started : Z)
    (n : nat) (rq : request) : res dict :=
  match respond net n rq with
  | Fails e => Raise e
  | Responds r => Recs.read_stream_response rt (clock net (S n) - started) r
  end.

(** [result] with an [elapsed_seconds] entry, as the batch strategy
    returns it. *)
Definition with_elapsed (elapsed : Z) (result : dict) : dict :=
  if bool_decide (is_Some (result !! "elapsed_seconds")) then result
  else <["elapsed_seconds" := JNum elapsed]> result.

(** The dict an [except] clause of the batch strategy returns. *)
Definition handled (rt : runtime) (t : Z) (e : exn) : dict :=
  match e with
  | TimeoutError => {[ "error" := JStr ("Timeout after " +:+ pretty t +:+ "s") ]}
  | ClientError _ => {[ "error" := JStr ("Network error: " +:+ exn_str rt e) ]}
  | PyError _ => {[ "error" := JStr ("Unexpected error: " +:+ exn_str rt e) ]}
  end.

(** The same closed forms for the writing module. *)
Definition writer_exchange (rt : runtime) (net : network) (started : Z)
    (n : nat) (rq : request) : res dict :=
  match respond net n rq with
  | Fails e => Raise e
  | Responds r => Writer.read_response rt (clock net (S n) - started) r
  end.

Definition writer_handled (rt : runtime) (t elapsed : Z) (e : exn) : dict :=
  {[ "error" := JStr match e with
                     | TimeoutError => "Timeout after " +:+ pretty t +:+ "s"
                     | ClientError _ => "Network error: " +:+ exn_str rt e
                     | PyError _ => "Unexpected error: " +:+ exn_str rt e
                     end;
     "elapsed_seconds" := JNum elapsed ]}.

Definition network_level (e : exn) : bool :=
  match e with
  | ClientError _ | TimeoutError => true
  | PyError _ => false
  end.

End Policy.
Import Policy.

(** *** Results of the writing module *)

(** A result has no content, or a non-empty text. *)
Definition text_or_none (d : dict) : Prop :=
  d !! "content" = None
  \/ exists s, d !! "content" = Some (JStr s) /\ nonempty s = true.

(** *** Lines of a draft *)

(** A line as [non_empty_lines] keeps it: without line feed, stripped on
    the right, and not blank. *)
Definition kept (line : string) : Prop :=
  has_char LF line = false /\ rstrip line = line /\ nonempty (strip line) = true.

(** *** Event streams *)

Module Sse.

(** A line of an event stream as the design sees it: noise (a blank line,
    a comment, a line without data payload, a payload that is not JSON, an
    object without choices),
    or a fragment with its increment of content, its increment of
    reasoning text (empty when it has none) and its finish reason. *)
Inductive event : Type :=
| Noise
| Fragment (content reasoning : string) (finish : option string).

(** The payload of a data line. *)
Definition payload_of (raw_line : string) : string :=
  drop_str 6 (rstrip_newlines raw_line).

Definition is_data_line (raw_line : string) : bool :=
  startswith "data: " (rstrip_newlines raw_line).

(** The terminal marker. *)
Definition is_done (raw_line : string) : bool :=
  is_data_line raw_line && String.eqb (strip (payload_of raw_line)) "[DONE]".

(** An optional text field: absent or null, or a string. *)
Inductive text_field : json -> string -> Prop :=
| text_absent : text_field JNull ""
| text_present s : text_field (JStr s) s.

(** A finish reason: null, or one of the provider's non-empty names. *)
Inductive finish_field : json -> option string -> Prop :=
| finish_null : finish_field JNull None
| finish_named s : s <> "" -> finish_field (JStr s) (Some s).

(** The decoded payload [chunk] is a fragment: an object without error
    envelope whose first choice has the delta and the finish reason. *)
Inductive carries : json -> event -> Prop :=
| carries_fragment kvs ckv rest dkv c r f :
    assoc "error" kvs = None ->
    assoc "choices" kvs = Some (JArr (JObj ckv :: rest)) ->
    por (default JNull (assoc "delta" ckv)) (JObj []) = JObj dkv ->
    text_field (default JNull (assoc "content" dkv)) c ->
    text_field (default JNull (assoc "reasoning" dkv)) r ->
    finish_field (default JNull (assoc "finish_reason" ckv)) f ->
    carries (JObj kvs) (Fragment c r f).

Inductive reads (rt : runtime) : string -> event -> Prop :=
| reads_blank raw : rstrip_newlines raw = "" -> reads rt raw Noise
| reads_comment raw : startswith ":" (rstrip_newlines raw) = true -> reads rt raw Noise
| reads_no_data raw : is_data_line raw = false -> reads rt raw Noise
| reads_malformed raw :
    is_data_line raw = true -> is_done raw = false ->
    json_loads rt (payload_of raw) = None ->
    reads rt raw Noise
| reads_no_choices raw kvs :
    is_data_line raw = true -> is_done raw = false ->
    json_loads rt (payload_of raw) = Some (JObj kvs) ->
    assoc "error" kvs = None ->
    truthy (default JNull (assoc "choices" kvs)) = false ->
    reads rt raw Noise
| reads_fragment raw chunk e :
    is_data_line raw = true -> is_done raw = false ->
    json_loads rt (payload_of raw) = Some chunk ->
    carries chunk e ->
    reads rt raw e.

(** What the design says a stream of events amounts to. *)
Definition content_of (e : event) : string :=
  match e with
  | Noise => ""
  | Fragment c _ _ => c
  end.

Definition reasoning_of (e : event) : string :=
  match e with
  | Noise => ""
  | Fragment _ r _ => r
  end.

(** The content increments, concatenated in arrival order. *)
Definition all_content (events : list event) : string :=
  foldr (fun e acc => content_of e +:+ acc) "" events.

Definition any_reasoning (events : list event) : bool :=
  existsb (fun e => nonempty (reasoning_of e)) events.

(** The last finish reason that is not null, if there is one. *)
Definition last_finish (events : list event) : option string :=
  foldl (fun acc e => match e with
                      | Fragment _ _ (Some s) => Some s
                      | _ => acc
                      end) None events.

Definition finish_json (f : option string) : json :=
  match f with
  | Some s => JStr s
  | None => JNull
  end.

Definition stream_outcome (elapsed : Z) (events : list event) : dict :=
  let content := strip (all_content events) in
  if nonempty content then
    {[ "content" := JStr content;
       "finish_reason" := finish_json (last_finish events);
       "elapsed_seconds" := JNum elapsed;
       "streamed" := JBool true ]}
  else
    {[ "error" := JStr "Empty response from model";
       "finish_reason" := finish_json (last_finish events);
       "has_reasoning" := JBool (any_reasoning events);
       "elapsed_seconds" := JNum elapsed;
       "streamed" := JBool true ]}.

(** The state of the line loop after an event. *)
Definition after_event (st : Recs.stream_state) (e : event) : Recs.stream_state :=
  match e with
  | Noise => st
  | Fragment c r f =>
      {| Recs.content_parts :=
           if nonempty c then Recs.content_parts st ++ [JStr c]
           else Recs.content_parts st;
         Recs.reasoning_parts :=
           if nonempty r then Recs.reasoning_parts st ++ [JStr r]
           else Recs.reasoning_parts st;
         Recs.finish_reason :=
           match f with
           | Some s => JStr s
           | None => Recs.finish_reason st
           end |}
  end.

End Sse.

(* ===================================================================== *)
(** ** Keys from the environment and from a .env file *)
(* ===================================================================== *)

Module Env.

(** [os.environ] *)
Abbreviation environ := (gmap string string).

Definition is_dquote (c : ascii) : bool := Ascii.eqb c "034"%char.
Definition is_squote (c : ascii) : bool := Ascii.eqb c "'"%char.

(** [s.strip(chars)] for the characters that satisfy [p] *)
Definition strip_chars (p : ascii -> bool) (s : string) : string :=
  rstrip_by p (lstrip_by p s).

(** [s.endswith(c)] for a character *)
Fixpoint endswith_char (c : ascii) (s : string) : bool :=
  match s with
  | EmptyString => false
  | String a EmptyString => Ascii.eqb a c
  | String _ t => endswith_char c t
  end.

(** [s[:-1]] *)
Fixpoint drop_last (s : string) : string :=
  match s with
  | EmptyString => EmptyString
  | String _ EmptyString => EmptyString
  | String a t => String a (drop_last t)
  end.

(** The characters at which [str.splitlines] cuts, below 256. *)
Definition is_linebreak (c : ascii) : bool :=
  let n := nat_of_ascii c in
  ((10 <=? n) && (n <=? 13) || (28 <=? n) && (n <=? 30) || (n =? 133))%nat.

(** [s.splitlines(keepends)] *)
Fixpoint splitlines (keepends : bool) (s : string) : list string :=
  match s with
  | EmptyString => []
  | String c t =>
      if is_linebreak c then
        match t with
        | String d t' =>
            if Ascii.eqb c CR && Ascii.eqb d LF
            then (if keepends then String c (String d EmptyString) else EmptyString)
                 :: splitlines keepends t'
            else (if keepends then String c EmptyString else EmptyString)
                 :: splitlines keepends t
        | EmptyString => [if keepends then String c EmptyString else EmptyString]
        end
      else
        match splitlines keepends t with
        | [] => [String c EmptyString]
        | h :: r => String c h :: r
        end
  end.

(** *** multi_ai_recs.py *)

(** One iteration of the loop of [_read_env_file]: the pair a line
    defines, if it defines one. *)
Definition env_line (raw : string) : option (string * string) :=
  let line := strip raw in
  if negb (nonempty line) || startswith "#" line then None
  else
    match Cli.split_once "="%char line with
    | None => None
    | Some (key, value) =>
        let key := strip key in
        let value := strip_chars is_squote (strip_chars is_dquote (strip value)) in
        if nonempty key then Some (key, value) else None
    end.

Fixpoint read_lines (lines : list string) (out : gmap string string)
    : gmap string string :=
  match lines with
  | [] => out
  | raw :: rest =>
      match env_line raw with
      | Some (key, value) =>
          read_lines rest
            (if bool_decide (is_Some (out !! key)) then out else <[key := value]> out)
      | None => read_lines rest out
      end
  end.

(** [file] is [None] when the path does not exist, and otherwise the lines
    that iterating the open file gives. *)
Definition _read_env_file (file : option (list string)) : gmap string string :=
  match file with
  | None => ∅
  | Some lines => read_lines lines ∅
  end.

Definition _getenv_with_dotenv (env : environ) (file : option (list string))
    (key : string) : option string :=
  match env !! key with
  | Some val => if nonempty val then Some val
                else Cli.or_else (_read_env_file file !! key) None
  | None => Cli.or_else (_read_env_file file !! key) None
  end.

(** *** multi_ai_writer.py *)

(** What one line of the file says about [key]: nothing ([None], the loop
    goes on), or the value the function returns at once. *)
Definition dotenv_line (key raw_line : string) : option (option string) :=
  let line := strip raw_line in
  if negb (nonempty line) || startswith "#" line then None
  else
    let line := if startswith "export " line then lstrip (drop_str 7 line) else line in
    match Cli.split_once "="%char line with
    | None => None
    | Some (k, v) =>
        if negb (String.eqb (strip k) key) then None
        else
          let value := strip v in
          let value :=
            if startswith (String "034"%char EmptyString) value
               && endswith_char "034"%char value
               || startswith "'" value && endswith_char "'"%char value
            then drop_last (drop_str 1 value) else value in
          Some (if nonempty value then Some value else None)
    end.

Fixpoint scan_lines (key : string) (lines : list string) : option string :=
  match lines with
  | [] => None
  | raw_line :: rest =>
      match dotenv_line key raw_line with
      | Some value => value
      | None => scan_lines key rest
      end
  end.

(** [text] is [None] when the file does not exist or cannot be read. *)
Definition _load_dotenv_var (env : environ) (text : option string) (key : string)
    : option string :=
  match env !! key with
  | Some existing =>
      if nonempty existing then Some existing
      else match text with
           | None => None
           | Some t => scan_lines key (splitlines false t)
           end
  | None =>
      match text with
      | None => None
      | Some t => scan_lines key (splitlines false t)
      end
  end.

(** *** The runtime and its models *)

(** [bool(os.environ.get(name))] *)
Definition env_set (env : environ) (name : string) : bool :=
  match env !! name with
  | Some v => nonempty v
  | None => false
  end.

(** [_is_codex_runtime] of multi_ai_recs.py *)
Definition recs_is_codex_runtime (env : environ) : bool :=
  env_set env "CODEX_SANDBOX"
  || env_set env "CODEX_MANAGED_BY_NPM"
  || env_set env "CODEX"
  || env_set env "CODEX_INTERNAL_ORIGINATOR_OVERRIDE"
  || env_set env "CODEX_SANDBOX_NETWORK_DISABLED".

(** [_is_codex_runtime] of multi_ai_writer.py; [force] is
    [FORCE_CODEX_RUNTIME]. *)
Definition writer_is_codex_runtime (force : bool) (env : environ) : bool :=
  force
  || (env_set env "CODEX_SANDBOX"
      || env_set env "CODEX_MANAGED_BY_NPM"
      || env_set env "CODEX").

(** [DEFAULT_OPUS_MODEL_ID] of the two modules *)
Definition recs_opus_model_id (env : environ) : string :=
  default "anthropic/claude-opus-4.5" (Cli.or_else (env !! "OPENROUTER_OPUS_MODEL") None).

Definition writer_opus_model_id (env : environ) : string :=
  default "anthropic/claude-opus-4-6" (Cli.or_else (env !! "OPENROUTER_OPUS_MODEL") None).

(** The hosts as the two [main] functions find them in an environment
    [env] and with a .env file. *)
Definition recs_host_of (env : environ) (file : option (list string))
    (read_text : string -> res string) (write_results : Recs.fanout -> res unit)
    : Cli.recs_host :=
  {| Cli.read_text := read_text;
     Cli.openrouter_key := Ok (_getenv_with_dotenv env file "OPENROUTER_API_KEY");
     Cli.codex_runtime := recs_is_codex_runtime env;
     Cli.opus_model_id := recs_opus_model_id env;
     Cli.write_results := write_results |}.

Definition writer_host_of (env : environ) (text : option string) : Cli.writer_host :=
  {| Cli.environ_key := env !! "OPENROUTER_API_KEY";
     Cli.dotenv_key := _load_dotenv_var env text "OPENROUTER_API_KEY";
     Cli.codex_env := writer_is_codex_runtime false env;
     Cli.opus_id := writer_opus_model_id env |}.

End Env.

(* ===================================================================== *)
(** ** Markdown in and out (multi_ai_recs.py) *)
(* ===================================================================== *)

Module Markdown.

Definition is_hash (c : ascii) : bool := Ascii.eqb c "#"%char.

(** [ln = raw.rstrip("\n")] *)
Definition rstrip_lf : string -> string := rstrip_by (fun c => Ascii.eqb c LF).

(** [hashes = len(ln) - len(ln.lstrip("#"))] *)
Definition hashes (ln : string) : nat :=
  String.length ln - String.length (lstrip_by is_hash ln).

(** [title = ln[hashes:].strip()] *)
Definition title (ln : string) : string := strip (drop_str (hashes ln) ln).

(** The first loop: the index and the level of the first heading whose
    title starts with [q], scanning from index [i]. *)
Fixpoint find_heading (q : string) (i : nat) (lines : list string) : option (nat * nat) :=
  match lines with
  | [] => None
  | raw :: rest =>
      let ln := rstrip_lf raw in
      if negb (startswith "#" ln) then find_heading q (S i) rest
      else if negb (nonempty (title ln)) then find_heading q (S i) rest
      else if startswith q (lower (title ln)) then Some (i, hashes ln)
      else find_heading q (S i) rest
  end.

(** The second loop: the index of the first heading of level at most
    [level], scanning from index [j]; [len(lines)] when there is none. *)
Fixpoint find_end (level j : nat) (lines : list string) : nat :=
  match lines with
  | [] => j
  | raw :: rest =>
      let ln := rstrip_lf raw in
      if negb (startswith "#" ln) then find_end level (S j) rest
      else if (hashes ln <=? level)%nat then j
      else find_end level (S j) rest
  end.

(** A line is a heading whose title starts with [q]. *)
Definition heading_for (q raw : string) : bool :=
  let ln := rstrip_lf raw in
  startswith "#" ln && nonempty (title ln) && startswith q (lower (title ln)).

Definition _extract_markdown_section (text heading_query : string) : string :=
  let q := lower (strip heading_query) in
  if negb (nonempty q) then EmptyString
  else
    let lines := Env.splitlines true text in
    match find_heading q 0 lines with
    | None => EmptyString
    | Some (start, level) =>
        let end_ := find_end level (S start) (drop (S start) lines) in
        strip (join "" (take (end_ - start) (drop start lines))) +:+ nl
    end.

(** [safe] of the [--out-dir] branch of [main]: the file name made from a
    label. [c.isalnum()] for a code point below 256. *)
Definition is_alnum (c : ascii) : bool :=
  let n := nat_of_ascii c in
  ((48 <=? n) && (n <=? 57) || (65 <=? n) && (n <=? 90) || (97 <=? n) && (n <=? 122)
   || (n =? 170) || (n =? 178) || (n =? 179) || (n =? 181) || (n =? 185) || (n =? 186)
   || (188 <=? n) && (n <=? 190)
   || (192 <=? n) && (n <=? 214) || (216 <=? n) && (n <=? 246) || (248 <=? n))%nat.

Definition safe_char (c : ascii) : ascii :=
  if is_alnum c || has_char c "-_." then c else "-"%char.

Fixpoint map_chars (f : ascii -> ascii) (s : string) : string :=
  match s with
  | EmptyString => EmptyString
  | String c t => String (f c) (map_chars f t)
  end.

Definition safe_name (label : string) : string :=
  let safe := map_chars safe_char (strip label) in
  if nonempty safe then safe else "model".

(** [section] of [_to_markdown], for a result dict. *)
Definition section (rt : runtime) (title : string) (data : dict) : res string :=
  if get_truthy data "error" then
    Ok ("## " +:+ title +:+ nl +:+ nl +:+ "Error: "
        +:+ py_str rt (default JNull (data !! "error")) +:+ nl)
  else
    let? content :=
      match por (default JNull (data !! "content")) (JStr "") with
      | JStr s => Ok (strip s)
      | _ => Raise (PyError "AttributeError")
      end in
    if negb (nonempty content) then Ok ("## " +:+ title +:+ nl +:+ nl +:+ "(empty)" +:+ nl)
    else Ok ("## " +:+ title +:+ nl +:+ nl +:+ content +:+ nl).

(** The text written to [<safe>.md] for a result dict. *)
Definition model_file (data : dict) : res string :=
  let? content :=
    match por (default JNull (data !! "content")) (JStr "") with
    | JStr s => Ok (strip s)
    | _ => Raise (PyError "AttributeError")
    end in
  Ok ((if nonempty content then content else "(empty)") +:+ nl).

End Markdown.

(* ===================================================================== *)
(** ** Search results (firecrawl_search.py) *)
(* ===================================================================== *)

Module Results.

(** A value that [(a or b or fallback).strip()] can go through: a text, or
    a value the [or] passes over. *)
Definition textual (v : json) : bool :=
  match v with
  | JStr _ => true
  | _ => negb (truthy v)
  end.

(** A search result that [_to_md] can render: an object whose six fields
    are textual or absent. *)
Definition renderable (r : json) : Prop :=
  exists kvs,
    r = JObj kvs
    /\ Forall (fun k => textual (default JNull (assoc k kvs)) = true)
         ["title"; "name"; "url"; "link"; "snippet"; "description"].

End Results.

(* ===================================================================== *)
(** ** Vocabulary of the further properties *)
(* ===================================================================== *)

(** A result reports a failure or carries a text, never both. *)
Definition failure_or_text (d : dict) : Prop :=
  is_Some (d !! "error") /\ d !! "content" = None
  \/ d !! "error" = None /\ exists s, d !! "content" = Some (JStr s).

(** The request [rq] puts the question of a call: the endpoint, the
    credentials, the model, the two messages and the temperature. *)
Definition same_question (sys model user key : string) (temp : json) (rq : request)
    : Prop :=
  req_url rq = OPENROUTER_URL
  /\ req_headers rq = headers key
  /\ req_json rq !! "model" = Some (JStr model)
  /\ req_json rq !! "messages" = Some (messages sys user)
  /\ req_json rq !! "temperature" = Some temp.

(* ===================================================================== *)
(** ** Further sample runs *)
(* ===================================================================== *)

Module Fixtures.

Import Sample.

(** The text [{"error":{"message":"overloaded"}}] and its decoding. *)
Definition error_chunk_text : string :=
  "{" +:+ quoted "error" +:+ ":{" +:+ quoted "message" +:+ ":"
  +:+ quoted "overloaded" +:+ "}}".

Definition error_chunk : json :=
  JObj [("error", JObj [("message", JStr "overloaded")])].

Definition fixture_loads (s : string) : option json :=
  if String.eqb s error_chunk_text then Some error_chunk else sample_loads s.

Definition fixture_runtime : runtime :=
  {| json_loads := fixture_loads;
     repr_container := fun _ => "{...}";
     err_text := fun cls => cls;
     re_sub := fun _ _ s => s;
     re_search1 := fun _ _ => None |}.

(** A stream that delivers [Hel], then an error object, then more lines,
    and that would stall afterwards. *)
Definition failing_stream : response :=
  {| status := 200; text := Raise (PyError "unread");
     json_body := Raise (PyError "unread");
     content := [data_line (content_chunk_text "Hel"); data_line error_chunk_text;
                 data_line (content_chunk_text "lo")];
     content_end := Some TimeoutError |}.

(** A command line whose only model spec has no [=]. *)
Definition bad_model_command : Cli.recs_args :=
  {| Cli.ra_prompt := "which laptop"; Cli.ra_prompt_file := "";
     Cli.ra_sources_file := ""; Cli.ra_sources_section := "";
     Cli.ra_model := ["gpt"]; Cli.ra_max_tokens := 4096; Cli.ra_temperature := JNum 0;
     Cli.ra_timeout := 300; Cli.ra_no_stream := true |}.

(** A search that finds one page, asked for as markdown. *)
Definition one_hit : json :=
  JObj [("title", JStr "Desk"); ("url", JStr "https://example.org/desk");
        ("description", JNull)].

Definition hits_host : Cli.search_host :=
  {| Cli.firecrawl_key := Some "k";
     Cli.request_json := fun _ _ => Ok (JObj [("data", JArr [one_hit])]) |}.

Definition md_command : Cli.search_args :=
  {| Cli.sa_query := "standing desk"; Cli.sa_limit := 10; Cli.sa_lang := "";
     Cli.sa_country := ""; Cli.sa_format := "md" |}.

(** The text [{"choices":[{"delta":{},"finish_reason":"length"}]}] and its
    decoding: a fragment without content that reports the truncation. *)
Definition length_chunk_text : string :=
  "{" +:+ quoted "choices" +:+ ":[{" +:+ quoted "delta" +:+ ":{},"
  +:+ quoted "finish_reason" +:+ ":" +:+ quoted "length" +:+ "}]}".

Definition length_chunk : json :=
  JObj [("choices", JArr [JObj [("delta", JObj []); ("finish_reason", JStr "length")]])].

Definition truncation_loads (s : string) : option json :=
  if String.eqb s length_chunk_text then Some length_chunk else sample_loads s.

Definition truncation_runtime : runtime :=
  {| json_loads := truncation_loads;
     repr_container := fun _ => "{...}";
     err_text := fun cls => cls;
     re_sub := fun _ _ s => s;
     re_search1 := fun _ _ => None |}.

(** A server that truncates every answer before any content, streamed or
    not. *)
Definition always_truncating : network :=
  {| respond := fun n _ =>
       match n with
       | O => Responds (stream_response [data_line length_chunk_text; data_line "[DONE]"])
       | S _ => Responds (ok_response truncated_completion)
       end;
     clock := fun n => 1000 * Z.of_nat n |}.

End Fixtures.

(* ===================================================================== *)
(** * Properties *)
(* ===================================================================== *)

(** ** Facts about strings *)

Module StrFacts.

Lemma app_cons (c : ascii) (s t : string) : String c s +:+ t = String c (s +:+ t).
Proof. reflexivity. Qed.

Lemma app_nil_l (s : string) : "" +:+ s = s.
Proof. reflexivity. Qed.

Lemma app_nil_r (s : string) : s +:+ "" = s.
Proof. induction s as [|c s IH]; [reflexivity|]. rewrite app_cons, IH. reflexivity. Qed.

Lemma app_assoc (s t u : string) : (s +:+ t) +:+ u = s +:+ t +:+ u.
Proof.
  induction s as [|c s IH]; [reflexivity|].
  rewrite !app_cons, IH. reflexivity.
Qed.

Lemma app_eq_l (s t : string) : s +:+ t = s -> t = "".
Proof.
  intros H. apply (String.app_inj s). rewrite app_nil_r. exact H.
Qed.

Lemma nonempty_false (s : string) : nonempty s = false <-> s = "".
Proof. destruct s; split; intros H; (reflexivity || discriminate). Qed.

Lemma nonempty_true (s : string) : nonempty s = true <-> s <> "".
Proof. destruct s; split; intros H; try (reflexivity || discriminate); congruence. Qed.

Lemma strip_single (c : ascii) :
  strip (String c "") = if is_space c then "" else String c "".
Proof.
  unfold strip, lstrip, rstrip. simpl.
  destruct (is_space c) eqn:E; simpl; [reflexivity|]. rewrite E. reflexivity.
Qed.

End StrFacts.

(** ** Prompt builder *)

(** C9. The prompt is the dated, trimmed request followed by the grounding
    section exactly when the grounding text is non-empty after trimming:
    blank grounding text gives the request part alone, and any other
    grounding text, a single non-space character included, gives the
    request part followed by a non-empty SOURCES section. *)
Theorem build_user_prompt_grounding (request_text sources_text today : string) :
  Prompt.build_user_prompt request_text sources_text today
  = Prompt.request_part request_text today
    +:+ (if nonempty (strip sources_text)
         then Prompt.grounding_section (strip sources_text) else "")
  /\ (Prompt.build_user_prompt request_text sources_text today
      = Prompt.request_part request_text today <-> strip sources_text = "")
  /\ (forall c : ascii,
        Prompt.build_user_prompt request_text (String c "") today
        = if is_space c then Prompt.request_part request_text today
          else Prompt.request_part request_text today
               +:+ Prompt.grounding_section (String c "")).
Proof.
  assert (shape : forall src,
    Prompt.build_user_prompt request_text src today
    = Prompt.request_part request_text today
      +:+ (if nonempty (strip src) then Prompt.grounding_section (strip src) else "")).
  { intros src. unfold Prompt.build_user_prompt, Prompt.request_part,
      Prompt.grounding_section.
    destruct (nonempty (strip src)).
    - rewrite !StrFacts.app_assoc. reflexivity.
    - rewrite StrFacts.app_nil_r. reflexivity. }
  split; [apply shape|]. split.
  - rewrite shape. split.
    + intros H. apply StrFacts.app_eq_l in H.
      destruct (nonempty (strip sources_text)) eqn:E.
      * discriminate H.
      * apply StrFacts.nonempty_false. exact E.
    + intros ->. simpl. apply StrFacts.app_nil_r.
  - intros c. rewrite shape, StrFacts.strip_single.
    destruct (is_space c); simpl; [apply StrFacts.app_nil_r | reflexivity].
Qed.

(** ** Token budget on the wire *)

Module BudgetFacts.

Lemma recs_extra_has_no_budget (model_id : string) :
  default ∅ (Recs.MODEL_EXTRA_PARAMS !! model_id) !! "max_tokens" = @None json.
Proof.
  unfold Recs.MODEL_EXTRA_PARAMS.
  destruct (decide (model_id = "openai/gpt-5.2")) as [->|H1]; [reflexivity|].
  rewrite lookup_insert_ne by congruence.
  destruct (decide (model_id = "google/gemini-3.1-pro-preview")) as [->|H2];
    [reflexivity|].
  rewrite lookup_singleton_ne by congruence. reflexivity.
Qed.

Lemma writer_extra_has_no_budget (model_id : string) :
  default ∅ (Writer.MODEL_EXTRA_PARAMS !! model_id) !! "max_tokens" = @None json.
Proof.
  unfold Writer.MODEL_EXTRA_PARAMS.
  destruct (decide (model_id = "openai/gpt-5.2")) as [->|H1]; [reflexivity|].
  rewrite lookup_insert_ne by congruence.
  destruct (decide (model_id = "google/gemini-3.1-pro-preview")) as [->|H2];
    [reflexivity|].
  rewrite lookup_singleton_ne by congruence. reflexivity.
Qed.

Lemma base_budget (extras : dict) (model messages budget temperature : json) :
  extras !! "max_tokens" = None ->
  (extras ∪ {[ "model" := model; "messages" := messages;
               "max_tokens" := budget; "temperature" := temperature ]})
    !! "max_tokens" = Some budget.
Proof.
  intros H. rewrite lookup_union_r by exact H.
  rewrite !lookup_insert_ne by discriminate. apply lookup_insert_eq.
Qed.

Lemma overhead_cases (table : gmap string Z) (model_id : string) (v : Z) (x : option json) :
  x = Some (JNum (v + default 0 (table !! model_id))) ->
  match table !! model_id with
  | Some o => x = Some (JNum (v + o))
  | None => x = Some (JNum v)
  end.
Proof.
  intros ->. destruct (table !! model_id); simpl; [reflexivity|].
  rewrite Z.add_0_r. reflexivity.
Qed.

End BudgetFacts.

(** C2. Whatever the model and the visible budget [v], the request that
    the batch strategy and the streaming strategy send carries
    [max_tokens = v + o] when the model has the registered overhead [o],
    and [max_tokens = v] when it has none; this holds in both modules, for
    any override parameters that do not themselves set [max_tokens] (the
    code passes none, or the reduced-reasoning override). *)
Theorem wire_budget_is_visible_plus_overhead
    (system_prompt model_id user_prompt api_key : string) (temperature : json)
    (timeout_seconds v : Z) (extra_params : option dict)
    (Hextra : default ∅ extra_params !! "max_tokens" = None) :
  match Recs.MODEL_REASONING_OVERHEAD !! model_id with
  | Some o =>
      req_json (Recs.batch_request system_prompt model_id user_prompt api_key
                  temperature timeout_seconds v extra_params) !! "max_tokens"
      = Some (JNum (v + o))
  | None =>
      req_json (Recs.batch_request system_prompt model_id user_prompt api_key
                  temperature timeout_seconds v extra_params) !! "max_tokens"
      = Some (JNum v)
  end
  /\ match Recs.MODEL_REASONING_OVERHEAD !! model_id with
     | Some o =>
         req_json (Recs.stream_request system_prompt model_id user_prompt api_key
                     temperature v) !! "max_tokens"
         = Some (JNum (v + o))
     | None =>
         req_json (Recs.stream_request system_prompt model_id user_prompt api_key
                     temperature v) !! "max_tokens"
         = Some (JNum v)
     end
  /\ match Writer.MODEL_REASONING_OVERHEAD !! model_id with
     | Some o =>
         req_json (Writer.post_request system_prompt model_id user_prompt api_key
                     temperature timeout_seconds v extra_params) !! "max_tokens"
         = Some (JNum (v + o))
     | None =>
         req_json (Writer.post_request system_prompt model_id user_prompt api_key
                     temperature timeout_seconds v extra_params) !! "max_tokens"
         = Some (JNum v)
     end.
Proof.
  repeat split; apply BudgetFacts.overhead_cases; simpl.
  - unfold Recs.batch_payload. apply BudgetFacts.base_budget.
    apply lookup_union_None. split; [exact Hextra|].
    apply BudgetFacts.recs_extra_has_no_budget.
  - unfold Recs.stream_payload.
    rewrite lookup_union_r by apply BudgetFacts.recs_extra_has_no_budget.
    rewrite !lookup_insert_ne by discriminate. apply lookup_insert_eq.
  - unfold Writer.payload. apply BudgetFacts.base_budget.
    apply lookup_union_None. split; [exact Hextra|].
    apply BudgetFacts.writer_extra_has_no_budget.
Qed.

(** The retry of a registered model: 8000 visible tokens and the
    reduced-reasoning override go out as 12096 (recommendations) and
    10048 (writing). *)
Lemma wire_budget_witness :
  req_json (Recs.batch_request "S" "openai/gpt-5.2" "u" "k" (JNum 0) 60 8000
              (Some Recs.REDUCED_REASONING)) !! "max_tokens" = Some (JNum (8000 + 4096))
  /\ req_json (Recs.stream_request "S" "openai/gpt-5.2" "u" "k" (JNum 0) 8000)
       !! "max_tokens" = Some (JNum (8000 + 4096))
  /\ req_json (Writer.post_request "S" "openai/gpt-5.2" "u" "k" (JNum 0) 60 8000
                 (Some Recs.REDUCED_REASONING)) !! "max_tokens"
     = Some (JNum (8000 + 2048)).
Proof.
  exact (wire_budget_is_visible_plus_overhead "S" "openai/gpt-5.2" "u" "k" (JNum 0)
           60 8000 (Some Recs.REDUCED_REASONING) eq_refl).
Defined.

(** ** Running the session monad *)

Module RunFacts.

Lemma length_snoc {A} (l : list A) (x : A) : length (l ++ [x]) = S (length l).
Proof. rewrite length_app. simpl. lia. Qed.

Lemma post_run rt net sys model user key temp started t v x (w : world) :
  Recs._post rt net sys model user key temp started t v x w
  = (batch_exchange rt net started (length w)
       (Recs.batch_request sys model user key temp t v x),
     w ++ [Recs.batch_request sys model user key temp t v x]).
Proof.
  unfold Recs._post, bind, session_post, loop_time, lift, batch_exchange.
  destruct (respond net (length w) _); [reflexivity|].
  rewrite length_snoc. reflexivity.
Qed.

Lemma handlers_run rt t e (w : world) :
  Recs.batch_handlers rt t e w = (Ok (handled rt t e), w).
Proof. destruct e; reflexivity. Qed.

(** The batch strategy in closed form: one exchange, and a second one
    exactly when the first asks for the retry. *)
Lemma batch_run rt net sys model user key temp v t (w : world) :
  let started := clock net (length w) in
  let rq1 := Recs.batch_request sys model user key temp t v None in
  let rq2 := Recs.batch_request sys model user key temp t (Recs.retry_max_tokens v)
               (Some Recs.REDUCED_REASONING) in
  Recs._call_openrouter_batch rt net sys model user key temp v t w
  = match batch_exchange rt net started (length w) rq1 with
    | Raise e => (Ok (handled rt t e), w ++ [rq1])
    | Ok d1 =>
        if Recs.wants_retry model d1 then
          match batch_exchange rt net started (S (length w)) rq2 with
          | Raise e => (Ok (handled rt t e), (w ++ [rq1]) ++ [rq2])
          | Ok d2 =>
              (Ok (with_elapsed (clock net (S (S (length w))) - started)
                     (Recs.annotate_retry (Recs.retry_max_tokens v) d2)),
               (w ++ [rq1]) ++ [rq2])
          end
        else (Ok (with_elapsed (clock net (S (length w)) - started) d1), w ++ [rq1])
    end.
Proof.
  intros started rq1 rq2.
  unfold Recs._call_openrouter_batch, try_with.
  unfold bind at 1. unfold loop_time at 1. fold started.
  unfold bind at 1. rewrite post_run. fold rq1.
  destruct (batch_exchange rt net started (length w) rq1) as [d1|e].
  - destruct (Recs.wants_retry model d1).
    + unfold bind at 1. unfold bind at 1. rewrite post_run, length_snoc. fold rq2.
      destruct (batch_exchange rt net started (S (length w)) rq2) as [d2|e].
      * unfold ret at 1. unfold with_elapsed.
        destruct (bool_decide _); [reflexivity|].
        unfold bind, loop_time, ret. rewrite !length_snoc. reflexivity.
      * apply handlers_run.
    + unfold bind at 1. unfold ret at 1. unfold with_elapsed.
      destruct (bool_decide _); [reflexivity|].
      unfold bind, loop_time, ret. rewrite !length_snoc. reflexivity.
  - apply handlers_run.
Qed.

End RunFacts.

Module DispatchFacts.

Import RunFacts.

Lemma stream_run rt net sys model user key temp v (w : world) :
  Recs._call_openrouter_stream rt net sys model user key temp v w
  = (stream_exchange rt net (clock net (length w)) (length w)
       (Recs.stream_request sys model user key temp v),
     w ++ [Recs.stream_request sys model user key temp v]).
Proof.
  unfold Recs._call_openrouter_stream, bind, session_post, loop_time, lift,
    stream_exchange.
  destruct (respond net (length w) _); [reflexivity|].
  rewrite length_snoc. reflexivity.
Qed.

(** The batch strategy always returns a dict. *)
Lemma batch_returns rt net sys model user key temp v t (w : world) :
  exists d, (Recs._call_openrouter_batch rt net sys model user key temp v t w).1 = Ok d.
Proof.
  rewrite batch_run. cbv zeta.
  repeat (match goal with |- context [match ?x with _ => _ end] => destruct x end);
    eexists; reflexivity.
Qed.

(** The dispatcher in closed form. *)
Lemma dispatch_run rt net sys model user key temp v t (w : world) :
  let rq := Recs.stream_request sys model user key temp v in
  Recs._call_openrouter rt net sys model user key temp v t true w
  = match stream_exchange rt net (clock net (length w)) (length w) rq with
    | Ok d =>
        if Recs.wants_retry model d then
          let b := Recs._call_openrouter_batch rt net sys model user key temp
                     (Recs.retry_max_tokens v) t (w ++ [rq]) in
          (match b.1 with
           | Ok r => Ok (Recs.annotate_retry (Recs.retry_max_tokens v) r)
           | Raise e => Raise e
           end, b.2)
        else (Ok d, w ++ [rq])
    | Raise e =>
        if network_level e
        then Recs._call_openrouter_batch rt net sys model user key temp v t (w ++ [rq])
        else (Raise e, w ++ [rq])
    end.
Proof.
  intros rq. unfold Recs._call_openrouter, try_with.
  unfold bind at 1. rewrite stream_run. fold rq.
  destruct (stream_exchange rt net _ (length w) rq) as [d|e].
  - destruct (Recs.wants_retry model d); [|reflexivity].
    unfold bind at 1.
    destruct (batch_returns rt net sys model user key temp
                (Recs.retry_max_tokens v) t (w ++ [rq])) as [r Hr].
    destruct (Recs._call_openrouter_batch _ _ _ _ _ _ _ _ _ _) as [o w2].
    simpl in *. subst o. reflexivity.
  - destruct e; reflexivity.
Qed.

End DispatchFacts.

(** ** Failures and the retry test *)

Module FailureFacts.

Import RunFacts.

Ltac crush_res H :=
  repeat match type of H with
         | context [match ?x with _ => _ end] => destruct x eqn:?; try discriminate H
         end.

Lemma wants_retry_singleton model (v : json) :
  Recs.wants_retry model {[ "error" := v ]} = false.
Proof.
  unfold Recs.wants_retry, get_is.
  rewrite (lookup_singleton_ne "error" "finish_reason") by discriminate.
  rewrite andb_false_r. reflexivity.
Qed.

Lemma handle_line_return rt st line d :
  Recs.handle_line rt st line = Ok (Recs.Return d) -> exists v, d = {[ "error" := v ]}.
Proof.
  unfold Recs.handle_line, res_bind. intros H. crush_res H.
  all: injection H as <-; eexists; reflexivity.
Qed.

Lemma consume_return rt st lines ending d :
  Recs.consume rt st lines ending = Ok (inr d) -> exists v, d = {[ "error" := v ]}.
Proof.
  revert st. induction lines as [|l lines IH]; intros st H; simpl in H.
  - destruct ending; discriminate H.
  - unfold res_bind in H.
    destruct (Recs.handle_line rt st l) as [[st'|st'|d']|e] eqn:E; try discriminate H.
    + eapply IH, H.
    + injection H as <-. eapply handle_line_return, E.
Qed.

Lemma annotate_keeps_error budget (d : dict) :
  Recs.annotate_retry budget d !! "error" = d !! "error".
Proof.
  unfold Recs.annotate_retry. rewrite !lookup_insert_ne by discriminate. reflexivity.
Qed.

Lemma with_elapsed_keeps_error elapsed (d : dict) :
  with_elapsed elapsed d !! "error" = d !! "error".
Proof.
  unfold with_elapsed. destruct (bool_decide _); [reflexivity|].
  rewrite lookup_insert_ne by discriminate. reflexivity.
Qed.

(** A batch exchange that fails in one of the four ways is reported by
    its ["error"] entry and does not ask for the retry. *)
Lemma batch_exchange_terminal rt net started t n rq f :
  terminal_failure rt rq (respond net n rq) = Some f ->
  is_streaming rq = false ->
  match batch_exchange rt net started n rq with
  | Raise e => handled rt t e !! "error" = failure_report rt t f
  | Ok d => d !! "error" = failure_report rt t f
            /\ is_Some (d !! "error")
            /\ forall model, Recs.wants_retry model d = false
  end.
Proof.
  unfold terminal_failure, batch_exchange. intros H Hs. rewrite Hs in H.
  destruct (respond net n rq) as [e|r].
  - destruct e; simpl in H; try discriminate H; injection H as <-; reflexivity.
  - unfold Recs.read_batch_response.
    destruct (negb (status r =? 200)).
    + destruct (text r) as [body|e]; simpl.
      * injection H as <-. simpl. rewrite lookup_singleton_eq.
        split; [reflexivity|]. split; [eexists; reflexivity|].
        intros model. apply wants_retry_singleton.
      * destruct e; simpl in H; try discriminate H; injection H as <-; reflexivity.
    + destruct (json_body r) as [data|e]; [discriminate H|]. simpl.
      destruct e; simpl in H; try discriminate H; injection H as <-; reflexivity.
Qed.

(** The same for a streaming exchange, which then returns the failure. *)
Lemma stream_exchange_terminal rt net started t n rq f :
  terminal_failure rt rq (respond net n rq) = Some f ->
  is_streaming rq = true ->
  exists d, stream_exchange rt net started n rq = Ok d
            /\ d !! "error" = failure_report rt t f
            /\ is_Some (d !! "error")
            /\ forall model, Recs.wants_retry model d = false.
Proof.
  unfold terminal_failure, stream_exchange. intros H Hs. rewrite Hs in H.
  destruct (respond net n rq) as [e|r]; [discriminate H|].
  unfold Recs.read_stream_response.
  destruct (negb (status r =? 200)).
  - destruct (text r) as [body|e]; [|discriminate H]. simpl.
    injection H as <-. eexists. split; [reflexivity|]. simpl.
    rewrite lookup_singleton_eq.
    split; [reflexivity|]. split; [eexists; reflexivity|].
    intros model. apply wants_retry_singleton.
  - destruct (Recs.consume rt Recs.initial_state (content r) (content_end r))
      as [[st|d]|e] eqn:E; try discriminate H.
    injection H as <-. simpl. exists d. split; [reflexivity|].
    destruct (consume_return _ _ _ _ _ E) as [v ->].
    split; [reflexivity|]. split; [rewrite lookup_singleton_eq; eexists; reflexivity|].
    intros model. apply wants_retry_singleton.
Qed.

Lemma recs_extra_not_streaming (model_id : string) :
  default ∅ (Recs.MODEL_EXTRA_PARAMS !! model_id) !! "stream" = @None json.
Proof.
  unfold Recs.MODEL_EXTRA_PARAMS.
  destruct (decide (model_id = "openai/gpt-5.2")) as [->|H1]; [reflexivity|].
  rewrite lookup_insert_ne by congruence.
  destruct (decide (model_id = "google/gemini-3.1-pro-preview")) as [->|H2];
    [reflexivity|].
  rewrite lookup_singleton_ne by congruence. reflexivity.
Qed.

Lemma batch_request_not_streaming sys model user key temp t v x :
  default ∅ x !! "stream" = None ->
  is_streaming (Recs.batch_request sys model user key temp t v x) = false.
Proof.
  intros Hx. unfold is_streaming, Recs.batch_request, Recs.batch_payload. simpl.
  rewrite lookup_union_r
    by (apply lookup_union_None; split; [exact Hx|apply recs_extra_not_streaming]).
  rewrite !lookup_insert_ne by discriminate.
  rewrite lookup_singleton_ne by discriminate. reflexivity.
Qed.

Lemma stream_request_streaming sys model user key temp v :
  is_streaming (Recs.stream_request sys model user key temp v) = true.
Proof.
  unfold is_streaming, Recs.stream_request, Recs.stream_payload. simpl.
  rewrite lookup_union_r by apply recs_extra_not_streaming.
  rewrite !lookup_insert_ne by discriminate.
  rewrite lookup_singleton_eq. reflexivity.
Qed.

Lemma lookup_after {A} (w l : list A) (i : nat) :
  (w ++ l) !! (length w + i)%nat = l !! i.
Proof. induction w as [|a w IH]; [reflexivity|exact IH]. Qed.

End FailureFacts.

(** ** Retry and fallback policy *)

Module PolicyFacts.

Import RunFacts DispatchFacts FailureFacts.

Lemma handled_has_error rt t e : is_Some (handled rt t e !! "error").
Proof. destruct e; simpl; rewrite lookup_singleton_eq; eexists; reflexivity. Qed.

(** Within the batch strategy a failure of the four kinds is the last
    exchange, and the strategy returns it. *)
Lemma batch_terminal rt net sys model user key temp v t (w : world) out w' i rq f :
  Recs._call_openrouter_batch rt net sys model user key temp v t w = (out, w') ->
  w' !! (length w + i)%nat = Some rq ->
  terminal_failure rt rq (respond net (length w + i) rq) = Some f ->
  length w' = S (length w + i)
  /\ exists d, out = Ok d /\ d !! "error" = failure_report rt t f
               /\ is_Some (d !! "error").
Proof.
  rewrite batch_run. cbv zeta.
  set (started := clock net (length w)).
  set (rq1 := Recs.batch_request sys model user key temp t v None).
  set (rq2 := Recs.batch_request sys model user key temp t (Recs.retry_max_tokens v)
                (Some Recs.REDUCED_REASONING)).
  assert (N1 : is_streaming rq1 = false)
    by (apply batch_request_not_streaming; reflexivity).
  assert (N2 : is_streaming rq2 = false)
    by (apply batch_request_not_streaming; reflexivity).
  intros H Hl Hf.
  destruct (batch_exchange rt net started (length w) rq1) as [d1|e1] eqn:E1.
  - destruct (Recs.wants_retry model d1) eqn:Ew.
    + assert (Hw' : w' = w ++ [rq1; rq2]).
      { destruct (batch_exchange rt net started (S (length w)) rq2);
          injection H as _ <-; rewrite <- app_assoc; reflexivity. }
      subst w'. rewrite lookup_after in Hl.
      destruct i as [|[|i]]; simpl in Hl; try discriminate Hl; injection Hl as <-.
      * rewrite Nat.add_0_r in Hf.
        pose proof (batch_exchange_terminal rt net started t _ _ _ Hf N1) as T.
        rewrite E1 in T. destruct T as (_ & _ & T). rewrite T in Ew. discriminate Ew.
      * rewrite Nat.add_1_r in Hf.
        pose proof (batch_exchange_terminal rt net started t _ _ _ Hf N2) as T.
        split; [rewrite length_app; simpl; lia|].
        destruct (batch_exchange rt net started (S (length w)) rq2) as [d2|e2];
          injection H as <- _; eexists; (split; [reflexivity|]).
        -- destruct T as (T1 & T2 & _).
           rewrite with_elapsed_keeps_error, annotate_keeps_error. split; assumption.
        -- split; [exact T|apply handled_has_error].
    + injection H as <- <-. rewrite lookup_after in Hl.
      destruct i as [|i]; simpl in Hl; try discriminate Hl; injection Hl as <-.
      rewrite Nat.add_0_r in Hf.
      pose proof (batch_exchange_terminal rt net started t _ _ _ Hf N1) as T.
      rewrite E1 in T. destruct T as (T1 & T2 & _).
      split; [rewrite length_snoc; lia|].
      eexists. split; [reflexivity|].
      rewrite with_elapsed_keeps_error. split; assumption.
  - injection H as <- <-. rewrite lookup_after in Hl.
    destruct i as [|i]; simpl in Hl; try discriminate Hl; injection Hl as <-.
    rewrite Nat.add_0_r in Hf.
    pose proof (batch_exchange_terminal rt net started t _ _ _ Hf N1) as T.
    rewrite E1 in T.
    split; [rewrite length_snoc; lia|].
    eexists. split; [reflexivity|]. split; [exact T|apply handled_has_error].
Qed.

Lemma batch_extends rt net sys model user key temp v t (w : world) :
  exists rest,
    (Recs._call_openrouter_batch rt net sys model user key temp v t w).2
    = w ++ [Recs.batch_request sys model user key temp t v None] ++ rest
    /\ (length rest <= 1)%nat.
Proof.
  rewrite batch_run. cbv zeta.
  repeat (match goal with |- context [match ?x with _ => _ end] => destruct x end);
    simpl; rewrite <- ?app_assoc; simpl;
    first [ exists []; split; [reflexivity|simpl; lia]
          | eexists [_]; split; [reflexivity|simpl; lia] ].
Qed.

End PolicyFacts.

(** ** The retry after a truncated, empty response *)

Module RetryFacts.

Import RunFacts DispatchFacts FailureFacts.

Lemma writer_post_run rt net sys model user key temp started t v x (w : world) :
  Writer._post rt net sys model user key temp started t v x w
  = (writer_exchange rt net started (length w)
       (Writer.post_request sys model user key temp t v x),
     w ++ [Writer.post_request sys model user key temp t v x]).
Proof.
  unfold Writer._post, bind, session_post, loop_time, lift, writer_exchange.
  destruct (respond net (length w) _); [reflexivity|].
  rewrite length_snoc. reflexivity.
Qed.

Lemma writer_handlers_run rt net started t e (w : world) :
  Writer.handlers rt net started t e w
  = (Ok (writer_handled rt t (clock net (length w) - started) e), w).
Proof. destruct e; reflexivity. Qed.

(** The writing module's call in closed form. *)
Lemma writer_run rt net sys model user key temp v t (w : world) :
  let started := clock net (length w) in
  let rq1 := Writer.post_request sys model user key temp t v None in
  let rq2 := Writer.post_request sys model user key temp t (Writer.retry_max_tokens v)
               (Some Writer.REDUCED_REASONING) in
  Writer.call_openrouter rt net sys model user key temp v t w
  = match writer_exchange rt net started (length w) rq1 with
    | Raise e =>
        (Ok (writer_handled rt t (clock net (S (length w)) - started) e), w ++ [rq1])
    | Ok d1 =>
        if Writer.wants_retry model d1 then
          match writer_exchange rt net started (S (length w)) rq2 with
          | Raise e =>
              (Ok (writer_handled rt t (clock net (S (S (length w))) - started) e),
               (w ++ [rq1]) ++ [rq2])
          | Ok d2 =>
              (Ok (<["retried_with_max_tokens" := JNum (Writer.retry_max_tokens v)]> d2),
               (w ++ [rq1]) ++ [rq2])
          end
        else (Ok d1, w ++ [rq1])
    end.
Proof.
  intros started rq1 rq2.
  unfold Writer.call_openrouter, try_with.
  unfold bind at 1. unfold loop_time at 1. fold started.
  unfold bind at 1. rewrite writer_post_run. fold rq1.
  destruct (writer_exchange rt net started (length w) rq1) as [d1|e].
  - destruct (Writer.wants_retry model d1); [|reflexivity].
    unfold bind at 1. rewrite writer_post_run, length_snoc. fold rq2.
    destruct (writer_exchange rt net started (S (length w)) rq2) as [d2|e].
    + reflexivity.
    + rewrite writer_handlers_run, !length_snoc. reflexivity.
  - rewrite writer_handlers_run, length_snoc. reflexivity.
Qed.

Lemma get_is_true (d : dict) (k s : string) :
  d !! k = Some (JStr s) -> get_is d k s = true.
Proof. intros H. unfold get_is. rewrite H. simpl. apply String.eqb_refl. Qed.

Lemma recs_wants_retry model (d : dict) :
  model ∈ Recs.MODELS_WITH_RETRY ->
  d !! "error" = Some (JStr "Empty response from model") ->
  d !! "finish_reason" = Some (JStr "length") ->
  Recs.wants_retry model d = true.
Proof.
  intros Hm He Hf. unfold Recs.wants_retry.
  rewrite (bool_decide_eq_true_2 _ Hm), (get_is_true _ _ _ He), (get_is_true _ _ _ Hf).
  reflexivity.
Qed.

Lemma writer_wants_retry (d : dict) :
  d !! "error" = Some (JStr "Empty response from model") ->
  d !! "finish_reason" = Some (JStr "length") ->
  Writer.wants_retry "google/gemini-3.1-pro-preview" d = true.
Proof.
  intros He Hf. unfold Writer.wants_retry.
  rewrite (get_is_true _ _ _ He), (get_is_true _ _ _ Hf). reflexivity.
Qed.

Lemma recs_budget sys model user key temp t v (x : option dict) :
  default ∅ x !! "max_tokens" = None ->
  req_json (Recs.batch_request sys model user key temp t v x) !! "max_tokens"
  = Some (JNum (v + default 0 (Recs.MODEL_REASONING_OVERHEAD !! model))).
Proof.
  intros Hx. simpl. unfold Recs.batch_payload. apply BudgetFacts.base_budget.
  apply lookup_union_None. split; [exact Hx|].
  apply BudgetFacts.recs_extra_has_no_budget.
Qed.

Lemma writer_budget sys model user key temp t v (x : option dict) :
  default ∅ x !! "max_tokens" = None ->
  req_json (Writer.post_request sys model user key temp t v x) !! "max_tokens"
  = Some (JNum (v + default 0 (Writer.MODEL_REASONING_OVERHEAD !! model))).
Proof.
  intros Hx. simpl. unfold Writer.payload. apply BudgetFacts.base_budget.
  apply lookup_union_None. split; [exact Hx|].
  apply BudgetFacts.writer_extra_has_no_budget.
Qed.

Lemma recs_override sys model user key temp t v :
  req_json (Recs.batch_request sys model user key temp t v (Some Recs.REDUCED_REASONING))
    !! "reasoning" = Some (JObj [("max_tokens", JNum 512)]).
Proof.
  simpl. unfold Recs.batch_payload. rewrite <- (assoc_L (∪)).
  apply lookup_union_Some_l. reflexivity.
Qed.

Lemma writer_override sys model user key temp t v :
  req_json (Writer.post_request sys model user key temp t v
              (Some Writer.REDUCED_REASONING))
    !! "reasoning" = Some (JObj [("max_tokens", JNum 512)]).
Proof.
  simpl. unfold Writer.payload. rewrite <- (assoc_L (∪)).
  apply lookup_union_Some_l. reflexivity.
Qed.

Lemma annotate_lookup budget (d : dict) :
  Recs.annotate_retry budget d !! "retried_with_max_tokens" = Some (JNum budget)
  /\ Recs.annotate_retry budget d !! "retried_reasoning_effort" = Some (JStr "medium").
Proof.
  unfold Recs.annotate_retry. split.
  - rewrite lookup_insert_ne by discriminate. apply lookup_insert_eq.
  - apply lookup_insert_eq.
Qed.

Lemma with_elapsed_lookup elapsed (d : dict) (k : string) :
  k <> "elapsed_seconds" -> with_elapsed elapsed d !! k = d !! k.
Proof.
  intros Hk. unfold with_elapsed. destruct (bool_decide _); [reflexivity|].
  rewrite lookup_insert_ne by congruence. reflexivity.
Qed.

End RetryFacts.

Module TerminalFacts.

Import RunFacts DispatchFacts FailureFacts RetryFacts.

(** The dispatcher of the recommendations module. *)
Lemma dispatch_terminal rt net sys model user key temp v t stream
    (w : world) out w' i rq f
    (Hrun : Recs._call_openrouter rt net sys model user key temp v t stream w = (out, w'))
    (Hrq : w' !! (length w + i)%nat = Some rq)
    (Hfail : terminal_failure rt rq (respond net (length w + i) rq) = Some f) :
  length w' = S (length w + i)
  /\ exists d, out = Ok d /\ d !! "error" = failure_report rt t f
               /\ is_Some (d !! "error").
Proof.
  destruct stream; [|eapply PolicyFacts.batch_terminal; eassumption].
  rewrite DispatchFacts.dispatch_run in Hrun. cbv zeta in Hrun.
  set (rq_s := Recs.stream_request sys model user key temp v) in *.
  assert (St : is_streaming rq_s = true) by apply FailureFacts.stream_request_streaming.
  assert (first_is_stream : forall b,
            (exists rest, b = (w ++ [rq_s]) ++ rest) ->
            b !! (length w + 0)%nat = Some rq -> rq = rq_s).
  { intros b [rest ->] Hb. rewrite <- app_assoc, FailureFacts.lookup_after in Hb.
    simpl in Hb. congruence. }
  assert (later : forall j, (length w + S j = length (w ++ [rq_s]) + j)%nat)
    by (intros j; rewrite RunFacts.length_snoc; lia).
  assert (via_batch : forall budget ob wb j,
            Recs._call_openrouter_batch rt net sys model user key temp budget t
              (w ++ [rq_s]) = (ob, wb) ->
            wb !! (length w + S j)%nat = Some rq ->
            terminal_failure rt rq (respond net (length w + S j) rq) = Some f ->
            length wb = S (length w + S j)
            /\ exists d, ob = Ok d /\ d !! "error" = failure_report rt t f
                         /\ is_Some (d !! "error")).
  { intros budget ob wb j Hb Hl Hf. rewrite later in Hl, Hf |- *.
    eapply PolicyFacts.batch_terminal; eassumption. }
  destruct (stream_exchange rt net (clock net (length w)) (length w) rq_s)
    as [d|e] eqn:Es.
  - destruct (Recs.wants_retry model d) eqn:Ew.
    + destruct (Recs._call_openrouter_batch rt net sys model user key temp
                  (Recs.retry_max_tokens v) t (w ++ [rq_s])) as [ob wb] eqn:Eb.
      simpl in Hrun. injection Hrun as <- <-.
      destruct i as [|j].
      * assert (rq = rq_s) as ->.
        { apply (first_is_stream wb); [|exact Hrq].
          destruct (PolicyFacts.batch_extends rt net sys model user key temp
                      (Recs.retry_max_tokens v) t (w ++ [rq_s])) as (rest & Hrest & _).
          rewrite Eb in Hrest. simpl in Hrest. eexists. exact Hrest. }
        rewrite Nat.add_0_r in Hfail.
        destruct (FailureFacts.stream_exchange_terminal rt net
                    (clock net (length w)) t _ _ _ Hfail St) as (d' & E' & _ & _ & W).
        rewrite Es in E'. injection E' as <-. rewrite W in Ew. discriminate Ew.
      * destruct (via_batch _ _ _ _ Eb Hrq Hfail) as (L & d' & -> & E1 & E2).
        split; [exact L|]. eexists. split; [reflexivity|].
        rewrite FailureFacts.annotate_keeps_error. split; assumption.
    + injection Hrun as <- <-. rewrite FailureFacts.lookup_after in Hrq.
      destruct i as [|j]; simpl in Hrq; try discriminate Hrq. injection Hrq as <-.
      rewrite Nat.add_0_r in Hfail.
      destruct (FailureFacts.stream_exchange_terminal rt net
                  (clock net (length w)) t _ _ _ Hfail St) as (d' & E' & E1 & E2 & _).
      rewrite Es in E'. injection E' as <-.
      split; [rewrite RunFacts.length_snoc; lia|]. eauto.
  - destruct (network_level e).
    + destruct i as [|j].
      * assert (rq = rq_s) as ->.
        { apply (first_is_stream w'); [|exact Hrq].
          destruct (PolicyFacts.batch_extends rt net sys model user key temp
                      v t (w ++ [rq_s])) as (rest & Hrest & _).
          rewrite Hrun in Hrest. simpl in Hrest. eexists. exact Hrest. }
        rewrite Nat.add_0_r in Hfail.
        destruct (FailureFacts.stream_exchange_terminal rt net
                    (clock net (length w)) t _ _ _ Hfail St) as (d' & E' & _).
        rewrite Es in E'. discriminate E'.
      * eapply via_batch; eassumption.
    + injection Hrun as <- <-. rewrite FailureFacts.lookup_after in Hrq.
      destruct i as [|j]; simpl in Hrq; try discriminate Hrq. injection Hrq as <-.
      rewrite Nat.add_0_r in Hfail.
      destruct (FailureFacts.stream_exchange_terminal rt net
                  (clock net (length w)) t _ _ _ Hfail St) as (d' & E' & _).
      rewrite Es in E'. discriminate E'.
Qed.


Lemma writer_extra_not_streaming (model_id : string) :
  default ∅ (Writer.MODEL_EXTRA_PARAMS !! model_id) !! "stream" = @None json.
Proof.
  unfold Writer.MODEL_EXTRA_PARAMS.
  destruct (decide (model_id = "openai/gpt-5.2")) as [->|H1]; [reflexivity|].
  rewrite lookup_insert_ne by congruence.
  destruct (decide (model_id = "google/gemini-3.1-pro-preview")) as [->|H2];
    [reflexivity|].
  rewrite lookup_singleton_ne by congruence. reflexivity.
Qed.

Lemma writer_request_not_streaming sys model user key temp t v x :
  default ∅ x !! "stream" = None ->
  is_streaming (Writer.post_request sys model user key temp t v x) = false.
Proof.
  intros Hx. unfold is_streaming, Writer.post_request, Writer.payload. simpl.
  rewrite lookup_union_r
    by (apply lookup_union_None; split; [exact Hx|apply writer_extra_not_streaming]).
  rewrite !lookup_insert_ne by discriminate.
  rewrite lookup_singleton_ne by discriminate. reflexivity.
Qed.

Lemma writer_wants_retry_needs_finish model (d : dict) :
  d !! "finish_reason" = None -> Writer.wants_retry model d = false.
Proof.
  intros H. unfold Writer.wants_retry, get_is. rewrite H.
  rewrite andb_false_r. reflexivity.
Qed.

Lemma writer_handled_error rt t elapsed e :
  writer_handled rt t elapsed e !! "error"
  = Some (JStr match e with
               | TimeoutError => "Timeout after " +:+ pretty t +:+ "s"
               | ClientError _ => "Network error: " +:+ exn_str rt e
               | PyError _ => "Unexpected error: " +:+ exn_str rt e
               end).
Proof. unfold writer_handled. apply lookup_insert_eq. Qed.

Lemma writer_exchange_terminal rt net started t n rq f :
  terminal_failure rt rq (respond net n rq) = Some f ->
  is_streaming rq = false ->
  match writer_exchange rt net started n rq with
  | Raise e => forall elapsed,
                 writer_handled rt t elapsed e !! "error" = failure_report rt t f
  | Ok d => d !! "error" = failure_report rt t f
            /\ is_Some (d !! "error")
            /\ forall model, Writer.wants_retry model d = false
  end.
Proof.
  unfold terminal_failure, writer_exchange. intros H Hs. rewrite Hs in H.
  destruct (respond net n rq) as [e|r].
  - intros elapsed. rewrite writer_handled_error.
    destruct e; simpl in H; try discriminate H; injection H as <-; reflexivity.
  - unfold Writer.read_response.
    destruct (negb (status r =? 200)).
    + destruct (text r) as [body|e]; simpl.
      * injection H as <-. simpl. rewrite lookup_insert_eq.
        split; [reflexivity|]. split; [eexists; reflexivity|].
        intros model. apply writer_wants_retry_needs_finish.
        rewrite lookup_insert_ne by discriminate.
        apply lookup_singleton_ne. discriminate.
      * intros elapsed. rewrite writer_handled_error.
        destruct e; simpl in H; try discriminate H; injection H as <-; reflexivity.
    + destruct (json_body r) as [data|e]; [discriminate H|]. simpl.
      intros elapsed. rewrite writer_handled_error.
      destruct e; simpl in H; try discriminate H; injection H as <-; reflexivity.
Qed.

(** The call of the writing module. *)
Lemma writer_terminal rt net sys model user key temp v t (w : world) out w' i rq f
    (Hrun : Writer.call_openrouter rt net sys model user key temp v t w = (out, w'))
    (Hrq : w' !! (length w + i)%nat = Some rq)
    (Hfail : terminal_failure rt rq (respond net (length w + i) rq) = Some f) :
  length w' = S (length w + i)
  /\ exists d, out = Ok d /\ d !! "error" = failure_report rt t f
               /\ is_Some (d !! "error").
Proof.
  rewrite writer_run in Hrun. cbv zeta in Hrun.
  set (started := clock net (length w)) in *.
  set (rq1 := Writer.post_request sys model user key temp t v None) in *.
  set (rq2 := Writer.post_request sys model user key temp t (Writer.retry_max_tokens v)
                (Some Writer.REDUCED_REASONING)) in *.
  assert (N1 : is_streaming rq1 = false)
    by (apply writer_request_not_streaming; reflexivity).
  assert (N2 : is_streaming rq2 = false)
    by (apply writer_request_not_streaming; reflexivity).
  assert (some_error : forall x : option json,
            x = failure_report rt t f -> (exists y, x = Some y) -> is_Some x)
    by (intros x _ [y ->]; eexists; reflexivity).
  destruct (writer_exchange rt net started (length w) rq1) as [d1|e1] eqn:E1.
  - destruct (Writer.wants_retry model d1) eqn:Ew.
    + assert (Hw' : w' = w ++ [rq1; rq2]).
      { destruct (writer_exchange rt net started (S (length w)) rq2);
          injection Hrun as _ <-; rewrite <- app_assoc; reflexivity. }
      subst w'. rewrite lookup_after in Hrq.
      destruct i as [|[|i]]; simpl in Hrq; try discriminate Hrq; injection Hrq as <-.
      * rewrite Nat.add_0_r in Hfail.
        pose proof (writer_exchange_terminal rt net started t _ _ _ Hfail N1) as T.
        rewrite E1 in T. destruct T as (_ & _ & T). rewrite T in Ew. discriminate Ew.
      * rewrite Nat.add_1_r in Hfail.
        pose proof (writer_exchange_terminal rt net started t _ _ _ Hfail N2) as T.
        split; [rewrite length_app; simpl; lia|].
        destruct (writer_exchange rt net started (S (length w)) rq2) as [d2|e2];
          injection Hrun as <- _; eexists; (split; [reflexivity|]).
        -- destruct T as (T1 & T2 & _).
           rewrite lookup_insert_ne by discriminate. split; assumption.
        -- split; [apply T|]. rewrite writer_handled_error. eexists. reflexivity.
    + injection Hrun as <- <-. rewrite lookup_after in Hrq.
      destruct i as [|i]; simpl in Hrq; try discriminate Hrq; injection Hrq as <-.
      rewrite Nat.add_0_r in Hfail.
      pose proof (writer_exchange_terminal rt net started t _ _ _ Hfail N1) as T.
      rewrite E1 in T. destruct T as (T1 & T2 & _).
      split; [rewrite length_snoc; lia|]. eauto.
  - injection Hrun as <- <-. rewrite lookup_after in Hrq.
    destruct i as [|i]; simpl in Hrq; try discriminate Hrq; injection Hrq as <-.
    rewrite Nat.add_0_r in Hfail.
    pose proof (writer_exchange_terminal rt net started t _ _ _ Hfail N1) as T.
    rewrite E1 in T.
    split; [rewrite length_snoc; lia|].
    eexists. split; [reflexivity|]. split; [apply T|].
    rewrite writer_handled_error. eexists. reflexivity.
Qed.

End TerminalFacts.

(** C4. In a model call, an HTTP error, a timeout or network error of a
    batch request, or an error object inside the stream ends the call:
    the exchange that failed is the last request the call makes, and the
    call returns a dict whose ["error"] entry reports that failure. This
    holds of the dispatcher of the recommendations module, with and
    without streaming, and of the call of the writing module. *)
Theorem other_failures_are_terminal rt net sys model user key temp v t
    (w : world) out w' i rq f
    (Hrq : w' !! (length w + i)%nat = Some rq)
    (Hfail : terminal_failure rt rq (respond net (length w + i) rq) = Some f) :
  (forall stream,
     Recs._call_openrouter rt net sys model user key temp v t stream w = (out, w') ->
     length w' = S (length w + i)
     /\ exists d, out = Ok d /\ d !! "error" = failure_report rt t f
                  /\ is_Some (d !! "error"))
  /\ (Writer.call_openrouter rt net sys model user key temp v t w = (out, w') ->
      length w' = S (length w + i)
      /\ exists d, out = Ok d /\ d !! "error" = failure_report rt t f
                   /\ is_Some (d !! "error")).
Proof.
  split.
  - intros stream Hrun. eapply TerminalFacts.dispatch_terminal; eassumption.
  - intros Hrun. eapply TerminalFacts.writer_terminal; eassumption.
Qed.

Lemma other_failures_witness :
  Sample.rate_limited_run.2 !! 0%nat
  = Some (Recs.stream_request "S" "openai/gpt-5.2" "u" "k" (JNum 0) 1000)
  /\ length Sample.rate_limited_run.2 = 1%nat
  /\ exists d, Sample.rate_limited_run.1 = Ok d
               /\ d !! "error" = Some (JStr "HTTP 500: rate limited")
               /\ is_Some (d !! "error").
Proof.
  split; [vm_compute; reflexivity|].
  exact (proj1 (other_failures_are_terminal Sample.sample_runtime Sample.rate_limited
                  "S" "openai/gpt-5.2" "u" "k" (JNum 0) 1000 60 []
                  Sample.rate_limited_run.1 Sample.rate_limited_run.2 0
                  (Recs.stream_request "S" "openai/gpt-5.2" "u" "k" (JNum 0) 1000)
                  (HttpError 500 "rate limited") eq_refl eq_refl) true eq_refl).
Defined.

(** C3. When the streaming attempt of a call raises a network-level
    exception (a client error or a timeout), the call is one run of the
    batch strategy at the caller's budget, started after the streaming
    request, and returns what that run returns: the request that follows
    the streaming one is the batch request at the original budget, and at
    most the batch strategy's own retry follows it. *)
Theorem stream_network_failure_falls_back rt net sys model user key temp v t
    (w : world) e
    (Hstream : (Recs._call_openrouter_stream rt net sys model user key temp v w).1
               = Raise e)
    (Hnet : network_level e = true) :
  Recs._call_openrouter rt net sys model user key temp v t true w
  = Recs._call_openrouter_batch rt net sys model user key temp v t
      (w ++ [Recs.stream_request sys model user key temp v])
  /\ exists d rest,
       Recs._call_openrouter rt net sys model user key temp v t true w
       = (Ok d, w ++ [Recs.stream_request sys model user key temp v;
                      Recs.batch_request sys model user key temp t v None] ++ rest)
       /\ (length rest <= 1)%nat.
Proof.
  rewrite DispatchFacts.stream_run in Hstream. simpl in Hstream.
  assert (E : Recs._call_openrouter rt net sys model user key temp v t true w
              = Recs._call_openrouter_batch rt net sys model user key temp v t
                  (w ++ [Recs.stream_request sys model user key temp v])).
  { rewrite DispatchFacts.dispatch_run. cbv zeta. rewrite Hstream, Hnet. reflexivity. }
  split; [exact E|]. rewrite E.
  destruct (DispatchFacts.batch_returns rt net sys model user key temp v t
              (w ++ [Recs.stream_request sys model user key temp v])) as [d Hd].
  destruct (PolicyFacts.batch_extends rt net sys model user key temp v t
              (w ++ [Recs.stream_request sys model user key temp v]))
    as (rest & Hrest & Hlen).
  exists d, rest. split; [|exact Hlen].
  destruct (Recs._call_openrouter_batch _ _ _ _ _ _ _ _ _ _) as [o w2].
  simpl in *. subst o w2. rewrite <- app_assoc. reflexivity.
Qed.

Lemma stream_network_failure_witness :
  (Recs._call_openrouter_stream Sample.sample_runtime Sample.unreachable
     "S" "openai/gpt-5.2" "u" "k" (JNum 0) 1000 []).1 = Raise TimeoutError
  /\ Recs._call_openrouter Sample.sample_runtime Sample.unreachable
       "S" "openai/gpt-5.2" "u" "k" (JNum 0) 1000 60 true []
     = Recs._call_openrouter_batch Sample.sample_runtime Sample.unreachable
         "S" "openai/gpt-5.2" "u" "k" (JNum 0) 1000 60
         [Recs.stream_request "S" "openai/gpt-5.2" "u" "k" (JNum 0) 1000].
Proof.
  split; [reflexivity|].
  exact (proj1 (stream_network_failure_falls_back Sample.sample_runtime
                  Sample.unreachable "S" "openai/gpt-5.2" "u" "k" (JNum 0) 1000 60
                  [] TimeoutError eq_refl eq_refl)).
Defined.


Module AnnotationFacts.

Ltac no_key :=
  repeat (rewrite lookup_insert_ne by discriminate);
  try (rewrite lookup_singleton_ne by discriminate); reflexivity.

Lemma writer_read_no_effort rt elapsed resp d :
  Writer.read_response rt elapsed resp = Ok d ->
  d !! "retried_reasoning_effort" = None.
Proof.
  unfold Writer.read_response, Writer.get_message_or, res_bind. intros H.
  FailureFacts.crush_res H; injection H as <-; no_key.
Qed.

Lemma writer_no_retry model (d : dict) :
  model <> "google/gemini-3.1-pro-preview" -> Writer.wants_retry model d = false.
Proof.
  intros H. unfold Writer.wants_retry.
  destruct (String.eqb_spec model "google/gemini-3.1-pro-preview"); [contradiction|].
  reflexivity.
Qed.

End AnnotationFacts.

(** C1, as the code has it. A call fails with the empty response of a
    truncated completion ([finish_reason] is ["length"]).
    - Batch strategy of the recommendations module, model in
      [MODELS_WITH_RETRY]: exactly one more request is made, with the
      effective budget [min (max (3 v) 8000) 16000] (plus the overhead on
      the wire) and the reasoning override [{"max_tokens": 512}]; when that
      request is answered, by a success or by a failure, the outcome is the
      answer annotated with the retry budget and the effort ["medium"].
    - Writing module, model [google/gemini-3.1-pro-preview]: exactly one
      more request, with the effective budget [min (max (3 v) 2000) 8000]
      and the same override; an answered retry is annotated with the retry
      budget and carries no effort entry.
    - Writing module, any other model: one request is made and no other.
    - Dispatcher of the recommendations module after a streamed attempt,
      model in [MODELS_WITH_RETRY]: the request that follows is not
      streamed and has the effective budget [min (max (3 v) 8000) 16000]
      (plus the overhead on the wire); the call returns, and its outcome is
      annotated with that budget and the effort ["medium"]. *)
Theorem retry_on_truncated_empty_response rt net sys user key temp v t (w : world) :
  (forall model d1,
     model ∈ Recs.MODELS_WITH_RETRY ->
     batch_exchange rt net (clock net (length w)) (length w)
       (Recs.batch_request sys model user key temp t v None) = Ok d1 ->
     d1 !! "error" = Some (JStr "Empty response from model") ->
     d1 !! "finish_reason" = Some (JStr "length") ->
     exists out,
       Recs._call_openrouter_batch rt net sys model user key temp v t w
       = (Ok out,
          w ++ [Recs.batch_request sys model user key temp t v None;
                Recs.batch_request sys model user key temp t
                  (Z.min (Z.max (3 * v) 8000) 16000) (Some Recs.REDUCED_REASONING)])
       /\ req_json (Recs.batch_request sys model user key temp t
                      (Z.min (Z.max (3 * v) 8000) 16000) (Some Recs.REDUCED_REASONING))
            !! "max_tokens"
          = Some (JNum (Z.min (Z.max (3 * v) 8000) 16000
                        + default 0 (Recs.MODEL_REASONING_OVERHEAD !! model)))
       /\ req_json (Recs.batch_request sys model user key temp t
                      (Z.min (Z.max (3 * v) 8000) 16000) (Some Recs.REDUCED_REASONING))
            !! "reasoning"
          = Some (JObj [("max_tokens", JNum 512)])
       /\ forall d2,
            batch_exchange rt net (clock net (length w)) (S (length w))
              (Recs.batch_request sys model user key temp t
                 (Z.min (Z.max (3 * v) 8000) 16000) (Some Recs.REDUCED_REASONING))
            = Ok d2 ->
            out !! "retried_with_max_tokens"
            = Some (JNum (Z.min (Z.max (3 * v) 8000) 16000))
            /\ out !! "retried_reasoning_effort" = Some (JStr "medium")
            /\ out !! "error" = d2 !! "error"
            /\ out !! "content" = d2 !! "content")
  /\ (forall d1,
        writer_exchange rt net (clock net (length w)) (length w)
          (Writer.post_request sys "google/gemini-3.1-pro-preview" user key temp t v None)
        = Ok d1 ->
        d1 !! "error" = Some (JStr "Empty response from model") ->
        d1 !! "finish_reason" = Some (JStr "length") ->
        exists out,
          Writer.call_openrouter rt net sys "google/gemini-3.1-pro-preview" user key
            temp v t w
          = (Ok out,
             w ++ [Writer.post_request sys "google/gemini-3.1-pro-preview" user key
                     temp t v None;
                   Writer.post_request sys "google/gemini-3.1-pro-preview" user key
                     temp t (Z.min (Z.max (3 * v) 2000) 8000)
                     (Some Writer.REDUCED_REASONING)])
          /\ req_json (Writer.post_request sys "google/gemini-3.1-pro-preview" user key
                         temp t (Z.min (Z.max (3 * v) 2000) 8000)
                         (Some Writer.REDUCED_REASONING)) !! "max_tokens"
             = Some (JNum (Z.min (Z.max (3 * v) 2000) 8000 + 2048))
          /\ req_json (Writer.post_request sys "google/gemini-3.1-pro-preview" user key
                         temp t (Z.min (Z.max (3 * v) 2000) 8000)
                         (Some Writer.REDUCED_REASONING)) !! "reasoning"
             = Some (JObj [("max_tokens", JNum 512)])
          /\ forall d2,
               writer_exchange rt net (clock net (length w)) (S (length w))
                 (Writer.post_request sys "google/gemini-3.1-pro-preview" user key
                    temp t (Z.min (Z.max (3 * v) 2000) 8000)
                    (Some Writer.REDUCED_REASONING))
               = Ok d2 ->
               out = <["retried_with_max_tokens" :=
                         JNum (Z.min (Z.max (3 * v) 2000) 8000)]> d2
               /\ out !! "retried_with_max_tokens"
                  = Some (JNum (Z.min (Z.max (3 * v) 2000) 8000))
               /\ out !! "retried_reasoning_effort" = None)
  /\ (forall model,
        model <> "google/gemini-3.1-pro-preview" ->
        (Writer.call_openrouter rt net sys model user key temp v t w).2
        = w ++ [Writer.post_request sys model user key temp t v None])
  /\ (forall model d1,
        model ∈ Recs.MODELS_WITH_RETRY ->
        stream_exchange rt net (clock net (length w)) (length w)
          (Recs.stream_request sys model user key temp v) = Ok d1 ->
        d1 !! "error" = Some (JStr "Empty response from model") ->
        d1 !! "finish_reason" = Some (JStr "length") ->
        exists out rq rest,
          Recs._call_openrouter rt net sys model user key temp v t true w
          = (Ok out, w ++ Recs.stream_request sys model user key temp v :: rq :: rest)
          /\ is_streaming rq = false
          /\ req_json rq !! "max_tokens"
             = Some (JNum (Z.min (Z.max (3 * v) 8000) 16000
                           + default 0 (Recs.MODEL_REASONING_OVERHEAD !! model)))
          /\ out !! "retried_with_max_tokens"
             = Some (JNum (Z.min (Z.max (3 * v) 8000) 16000))
          /\ out !! "retried_reasoning_effort" = Some (JStr "medium")).
Proof.
  assert (Br : Z.min (Z.max (3 * v) 8000) 16000 = Recs.retry_max_tokens v)
    by (unfold Recs.retry_max_tokens; rewrite (Z.mul_comm 3 v); reflexivity).
  assert (Bw : Z.min (Z.max (3 * v) 2000) 8000 = Writer.retry_max_tokens v)
    by (unfold Writer.retry_max_tokens; rewrite (Z.mul_comm 3 v); reflexivity).
  rewrite !Br, !Bw. split; [|split; [|split]].
  - intros model d1 Hm E1 He Hf.
    pose proof (RetryFacts.recs_wants_retry model d1 Hm He Hf) as W.
    rewrite RunFacts.batch_run. cbv zeta. rewrite E1, W, <- app_assoc.
    change ([?a] ++ [?b]) with [a; b].
    destruct (batch_exchange rt net (clock net (length w)) (S (length w)) _)
      as [d2|e] eqn:E2; eexists; (split; [reflexivity|]);
      (split; [apply RetryFacts.recs_budget; reflexivity|]);
      (split; [apply RetryFacts.recs_override|]); intros d2' Hd2; [|discriminate Hd2].
    injection Hd2 as <-.
    rewrite !RetryFacts.with_elapsed_lookup by discriminate.
    destruct (RetryFacts.annotate_lookup (Recs.retry_max_tokens v) d2) as [A1 A2].
    split; [exact A1|]. split; [exact A2|].
    split; [apply FailureFacts.annotate_keeps_error|].
    unfold Recs.annotate_retry. rewrite !lookup_insert_ne by discriminate. reflexivity.
  - intros d1 E1 He Hf.
    pose proof (RetryFacts.writer_wants_retry d1 He Hf) as W.
    rewrite RetryFacts.writer_run. cbv zeta. rewrite E1, W, <- app_assoc.
    change ([?a] ++ [?b]) with [a; b].
    destruct (writer_exchange rt net (clock net (length w)) (S (length w)) _)
      as [d2|e] eqn:E2; eexists; (split; [reflexivity|]);
      (split; [apply (RetryFacts.writer_budget sys "google/gemini-3.1-pro-preview");
               reflexivity|]);
      (split; [apply RetryFacts.writer_override|]); intros d2' Hd2; [|discriminate Hd2].
    injection Hd2 as <-. split; [reflexivity|].
    split; [apply lookup_insert_eq|].
    rewrite lookup_insert_ne by discriminate.
    unfold writer_exchange in E2.
    destruct (respond net (S (length w)) _) as [e|r]; [discriminate E2|].
    eapply AnnotationFacts.writer_read_no_effort, E2.
  - intros model Hm. rewrite RetryFacts.writer_run. cbv zeta.
    destruct (writer_exchange rt net _ (length w) _) as [d1|e]; [|reflexivity].
    rewrite (AnnotationFacts.writer_no_retry model d1 Hm). reflexivity.
  - intros model d1 Hm E1 He Hf.
    pose proof (RetryFacts.recs_wants_retry model d1 Hm He Hf) as W.
    rewrite DispatchFacts.dispatch_run. cbv zeta. rewrite E1, W.
    destruct (DispatchFacts.batch_returns rt net sys model user key temp
                (Recs.retry_max_tokens v) t
                (w ++ [Recs.stream_request sys model user key temp v])) as [r Hr].
    destruct (PolicyFacts.batch_extends rt net sys model user key temp
                (Recs.retry_max_tokens v) t
                (w ++ [Recs.stream_request sys model user key temp v]))
      as (rest & Hw & _).
    rewrite Hr, Hw. eexists _, _, rest. split.
    { rewrite <- app_assoc. reflexivity. }
    split; [apply FailureFacts.batch_request_not_streaming; reflexivity|].
    split; [apply RetryFacts.recs_budget; reflexivity|].
    apply RetryFacts.annotate_lookup.
Qed.

Lemma retry_witness :
  "openai/gpt-5.2" ∈ Recs.MODELS_WITH_RETRY
  /\ exists out,
       Recs._call_openrouter_batch Sample.sample_runtime Sample.truncating
         "S" "openai/gpt-5.2" "u" "k" (JNum 0) 1000 60 []
       = (Ok out,
          [Recs.batch_request "S" "openai/gpt-5.2" "u" "k" (JNum 0) 60 1000 None;
           Recs.batch_request "S" "openai/gpt-5.2" "u" "k" (JNum 0) 60 8000
             (Some Recs.REDUCED_REASONING)])
       /\ out !! "retried_with_max_tokens" = Some (JNum 8000)
       /\ out !! "retried_reasoning_effort" = Some (JStr "medium").
Proof.
  assert (Hm : "openai/gpt-5.2" ∈ Recs.MODELS_WITH_RETRY)
    by (apply (bool_decide_unpack _); vm_compute; exact I).
  split; [exact Hm|].
  destruct (proj1 (retry_on_truncated_empty_response Sample.sample_runtime
                     Sample.truncating "S" "u" "k" (JNum 0) 1000 60 [])
              "openai/gpt-5.2" Sample.truncated_result Hm)
    as (out & Hrun & _ & _ & Hann); [vm_compute; reflexivity..|].
  exists out. split; [exact Hrun|].
  destruct (Hann Sample.truncated_result) as (A & B & _); [vm_compute; reflexivity|].
  split; assumption.
Defined.

(** C1 as stated fails at three runs.
    - Writing module, visible budget 1000: the retry goes out with the
      effective budget 3000, not [max (3 * 1000) 8000 = 8000], and the
      annotated outcome names the budget but no effort level.
    - Batch strategy of the recommendations module, the retry request
      times out: the outcome is the failure ["Timeout after 60s"], with
      neither the retry budget nor an effort level.
    - Writing module, the retry request times out: the outcome is the
      failure ["Timeout after 90s"], without the retry budget. *)
Lemma retry_counterexample :
  (map (fun rq => req_json rq !! "max_tokens") Sample.writer_truncated_run.2
   = [Some (JNum (1000 + 2048)); Some (JNum (3000 + 2048))]
   /\ 3000 <> Z.min (Z.max (3 * 1000) 8000) 16000
   /\ returns Sample.writer_truncated_run.1 = true
   /\ returned Sample.writer_truncated_run.1 "retried_with_max_tokens"
      = Some (JNum 3000)
   /\ returned Sample.writer_truncated_run.1 "retried_reasoning_effort" = None)
  /\ ("openai/gpt-5.2" ∈ Recs.MODELS_WITH_RETRY
      /\ map (fun rq => req_json rq !! "max_tokens") Sample.silent_retry_run.2
         = [Some (JNum (1000 + 4096)); Some (JNum (8000 + 4096))]
      /\ returned Sample.silent_retry_run.1 "error" = Some (JStr "Timeout after 60s")
      /\ returned Sample.silent_retry_run.1 "retried_with_max_tokens" = None
      /\ returned Sample.silent_retry_run.1 "retried_reasoning_effort" = None)
  /\ (map (fun rq => req_json rq !! "max_tokens") Sample.writer_silent_retry_run.2
      = [Some (JNum (1000 + 2048)); Some (JNum (3000 + 2048))]
      /\ returned Sample.writer_silent_retry_run.1 "error"
         = Some (JStr "Timeout after 90s")
      /\ returned Sample.writer_silent_retry_run.1 "retried_with_max_tokens" = None).
Proof.
  split; [|split].
  - split; [vm_compute; reflexivity|]. split; [discriminate|].
    repeat split; vm_compute; reflexivity.
  - split; [apply (bool_decide_unpack _); vm_compute; exact I|].
    repeat split; vm_compute; reflexivity.
  - repeat split; vm_compute; reflexivity.
Qed.

(** ** Empty batch responses *)

Module EmptyFacts.

Lemma por_obj (kvs : list (string * json)) : por (JObj kvs) (JObj []) = JObj kvs.
Proof. destruct kvs; reflexivity. Qed.

Lemma por_falsy (v d : json) : truthy v = false -> por v d = d.
Proof. unfold por. intros ->. reflexivity. Qed.

Lemma no_envelope (kvs : list (string * json)) :
  assoc "error" kvs = None -> py_in "error" (JObj kvs) = Ok false.
Proof. intros H. simpl. rewrite H. reflexivity. Qed.

End EmptyFacts.

(** C6, as the code has it. A batch response with status 200 whose body
    is an object without an error envelope:
    - when its choices array is absent or empty, the strategy returns the
      failure "Unexpected response structure", which carries neither a
      finish reason nor a reasoning flag (the writing module appends the
      start of the body and the elapsed time);
    - when its first choice has no content, or content that is the empty
      text, the strategy returns the failure "Empty response from model",
      never a success, with the finish reason of that choice and whether
      its message had reasoning text. *)
Theorem batch_empty_response rt elapsed resp kvs
    (Hstatus : status resp = 200)
    (Hbody : json_body resp = Ok (JObj kvs))
    (Henv : assoc "error" kvs = None) :
  (truthy (default JNull (assoc "choices" kvs)) = false ->
   Recs.read_batch_response rt elapsed resp
   = Ok {[ "error" := JStr "Unexpected response structure" ]}
   /\ Writer.read_response rt elapsed resp
      = Ok {[ "error" := JStr ("Unexpected response structure: "
                               +:+ take_str 200 (py_str rt (JObj kvs)));
              "elapsed_seconds" := JNum elapsed ]})
  /\ (forall ckv rest mkv,
        assoc "choices" kvs = Some (JArr (JObj ckv :: rest)) ->
        por (default JNull (assoc "message" ckv)) (JObj []) = JObj mkv ->
        _coerce_content_to_text (default JNull (assoc "content" mkv)) = "" ->
        Recs.read_batch_response rt elapsed resp
        = Ok {[ "error" := JStr "Empty response from model";
                "finish_reason" := default JNull (assoc "finish_reason" ckv);
                "has_reasoning" :=
                  JBool (truthy (default JNull (assoc "reasoning" mkv))) ]}
        /\ Writer.read_response rt elapsed resp
           = Ok {[ "error" := JStr "Empty response from model";
                   "finish_reason" := default JNull (assoc "finish_reason" ckv);
                   "has_reasoning" :=
                     JBool (truthy (default JNull (assoc "reasoning" mkv)));
                   "elapsed_seconds" := JNum elapsed ]}).
Proof.
  unfold Recs.read_batch_response, Writer.read_response.
  rewrite Hstatus, Hbody. cbn [Z.eqb Pos.eqb negb res_bind].
  rewrite (EmptyFacts.no_envelope kvs Henv). cbn [res_bind py_get].
  split.
  - intros Hc. rewrite (EmptyFacts.por_falsy _ (JArr []) Hc). split; reflexivity.
  - intros ckv rest mkv Hc Hm Hcontent. rewrite Hc.
    change (por (default JNull (Some (JArr (JObj ckv :: rest)))) (JArr []))
      with (JArr (JObj ckv :: rest)).
    cbn [truthy negb py_item0 res_bind].
    rewrite EmptyFacts.por_obj. cbn [py_get res_bind]. rewrite Hm.
    cbn [py_get res_bind]. rewrite Hcontent. split; reflexivity.
Qed.

Lemma batch_empty_response_witness :
  Recs.read_batch_response Sample.sample_runtime 0
    (Sample.ok_response Sample.truncated_completion)
  = Ok Sample.truncated_result
  /\ Recs.read_batch_response Sample.sample_runtime 0 Sample.no_choices
     = Ok {[ "error" := JStr "Unexpected response structure" ]}.
Proof.
  split.
  - exact (proj1 (proj2 (batch_empty_response Sample.sample_runtime 0
                    (Sample.ok_response Sample.truncated_completion) _
                    eq_refl eq_refl eq_refl) _ _ _ eq_refl eq_refl eq_refl)).
  - exact (proj1 (proj1 (batch_empty_response Sample.sample_runtime 0
                    Sample.no_choices _ eq_refl eq_refl eq_refl) eq_refl)).
Defined.

(** C6 as stated fails on an empty choices array: the failure is not the
    empty-response failure and records neither the finish reason nor the
    reasoning flag. *)
Lemma empty_choices_counterexample :
  returned (Recs.read_batch_response Sample.sample_runtime 0 Sample.no_choices) "error"
  = Some (JStr "Unexpected response structure")
  /\ returned (Recs.read_batch_response Sample.sample_runtime 0 Sample.no_choices)
       "finish_reason" = None
  /\ returned (Recs.read_batch_response Sample.sample_runtime 0 Sample.no_choices)
       "has_reasoning" = None.
Proof. repeat split; vm_compute; reflexivity. Qed.

(** ** Reading an event stream *)

Module SseFacts.

Import Sse.

Lemma data_line_shape (line : string) :
  startswith "data: " line = true ->
  nonempty line = true /\ startswith ":" line = false.
Proof.
  destruct line as [|c line]; [intros H; discriminate H|]. intros H.
  change (startswith "data: " (String c line))
    with (Ascii.eqb "d" c && startswith "ata: " line) in H.
  apply andb_true_iff in H as [Hc _]. apply Ascii.eqb_eq in Hc. subst c.
  split; reflexivity.
Qed.

Lemma handle_noise rt st raw :
  reads rt raw Noise -> Recs.handle_line rt st raw = Ok (Recs.Continue st).
Proof.
  intros H.
  inversion H as [r E|r E|r E|r D N L|r kvs D N L Henv Hc|r chunk e D N L C]; subst.
  - unfold Recs.handle_line. rewrite E. reflexivity.
  - unfold Recs.handle_line. rewrite E, orb_true_r. reflexivity.
  - unfold Recs.handle_line. unfold is_data_line in E. rewrite E.
    destruct (_ || _); reflexivity.
  - unfold Recs.handle_line. unfold is_done in N. rewrite D in N.
    unfold is_data_line in D. destruct (data_line_shape _ D) as [E1 E2].
    rewrite E1, E2, D. cbn [andb] in N. cbn [negb orb]. unfold payload_of in N, L.
    rewrite N, L. reflexivity.
  - unfold Recs.handle_line. unfold is_done in N. rewrite D in N.
    unfold is_data_line in D. destruct (data_line_shape _ D) as [E1 E2].
    rewrite E1, E2, D. cbn [andb] in N. cbn [negb orb]. unfold payload_of in N, L.
    rewrite N, L, (EmptyFacts.no_envelope kvs Henv). cbn [res_bind py_get].
    rewrite (EmptyFacts.por_falsy _ (JArr []) Hc). reflexivity.
  - inversion C.
Qed.

Lemma truthy_text v s : text_field v s -> truthy v = nonempty s.
Proof. intros []; reflexivity. Qed.

Lemma handle_fragment rt st raw c r f :
  reads rt raw (Fragment c r f) ->
  Recs.handle_line rt st raw = Ok (Recs.Continue (after_event st (Fragment c r f))).
Proof.
  intros H. inversion H as [| | | | |r0 chunk e D N L C]; subst.
  inversion C as [kvs ckv rest dkv c0 r0 f0 Henv Hch Hdelta Hc Hr Hf]; subst.
  unfold Recs.handle_line. unfold is_done in N. rewrite D in N.
  unfold is_data_line in D. destruct (data_line_shape _ D) as [E1 E2].
  rewrite E1, E2, D. cbn [andb] in N. unfold payload_of in N, L.
  cbn [negb orb]. rewrite N, L.
  rewrite (EmptyFacts.no_envelope kvs Henv). cbn [res_bind py_get]. rewrite Hch.
  change (por (default JNull (Some (JArr (JObj ckv :: rest)))) (JArr []))
    with (JArr (JObj ckv :: rest)).
  cbn [truthy negb py_item0 res_bind]. rewrite EmptyFacts.por_obj.
  cbn [py_get res_bind]. rewrite Hdelta. cbn [py_get res_bind].
  rewrite (truthy_text _ _ Hc), (truthy_text _ _ Hr).
  unfold after_event. do 3 f_equal.
  - destruct Hc; reflexivity.
  - destruct Hr; reflexivity.
  - destruct Hf as [|s Hs]; [reflexivity|].
    simpl. destruct s; [congruence|reflexivity].
Qed.

Lemma handle_reads rt st raw e :
  reads rt raw e -> Recs.handle_line rt st raw = Ok (Recs.Continue (after_event st e)).
Proof.
  destruct e; [apply handle_noise|apply handle_fragment].
Qed.

Lemma handle_done rt st raw :
  is_done raw = true -> Recs.handle_line rt st raw = Ok (Recs.Break st).
Proof.
  unfold is_done. intros [D N]%andb_true_iff.
  unfold Recs.handle_line. unfold is_data_line in D.
  destruct (data_line_shape _ D) as [E1 E2].
  rewrite E1, E2, D. unfold payload_of in N. cbn [negb orb]. rewrite N. reflexivity.
Qed.

Lemma consume_events rt lines events :
  Forall2 (reads rt) lines events ->
  forall st tail ending,
    Recs.consume rt st (lines ++ tail) ending
    = Recs.consume rt (foldl after_event st events) tail ending.
Proof.
  induction 1 as [|raw e lines events Hr _ IH]; intros st tail ending; [reflexivity|].
  simpl. rewrite (handle_reads rt st raw e Hr). simpl. apply IH.
Qed.

Lemma join_parts_snoc parts acc c :
  Recs.join_parts parts = Ok acc ->
  Recs.join_parts (parts ++ [JStr c]) = Ok (acc +:+ c).
Proof.
  revert acc. induction parts as [|p parts IH]; intros acc H; simpl in *.
  - injection H as <-. rewrite StrFacts.app_nil_r. reflexivity.
  - destruct p; try discriminate H.
    destruct (Recs.join_parts parts) as [t|e] eqn:E; [|discriminate H].
    simpl in H. injection H as <-. rewrite (IH t eq_refl). simpl.
    rewrite StrFacts.app_assoc. reflexivity.
Qed.

Lemma content_after events :
  forall st acc,
    Recs.join_parts (Recs.content_parts st) = Ok acc ->
    Recs.join_parts (Recs.content_parts (foldl after_event st events))
    = Ok (acc +:+ all_content events).
Proof.
  induction events as [|e events IH]; intros st acc H; simpl.
  - rewrite StrFacts.app_nil_r. exact H.
  - destruct e as [|c r f]; simpl.
    + apply IH, H.
    + rewrite <- StrFacts.app_assoc. apply IH. simpl.
      destruct c as [|a c]; simpl.
      * rewrite StrFacts.app_nil_r. exact H.
      * apply join_parts_snoc, H.
Qed.

Lemma truthy_snoc (l : list json) (x : json) : truthy (JArr (l ++ [x])) = true.
Proof. destruct l; reflexivity. Qed.

Lemma reasoning_after events :
  forall st,
    truthy (JArr (Recs.reasoning_parts (foldl after_event st events)))
    = truthy (JArr (Recs.reasoning_parts st)) || any_reasoning events.
Proof.
  induction events as [|e events IH]; intros st.
  - cbn [foldl any_reasoning existsb]. rewrite orb_false_r. reflexivity.
  - cbn [foldl]. rewrite IH. unfold any_reasoning. cbn [existsb].
    destruct e as [|c r f]; [reflexivity|].
    cbn [after_event Recs.reasoning_parts reasoning_of].
    destruct (nonempty r); [|reflexivity].
    rewrite truthy_snoc, orb_true_r. reflexivity.
Qed.

Lemma finish_after events :
  forall st acc,
    Recs.finish_reason st = finish_json acc ->
    Recs.finish_reason (foldl after_event st events)
    = finish_json (foldl (fun acc e => match e with
                                       | Fragment _ _ (Some s) => Some s
                                       | _ => acc
                                       end) acc events).
Proof.
  induction events as [|e events IH]; intros st acc H; simpl; [exact H|].
  apply IH. destruct e as [|c r [s|]]; simpl; [exact H|reflexivity|exact H].
Qed.

Lemma finish_events elapsed events :
  Recs.finish_stream elapsed (foldl after_event Recs.initial_state events)
  = Ok (stream_outcome elapsed events).
Proof.
  unfold Recs.finish_stream, stream_outcome.
  rewrite (content_after events Recs.initial_state "" eq_refl).
  rewrite (finish_after events Recs.initial_state None eq_refl).
  rewrite reasoning_after. cbn [res_bind]. rewrite StrFacts.app_nil_l.
  fold (last_finish events).
  destruct (nonempty (strip (all_content events))); reflexivity.
Qed.

End SseFacts.

(** C5. A stream whose lines are noise (blank lines, comments, lines
    without data payload, payloads that are not JSON, objects without
    choices) and fragments, ended
    by the terminal marker or by the end of the body, is read as follows:
    noise changes nothing; the content is the content increments of the
    fragments concatenated in arrival order, trimmed; reasoning text is
    kept apart and only tells whether there was any; the finish reason
    reported is the last one that is not null. The call succeeds with that
    content when it is not empty, and otherwise fails with the empty
    response. *)
Theorem sse_stream_is_read_in_order rt elapsed resp lines events
    (Hstatus : status resp = 200)
    (Hreads : Forall2 (Sse.reads rt) lines events)
    (Hend : content resp = lines /\ content_end resp = None
            \/ exists done rest,
                 content resp = lines ++ done :: rest /\ Sse.is_done done = true) :
  Recs.read_stream_response rt elapsed resp = Ok (Sse.stream_outcome elapsed events).
Proof.
  unfold Recs.read_stream_response. rewrite Hstatus. cbn [Z.eqb Pos.eqb negb].
  destruct Hend as [[Hc He]|(done & rest & Hc & Hd)]; rewrite Hc.
  - rewrite <- (app_nil_r lines), (SseFacts.consume_events rt lines events Hreads).
    simpl. rewrite He. simpl. apply SseFacts.finish_events.
  - rewrite (SseFacts.consume_events rt lines events Hreads).
    simpl. rewrite (SseFacts.handle_done rt _ done Hd). simpl.
    apply SseFacts.finish_events.
Qed.

(** The chunks [Hel] and [lo], then the terminal marker. *)
Lemma sse_hello_witness :
  Recs.read_stream_response Sample.sample_runtime 0
    (Sample.stream_response Sample.hello_lines)
  = Ok {[ "content" := JStr "Hello";
          "finish_reason" := JNull;
          "elapsed_seconds" := JNum 0;
          "streamed" := JBool true ]}.
Proof.
  assert (frag : forall c,
            Sse.carries (Sample.content_chunk c) (Sse.Fragment c "" None)).
  { intros c.
    exact (Sse.carries_fragment
             [("choices", JArr [JObj [("delta", JObj [("content", JStr c)])]])]
             [("delta", JObj [("content", JStr c)])] []
             [("content", JStr c)] c "" None eq_refl eq_refl eq_refl
             (Sse.text_present c) Sse.text_absent Sse.finish_null). }
  refine (sse_stream_is_read_in_order Sample.sample_runtime 0
            (Sample.stream_response Sample.hello_lines)
            [Sample.data_line (Sample.content_chunk_text "Hel");
             Sample.data_line (Sample.content_chunk_text "lo")]
            [Sse.Fragment "Hel" "" None; Sse.Fragment "lo" "" None]
            eq_refl _ _).
  - refine (List.Forall2_cons _ _ _ (List.Forall2_cons _ _ _ (List.Forall2_nil _))).
    + apply (Sse.reads_fragment _ _ (Sample.content_chunk "Hel"));
        [reflexivity..|exact (frag "Hel")].
    + apply (Sse.reads_fragment _ _ (Sample.content_chunk "lo"));
        [reflexivity..|exact (frag "lo")].
  - right. exists (Sample.data_line "[DONE]"), []. split; reflexivity.
Defined.

(** ** Fan-out *)

Module FanoutFacts.

Import RunFacts DispatchFacts RetryFacts.

(** When no task raises, the loop fills one entry per label, a later
    task overwriting an earlier one of the same label. *)
Lemma await_all_returns (tasks : list (string * res dict)) :
  Forall (fun lt => returns lt.2 = true) tasks ->
  forall out, exists out',
    Recs.await_all tasks out = Ok out'
    /\ dom out' = dom out ∪ list_to_set (map fst tasks).
Proof.
  induction 1 as [|[label task] tasks Hr _ IH]; intros out; simpl.
  - exists out. split; [reflexivity|]. rewrite (right_id_L ∅ (∪)). reflexivity.
  - destruct task as [d|e]; [|discriminate Hr]. simpl.
    destruct (IH (<[label := d]> out)) as (out' & E & D).
    exists out'. split; [exact E|].
    rewrite D, dom_insert_L, (comm_L (∪) {[label]}), <- (assoc_L (∪)). reflexivity.
Qed.

Lemma imap_Forall {A B} (f : nat -> A -> B) (P : B -> Prop) (l : list A) :
  (forall i x, P (f i x)) -> Forall P (imap f l).
Proof.
  revert f. induction l as [|x l IH]; intros f H; simpl; constructor; [apply H|].
  apply IH. intros i y. apply H.
Qed.

Lemma imap_fst {A B} (f : nat -> string * A -> string * B) (l : list (string * A)) :
  (forall i x, (f i x).1 = x.1) -> map fst (imap f l) = map fst l.
Proof.
  revert f. induction l as [|x l IH]; intros f H; simpl; [reflexivity|].
  f_equal; [apply H|]. apply IH. intros i y. apply H.
Qed.

(** Without streaming every call returns a dict, so the fan-out returns a
    mapping with one entry per requested label. *)
Lemma run_models_batch_returns rt nets sys today prompt sources key models v temp t :
  exists out,
    Recs.run_models rt nets sys today prompt sources key models v temp t false = Ok out
    /\ dom (Recs.results out) = list_to_set (map fst models).
Proof.
  unfold Recs.run_models.
  set (tasks := imap _ models).
  destruct (await_all_returns tasks) with (out := (∅ : gmap string dict))
    as (out' & E & D).
  { apply imap_Forall. intros i [label model]. simpl.
    destruct (batch_returns rt (nets i) sys model
                (Prompt.build_user_prompt prompt sources today) key temp v t [])
      as [d Hd].
    unfold Recs._call_openrouter. rewrite Hd. reflexivity. }
  rewrite E. simpl. eexists. split; [reflexivity|]. simpl.
  rewrite D, dom_empty_L, (left_id_L ∅ (∪)). f_equal.
  subst tasks. apply imap_fst. reflexivity.
Qed.

End FanoutFacts.

(** ** Lines of a draft *)

Module LineFacts.

Import StrFacts.

Section Strip.

Context (p : ascii -> bool).

Lemma rstrip_by_cons (c : ascii) (t : string) :
  rstrip_by p t <> "" -> rstrip_by p (String c t) = String c (rstrip_by p t).
Proof. intros H. simpl. destruct (rstrip_by p t); [contradiction|reflexivity]. Qed.

Lemma rstrip_by_app (s t : string) :
  rstrip_by p t <> "" -> rstrip_by p (s +:+ t) = s +:+ rstrip_by p t.
Proof.
  intros Ht. induction s as [|c s IH]; [reflexivity|].
  rewrite !app_cons. simpl. rewrite IH.
  destruct (s +:+ rstrip_by p t) eqn:E; [|reflexivity].
  destruct s; [|discriminate E]. rewrite app_nil_l in E. contradiction.
Qed.

Lemma rstrip_by_idem (s : string) : rstrip_by p (rstrip_by p s) = rstrip_by p s.
Proof.
  induction s as [|c s IH]; [reflexivity|]. simpl.
  destruct (rstrip_by p s) as [|a r] eqn:E.
  - destruct (p c) eqn:Ep; [reflexivity|]. simpl. rewrite Ep. reflexivity.
  - change (rstrip_by p (String c (String a r)))
      with (match rstrip_by p (String a r) with
            | "" => if p c then "" else String c ""
            | x => String c x
            end).
    rewrite IH. reflexivity.
Qed.

Lemma lstrip_by_app (s t : string) :
  lstrip_by p s <> "" -> lstrip_by p (s +:+ t) = lstrip_by p s +:+ t.
Proof.
  induction s as [|c s IH]; intros H; [contradiction|].
  rewrite app_cons. simpl in *. destruct (p c); [apply IH, H|reflexivity].
Qed.

Lemma lstrip_by_idem (s : string) : lstrip_by p (lstrip_by p s) = lstrip_by p s.
Proof.
  induction s as [|c s IH]; [reflexivity|]. simpl.
  destruct (p c) eqn:E; [exact IH|]. simpl. rewrite E. reflexivity.
Qed.

(** Stripping on the left keeps a string that is stripped on the right
    stripped on the right. *)
Lemma rstrip_lstrip_fixed (s : string) :
  rstrip_by p s = s -> rstrip_by p (lstrip_by p s) = lstrip_by p s.
Proof.
  induction s as [|c s IH]; intros H; [reflexivity|].
  simpl. destruct (p c) eqn:E; [|exact H].
  apply IH. simpl in H. rewrite E in H.
  destruct (rstrip_by p s) as [|a r]; [discriminate H|].
  injection H as <-. reflexivity.
Qed.

Lemma has_char_rstrip c (s : string) :
  has_char c s = false -> has_char c (rstrip_by p s) = false.
Proof.
  induction s as [|a s IH]; intros H; [reflexivity|].
  simpl in H. apply orb_false_iff in H as [Ha Hs]. simpl.
  destruct (rstrip_by p s) as [|b r] eqn:E.
  - destruct (p a); [reflexivity|]. simpl. rewrite Ha. reflexivity.
  - simpl. rewrite Ha. exact (IH Hs).
Qed.

Lemma has_char_lstrip c (s : string) :
  has_char c s = false -> has_char c (lstrip_by p s) = false.
Proof.
  induction s as [|a s IH]; intros H; [reflexivity|].
  simpl. destruct (p a); [|exact H].
  simpl in H. apply orb_false_iff in H as [_ Hs]. exact (IH Hs).
Qed.

End Strip.

(** *** Lines *)

Lemma split_on_nonempty sep (s : string) : split_on sep s <> [].
Proof.
  induction s as [|c s IH]; simpl; [discriminate|].
  destruct (Ascii.eqb c sep); [discriminate|].
  destruct (split_on sep s); discriminate.
Qed.

Lemma split_on_no_sep sep (s : string) :
  Forall (fun line => has_char sep line = false) (split_on sep s).
Proof.
  induction s as [|c s IH]; simpl; [repeat constructor|].
  destruct (Ascii.eqb c sep) eqn:E; [constructor; [reflexivity|exact IH]|].
  destruct (split_on sep s) as [|h r]; [repeat constructor; simpl; rewrite E; reflexivity|].
  inversion IH as [|? ? Hh Hr]; subst.
  constructor; [simpl; rewrite E; exact Hh|exact Hr].
Qed.

Lemma split_on_line sep (s : string) :
  has_char sep s = false -> split_on sep s = [s].
Proof.
  induction s as [|c s IH]; intros H; [reflexivity|].
  simpl in H. apply orb_false_iff in H as [Hc Hs]. simpl.
  rewrite Hc, (IH Hs). reflexivity.
Qed.

Lemma split_on_app sep (s t : string) :
  has_char sep s = false ->
  split_on sep (s +:+ String sep t) = s :: split_on sep t.
Proof.
  induction s as [|c s IH]; intros H.
  - rewrite app_nil_l. simpl. rewrite Ascii.eqb_refl. reflexivity.
  - simpl in H. apply orb_false_iff in H as [Hc Hs].
    rewrite app_cons. simpl. rewrite Hc, (IH Hs). reflexivity.
Qed.

Lemma join_cons (x y : string) (r : list string) :
  join nl (x :: y :: r) = x +:+ String LF (join nl (y :: r)).
Proof. reflexivity. Qed.

Lemma split_join (ls : list string) :
  ls <> [] -> Forall (fun line => has_char LF line = false) ls ->
  split_on LF (join nl ls) = ls.
Proof.
  intros Hne H. induction H as [|x r Hx Hr IH]; [contradiction|].
  destruct r as [|y r]; [apply split_on_line, Hx|].
  rewrite join_cons, (split_on_app LF x _ Hx), IH by discriminate. reflexivity.
Qed.

Lemma kept_nonempty line : kept line -> line <> "" /\ lstrip line <> "".
Proof.
  intros (_ & _ & H). unfold strip in H.
  split; intros E; rewrite E in H; discriminate H.
Qed.

Lemma kept_lstrip line : kept line -> kept (lstrip line).
Proof.
  intros (H1 & H2 & H3). split; [apply has_char_lstrip, H1|].
  split; [apply rstrip_lstrip_fixed, H2|].
  unfold strip, lstrip. rewrite lstrip_by_idem. exact H3.
Qed.

Lemma non_empty_lines_kept (cleaned : string) :
  Forall kept (Writer.non_empty_lines cleaned).
Proof.
  unfold Writer.non_empty_lines.
  pose proof (split_on_no_sep LF cleaned) as H.
  induction H as [|x l Hx _ IH]; [constructor|].
  cbn [map]. rewrite filter_cons. destruct (decide _) as [Hp|_]; [|exact IH].
  constructor; [|exact IH].
  split; [apply has_char_rstrip, Hx|]. split; [apply rstrip_by_idem|exact Hp].
Qed.

Lemma join_nonempty (x : string) (r : list string) : x <> "" -> join nl (x :: r) <> "".
Proof.
  intros Hx. destruct r as [|y r]; [exact Hx|].
  rewrite join_cons. destruct x; [contradiction|discriminate].
Qed.

Lemma rstrip_join (ls : list string) :
  ls <> [] -> Forall kept ls -> rstrip (join nl ls) = join nl ls.
Proof.
  intros Hne H. induction H as [|x r Hx Hr IH]; [contradiction|].
  destruct r as [|y r]; [apply Hx|].
  assert (Hj : join nl (y :: r) <> "").
  { inversion Hr as [|? ? Hy _]; subst. apply join_nonempty, (kept_nonempty _ Hy). }
  rewrite join_cons. unfold rstrip in *.
  assert (E : rstrip_by is_space (String LF (join nl (y :: r)))
              = String LF (join nl (y :: r))).
  { rewrite rstrip_by_cons; rewrite IH by discriminate; [reflexivity|exact Hj]. }
  rewrite rstrip_by_app; rewrite E; [reflexivity|discriminate].
Qed.

Lemma strip_join (first : string) (rest : list string) :
  kept first -> Forall kept rest ->
  strip (join nl (first :: rest)) = join nl (lstrip first :: rest).
Proof.
  intros Hf Hr. unfold strip.
  assert (E : lstrip (join nl (first :: rest)) = join nl (lstrip first :: rest)).
  { destruct rest as [|y r]; [reflexivity|].
    rewrite !join_cons. apply lstrip_by_app, (kept_nonempty _ Hf). }
  rewrite E. apply rstrip_join; [discriminate|].
  constructor; [apply kept_lstrip, Hf|exact Hr].
Qed.

Lemma non_empty_lines_join (ls : list string) :
  ls <> [] -> Forall kept ls -> Writer.non_empty_lines (join nl ls) = ls.
Proof.
  intros Hne H. unfold Writer.non_empty_lines.
  rewrite split_join; [|exact Hne|eapply Forall_impl; [exact H|intros x Hx; apply Hx]].
  clear Hne. induction H as [|x r Hx _ IH]; [reflexivity|].
  cbn [map]. rewrite filter_cons. destruct Hx as (_ & Hx2 & Hx3).
  rewrite Hx2. destruct (decide _) as [_|N]; [|contradiction]. rewrite IH. reflexivity.
Qed.

(** What the line limit does to a text with more than six kept lines. *)
Lemma limit_lines_long (cleaned : string) :
  (6 < length (Writer.non_empty_lines cleaned))%nat ->
  exists first rest,
    take 6 (Writer.non_empty_lines cleaned) = first :: rest
    /\ length rest = 5%nat
    /\ Writer.limit_lines cleaned = join nl (lstrip first :: rest)
    /\ split_on LF (Writer.limit_lines cleaned) = lstrip first :: rest
    /\ Writer.non_empty_lines (Writer.limit_lines cleaned) = lstrip first :: rest.
Proof.
  intros Hlong. unfold Writer.limit_lines.
  pose proof (non_empty_lines_kept cleaned) as K.
  destruct (Nat.ltb_spec 6 (length (Writer.non_empty_lines cleaned))) as [_|]; [|lia].
  assert (Kt : Forall kept (take 6 (Writer.non_empty_lines cleaned)))
    by (apply Forall_take, K).
  assert (Lt : length (take 6 (Writer.non_empty_lines cleaned)) = 6%nat)
    by (rewrite length_take; lia).
  destruct (take 6 (Writer.non_empty_lines cleaned)) as [|first rest];
    [discriminate Lt|].
  inversion Kt as [|? ? Kf Kr]; subst.
  exists first, rest. split; [reflexivity|]. split; [simpl in Lt; lia|].
  assert (Kl : Forall kept (lstrip first :: rest))
    by (constructor; [apply kept_lstrip, Kf|exact Kr]).
  rewrite (strip_join first rest Kf Kr). split; [reflexivity|].
  split.
  - apply split_join; [discriminate|].
    eapply Forall_impl; [exact Kl|intros x Hx; apply Hx].
  - apply non_empty_lines_join; [discriminate|exact Kl].
Qed.

Lemma limit_lines_short (cleaned : string) :
  (length (Writer.non_empty_lines cleaned) <= 6)%nat ->
  Writer.limit_lines cleaned = cleaned.
Proof.
  intros H. unfold Writer.limit_lines.
  destruct (Nat.ltb_spec 6 (length (Writer.non_empty_lines cleaned))); [lia|reflexivity].
Qed.

Lemma limit_lines_bound (cleaned : string) :
  (length (Writer.non_empty_lines (Writer.limit_lines cleaned)) <= 6)%nat.
Proof.
  destruct (Nat.le_gt_cases (length (Writer.non_empty_lines cleaned)) 6) as [H|H].
  - rewrite (limit_lines_short cleaned H). exact H.
  - destruct (limit_lines_long cleaned H) as (first & rest & _ & L & _ & _ & E).
    rewrite E. simpl. lia.
Qed.

End LineFacts.

(** ** The writing tool and the command line *)

Module WriterFacts.

Import RunFacts RetryFacts AnnotationFacts.

Lemma read_response_content rt elapsed resp d :
  Writer.read_response rt elapsed resp = Ok d -> text_or_none d.
Proof.
  unfold Writer.read_response, Writer.get_message_or, res_bind. intros H.
  FailureFacts.crush_res H; injection H as <-;
    first [ left; no_key
          | right; eexists; split; [apply lookup_insert_eq|assumption] ].
Qed.

Lemma exchange_content rt net started n rq d :
  writer_exchange rt net started n rq = Ok d -> text_or_none d.
Proof.
  unfold writer_exchange. destruct (respond net n rq); [discriminate|].
  apply read_response_content.
Qed.

Lemma handled_content rt t elapsed e : text_or_none (writer_handled rt t elapsed e).
Proof. left. unfold writer_handled. no_key. Qed.

(** The writing module's call always returns a dict, whose content, if
    any, is a non-empty text. *)
Lemma call_returns rt net sys model user key temp v t (w : world) :
  exists d,
    (Writer.call_openrouter rt net sys model user key temp v t w).1 = Ok d
    /\ text_or_none d.
Proof.
  rewrite writer_run. cbv zeta.
  destruct (writer_exchange rt net _ (length w) _) as [d1|e1] eqn:E1.
  - destruct (Writer.wants_retry model d1).
    + destruct (writer_exchange rt net _ (S (length w)) _) as [d2|e2] eqn:E2.
      * eexists. split; [reflexivity|].
        destruct (exchange_content _ _ _ _ _ _ E2) as [N|(s & S1 & S2)].
        -- left. rewrite lookup_insert_ne by discriminate. exact N.
        -- right. exists s. rewrite lookup_insert_ne by discriminate. split; assumption.
      * eexists. split; [reflexivity|apply handled_content].
    + eexists. split; [reflexivity|]. eapply exchange_content, E1.
  - eexists. split; [reflexivity|apply handled_content].
Qed.

Lemma normalize_result_text rt platform (d : dict) :
  text_or_none d ->
  Writer.normalize_result rt platform d
  = Ok match d !! "content" with
       | Some (JStr text) =>
           <["content" := JStr (Writer.normalize_draft rt text platform)]> d
       | _ => d
       end.
Proof.
  unfold Writer.normalize_result, get_truthy.
  intros [N|(s & S1 & S2)]; [rewrite N; reflexivity|].
  rewrite S1. simpl. rewrite S2. reflexivity.
Qed.

(** The fan-out of the writing module never raises. *)
Lemma run_parallel_calls_returns rt net_a net_b sys codex opus prompt key v temp t
    platform :
  exists out,
    Writer.run_parallel_calls rt net_a net_b sys codex opus prompt key v temp t platform
    = Ok out.
Proof.
  unfold Writer.run_parallel_calls.
  destruct (call_returns rt net_a sys (Writer._second_model_id codex opus)
              prompt key temp v t []) as (da & Ea & Ta).
  destruct (call_returns rt net_b sys Writer.DEFAULT_GEMINI_MODEL_ID
              prompt key temp v t []) as (db & Eb & Tb).
  rewrite Ea, Eb. cbn [Writer.gathered].
  rewrite (normalize_result_text rt platform da Ta),
          (normalize_result_text rt platform db Tb).
  cbn [res_bind]. eexists. reflexivity.
Qed.

End WriterFacts.

(** C10. In the writing tool, for a platform inferred as slack or
    linkedin, the fan-out returns (it never raises), and the content it
    returns for a model whose call produced a draft is the cleaned draft
    passed through the line limit. The limited text has at most six
    non-empty lines; when the cleaned draft has more than six, the limited
    text consists of exactly its first six non-empty lines (the first one
    stripped on the left), blank lines being dropped; when it has six or
    fewer, the cleaned draft is returned as it is. *)
Theorem short_form_drafts_keep_six_lines rt net_a net_b sys codex opus prompt key
    v temp t platform
    (Hshort : Writer.short_form platform = true) :
  let call_a := (Writer.call_openrouter rt net_a sys
                   (Writer._second_model_id codex opus) prompt key temp v t []).1 in
  let call_b := (Writer.call_openrouter rt net_b sys Writer.DEFAULT_GEMINI_MODEL_ID
                   prompt key temp v t []).1 in
  exists out,
    Writer.run_parallel_calls rt net_a net_b sys codex opus prompt key v temp t platform
    = Ok out
    /\ (forall draft,
          returned call_a "content" = Some (JStr draft) ->
          Writer.model_a out !! "content"
          = Some (JStr (Writer.limit_lines (Writer.clean_markup rt draft))))
    /\ (forall draft,
          returned call_b "content" = Some (JStr draft) ->
          Writer.model_b out !! "content"
          = Some (JStr (Writer.limit_lines (Writer.clean_markup rt draft))))
    /\ forall cleaned,
         (length (Writer.non_empty_lines (Writer.limit_lines cleaned)) <= 6)%nat
         /\ ((6 < length (Writer.non_empty_lines cleaned))%nat ->
             exists first rest,
               take 6 (Writer.non_empty_lines cleaned) = first :: rest
               /\ split_on LF (Writer.limit_lines cleaned) = lstrip first :: rest)
         /\ ((length (Writer.non_empty_lines cleaned) <= 6)%nat ->
             Writer.limit_lines cleaned = cleaned).
Proof.
  intros call_a call_b. unfold Writer.run_parallel_calls.
  fold call_a call_b.
  destruct (WriterFacts.call_returns rt net_a sys (Writer._second_model_id codex opus)
              prompt key temp v t []) as (da & Ea & Ta).
  destruct (WriterFacts.call_returns rt net_b sys Writer.DEFAULT_GEMINI_MODEL_ID
              prompt key temp v t []) as (db & Eb & Tb).
  fold call_a in Ea. fold call_b in Eb. rewrite Ea, Eb. cbn [Writer.gathered].
  rewrite (WriterFacts.normalize_result_text rt platform da Ta),
          (WriterFacts.normalize_result_text rt platform db Tb).
  cbn [res_bind]. eexists. split; [reflexivity|].
  cbn [Writer.model_a Writer.model_b returned].
  assert (limited : forall (d : dict) draft,
            d !! "content" = Some (JStr draft) ->
            match d !! "content" with
            | Some (JStr text) =>
                <["content" := JStr (Writer.normalize_draft rt text platform)]> d
            | _ => d
            end !! "content"
            = Some (JStr (Writer.limit_lines (Writer.clean_markup rt draft)))).
  { intros d draft H. rewrite H, lookup_insert_eq.
    unfold Writer.normalize_draft. rewrite Hshort. reflexivity. }
  split; [apply limited|]. split; [apply limited|].
  intros cleaned. split; [apply LineFacts.limit_lines_bound|]. split.
  - intros Hlong.
    destruct (LineFacts.limit_lines_long cleaned Hlong)
      as (first & rest & E1 & _ & _ & E2 & _).
    exists first, rest. split; assumption.
  - apply LineFacts.limit_lines_short.
Qed.

Lemma short_form_witness :
  Writer.short_form (Some "slack") = true
  /\ exists out,
       Writer.run_parallel_calls Sample.sample_runtime Sample.drafting Sample.drafting
         "S" false "opus" "Platform: slack" "k" 250 (JNum 0) 35 (Some "slack") = Ok out
       /\ Writer.model_a out !! "content" = Some (JStr Sample.six_lines).
Proof.
  split; [reflexivity|].
  destruct (short_form_drafts_keep_six_lines Sample.sample_runtime Sample.drafting
              Sample.drafting "S" false "opus" "Platform: slack" "k" 250 (JNum 0) 35
              (Some "slack") eq_refl) as (out & Hrun & Ha & _).
  exists out. split; [exact Hrun|].
  rewrite (Ha Sample.eight_lines); [vm_compute; reflexivity..].
Defined.

(** C7 at the failing input: a fan-out over two models with streaming on,
    where the stream of the first carries the JSON number 5 as a fragment.
    The [TypeError] of the first call leaves [run_models]: no mapping is
    returned, although the second call, taken alone, returns [Hello]. *)
Theorem fanout_stream_fault_propagates :
  Sample.broken_fanout = Raise (PyError "TypeError")
  /\ returned Sample.second_call "content" = Some (JStr "Hello").
Proof. split; vm_compute; reflexivity. Qed.

Module CliFacts.

Import Cli.

Lemma nonblank_nonempty (s : string) : strip s <> "" -> nonempty s = true.
Proof. destruct s; [intros H; contradiction H; reflexivity|reflexivity]. Qed.




Lemma recs_missing_key rt host nets sys today extract args :
  strip (ra_prompt args) <> "" -> ra_sources_file args = "" ->
  openrouter_key host = Ok None \/ openrouter_key host = Ok (Some "") ->
  exit_status (recs_main rt host nets sys today extract (Some args)) = 2.
Proof.
  intros Hp Hs Hk. unfold recs_main.
  rewrite (nonblank_nonempty _ Hp). simpl.
  destruct (strip (ra_prompt args)) eqn:E; [contradiction|]. simpl.
  rewrite Hs. simpl. destruct Hk as [-> | ->]; reflexivity.
Qed.





Lemma writer_missing_key rt host net_a net_b sys args :
  or_else (environ_key host) (dotenv_key host) = None ->
  exit_status (writer_main rt host net_a net_b sys (Some args)) = 1.
Proof. intros H. unfold writer_main. rewrite H. reflexivity. Qed.

Lemma writer_requests_fail_or_not rt host net_a net_b sys args key :
  or_else (environ_key host) (dotenv_key host) = Some key -> nonempty key = true ->
  exit_status (writer_main rt host net_a net_b sys (Some args)) = 0.
Proof.
  intros H Hn. unfold writer_main. rewrite H, Hn. cbn [negb].
  match goal with
  | |- context [Writer.run_parallel_calls ?a ?b ?c ?d ?e ?f ?g ?h ?i ?j ?k ?l] =>
      destruct (WriterFacts.run_parallel_calls_returns a b c d e f g h i j k l)
        as (out & ->)
  end.
  reflexivity.
Qed.

End CliFacts.




(* ===================================================================== *)
(** * Further properties *)
(* ===================================================================== *)

(** ** Outcomes of a call *)

Module OutcomeFacts.

Import RunFacts DispatchFacts FailureFacts PolicyFacts RetryFacts AnnotationFacts.

Ltac has_key :=
  repeat (rewrite lookup_insert_ne by discriminate);
  first [ rewrite lookup_insert_eq | rewrite lookup_singleton_eq ];
  eexists; reflexivity.

Lemma read_batch_outcome rt elapsed resp d :
  Recs.read_batch_response rt elapsed resp = Ok d -> failure_or_text d.
Proof.
  unfold Recs.read_batch_response, res_bind. intros H.
  crush_res H; injection H as <-;
    first [ left; split; [has_key|no_key]
          | right; split; [no_key|eexists; apply lookup_insert_eq] ].
Qed.

Lemma finish_stream_outcome elapsed st d :
  Recs.finish_stream elapsed st = Ok d -> failure_or_text d.
Proof.
  unfold Recs.finish_stream, res_bind. intros H.
  crush_res H; injection H as <-;
    first [ left; split; [has_key|no_key]
          | right; split; [no_key|eexists; apply lookup_insert_eq] ].
Qed.

Lemma singleton_outcome (v : json) : failure_or_text {[ "error" := v ]}.
Proof. left. split; [has_key|no_key]. Qed.

Lemma read_stream_outcome rt elapsed resp d :
  Recs.read_stream_response rt elapsed resp = Ok d -> failure_or_text d.
Proof.
  unfold Recs.read_stream_response, res_bind. intros H.
  destruct (negb (status resp =? 200)).
  - destruct (text resp); [|discriminate H]. injection H as <-. apply singleton_outcome.
  - destruct (Recs.consume rt Recs.initial_state (content resp) (content_end resp))
      as [[st|d']|e] eqn:E; [| |discriminate H].
    + eapply finish_stream_outcome, H.
    + injection H as <-. destruct (consume_return _ _ _ _ _ E) as [v ->].
      apply singleton_outcome.
Qed.

Lemma handled_outcome rt t e : failure_or_text (handled rt t e).
Proof. destruct e; apply singleton_outcome. Qed.

Lemma insert_outcome (k : string) (v : json) (d : dict) :
  k <> "error" -> k <> "content" -> failure_or_text d -> failure_or_text (<[k := v]> d).
Proof.
  intros Ne Nc. unfold failure_or_text.
  rewrite !lookup_insert_ne by congruence. tauto.
Qed.

Lemma with_elapsed_outcome elapsed (d : dict) :
  failure_or_text d -> failure_or_text (with_elapsed elapsed d).
Proof.
  unfold with_elapsed. destruct (bool_decide _); [tauto|].
  apply insert_outcome; discriminate.
Qed.

Lemma annotate_outcome budget (d : dict) :
  failure_or_text d -> failure_or_text (Recs.annotate_retry budget d).
Proof.
  intros H. unfold Recs.annotate_retry.
  apply insert_outcome; [discriminate..|]. apply insert_outcome; [discriminate..|exact H].
Qed.

Lemma batch_exchange_outcome rt net started n rq d :
  batch_exchange rt net started n rq = Ok d -> failure_or_text d.
Proof.
  unfold batch_exchange. destruct (respond net n rq); [discriminate|].
  apply read_batch_outcome.
Qed.

Lemma stream_exchange_outcome rt net started n rq d :
  stream_exchange rt net started n rq = Ok d -> failure_or_text d.
Proof.
  unfold stream_exchange. destruct (respond net n rq); [discriminate|].
  apply read_stream_outcome.
Qed.

(** The batch strategy never raises. *)
Lemma batch_outcome rt net sys model user key temp v t (w : world) :
  exists d,
    (Recs._call_openrouter_batch rt net sys model user key temp v t w).1 = Ok d
    /\ failure_or_text d.
Proof.
  rewrite batch_run. cbv zeta.
  destruct (batch_exchange rt net _ (length w) _) as [d1|e1] eqn:E1.
  - destruct (Recs.wants_retry model d1).
    + destruct (batch_exchange rt net _ (S (length w)) _) as [d2|e2] eqn:E2.
      * eexists. split; [reflexivity|].
        apply with_elapsed_outcome, annotate_outcome.
        eapply batch_exchange_outcome, E2.
      * eexists. split; [reflexivity|apply handled_outcome].
    + eexists. split; [reflexivity|].
      apply with_elapsed_outcome. eapply batch_exchange_outcome, E1.
  - eexists. split; [reflexivity|apply handled_outcome].
Qed.

End OutcomeFacts.

(** X1. What a call of the recommendations module [_call_openrouter] gives:
    in batch mode it never raises; in streaming mode it raises only an
    exception that is neither a network error nor a timeout. A dict it
    returns has an ["error"] entry or a ["content"] entry that is a text,
    and never both. *)
Theorem recs_call_reports_failure_or_text rt net sys model user key temp v t stream
    (w : world) :
  match (Recs._call_openrouter rt net sys model user key temp v t stream w).1 with
  | Ok d => failure_or_text d
  | Raise e => stream = true /\ network_level e = false
  end.
Proof.
  destruct stream.
  - rewrite DispatchFacts.dispatch_run. cbv zeta.
    destruct (stream_exchange rt net _ (length w) _) as [d|e] eqn:E.
    + destruct (Recs.wants_retry model d).
      * cbn [fst].
        destruct (OutcomeFacts.batch_outcome rt net sys model user key temp
                    (Recs.retry_max_tokens v) t
                    (w ++ [Recs.stream_request sys model user key temp v]))
          as (r & -> & Hr).
        apply OutcomeFacts.annotate_outcome, Hr.
      * cbn [fst]. eapply OutcomeFacts.stream_exchange_outcome, E.
    + destruct (network_level e) eqn:N.
      * destruct (OutcomeFacts.batch_outcome rt net sys model user key temp v t
                    (w ++ [Recs.stream_request sys model user key temp v]))
          as (r & -> & Hr).
        exact Hr.
      * cbn [fst]. split; [reflexivity|exact N].
  - unfold Recs._call_openrouter.
    destruct (OutcomeFacts.batch_outcome rt net sys model user key temp v t w)
      as (r & -> & Hr).
    exact Hr.
Qed.

Module WriterOutcomeFacts.

Import RunFacts RetryFacts AnnotationFacts FailureFacts.

Ltac at_key :=
  repeat (rewrite lookup_insert_ne by discriminate);
  first [ apply lookup_insert_eq | apply lookup_singleton_eq ].

Lemma read_response_outcome rt elapsed resp d :
  Writer.read_response rt elapsed resp = Ok d ->
  d !! "elapsed_seconds" = Some (JNum elapsed) /\ failure_or_text d.
Proof.
  unfold Writer.read_response, Writer.get_message_or, res_bind. intros H.
  crush_res H; injection H as <-; (split; [at_key|]);
    first [ left; split; [OutcomeFacts.has_key|no_key]
          | right; split; [no_key|eexists; apply lookup_insert_eq] ].
Qed.

Lemma writer_handled_outcome rt t elapsed e :
  writer_handled rt t elapsed e !! "elapsed_seconds" = Some (JNum elapsed)
  /\ failure_or_text (writer_handled rt t elapsed e).
Proof.
  unfold writer_handled. split; [at_key|]. left. split; [OutcomeFacts.has_key|no_key].
Qed.

Lemma writer_exchange_outcome rt net started n rq d :
  writer_exchange rt net started n rq = Ok d ->
  d !! "elapsed_seconds" = Some (JNum (clock net (S n) - started))
  /\ failure_or_text d.
Proof.
  unfold writer_exchange. destruct (respond net n rq); [discriminate|].
  apply read_response_outcome.
Qed.

End WriterOutcomeFacts.

(** X2. A call of the writing module [call_openrouter] never raises. The
    dict it returns always has the elapsed time, and has an ["error"] entry
    or a ["content"] entry, never both; the content is a text that is not
    empty. *)
Theorem writer_call_always_reports rt net sys model user key temp v t (w : world) :
  exists d ms,
    (Writer.call_openrouter rt net sys model user key temp v t w).1 = Ok d
    /\ d !! "elapsed_seconds" = Some (JNum ms)
    /\ failure_or_text d
    /\ forall s, d !! "content" = Some (JStr s) -> s <> "".
Proof.
  destruct (WriterFacts.call_returns rt net sys model user key temp v t w)
    as (d0 & E0 & T0).
  assert (Hne : forall s, d0 !! "content" = Some (JStr s) -> s <> "").
  { intros s Hs. destruct T0 as [N|(s' & S1 & S2)]; [congruence|].
    rewrite S1 in Hs. injection Hs as <-. intros ->. discriminate S2. }
  revert E0. rewrite RetryFacts.writer_run. cbv zeta.
  destruct (writer_exchange rt net _ (length w) _) as [d1|e1] eqn:E1.
  - destruct (Writer.wants_retry model d1).
    + destruct (writer_exchange rt net _ (S (length w)) _) as [d2|e2] eqn:E2.
      * cbn [fst]. intros [= <-].
        destruct (WriterOutcomeFacts.writer_exchange_outcome _ _ _ _ _ _ E2) as (A & B).
        eexists _, _. split; [reflexivity|]. split; [|split; [|exact Hne]].
        -- rewrite lookup_insert_ne by discriminate. exact A.
        -- apply OutcomeFacts.insert_outcome; [discriminate..|exact B].
      * cbn [fst]. intros [= <-].
        eexists _, _. split; [reflexivity|].
        split; [apply WriterOutcomeFacts.writer_handled_outcome|].
        split; [apply WriterOutcomeFacts.writer_handled_outcome|exact Hne].
    + cbn [fst]. intros [= <-].
      destruct (WriterOutcomeFacts.writer_exchange_outcome _ _ _ _ _ _ E1) as (A & B).
      eexists _, _. split; [reflexivity|]. split; [exact A|]. split; [exact B|exact Hne].
  - cbn [fst]. intros [= <-].
    eexists _, _. split; [reflexivity|].
    split; [apply WriterOutcomeFacts.writer_handled_outcome|].
    split; [apply WriterOutcomeFacts.writer_handled_outcome|exact Hne].
Qed.

(** ** The requests of a call *)

Module QuestionFacts.

Import RunFacts DispatchFacts FailureFacts PolicyFacts RetryFacts.

Lemma recs_extra_only_reasoning (model_id k : string) :
  k <> "reasoning" -> default ∅ (Recs.MODEL_EXTRA_PARAMS !! model_id) !! k = @None json.
Proof.
  intros Hk. unfold Recs.MODEL_EXTRA_PARAMS.
  destruct (decide (model_id = "openai/gpt-5.2")) as [->|H1].
  { rewrite lookup_insert_eq. apply lookup_singleton_ne. congruence. }
  rewrite lookup_insert_ne by congruence.
  destruct (decide (model_id = "google/gemini-3.1-pro-preview")) as [->|H2].
  { rewrite lookup_singleton_eq. apply lookup_singleton_ne. congruence. }
  rewrite lookup_singleton_ne by congruence. reflexivity.
Qed.

Lemma writer_extra_only_reasoning (model_id k : string) :
  k <> "reasoning" -> default ∅ (Writer.MODEL_EXTRA_PARAMS !! model_id) !! k = @None json.
Proof.
  intros Hk. unfold Writer.MODEL_EXTRA_PARAMS.
  destruct (decide (model_id = "openai/gpt-5.2")) as [->|H1].
  { rewrite lookup_insert_eq. apply lookup_singleton_ne. congruence. }
  rewrite lookup_insert_ne by congruence.
  destruct (decide (model_id = "google/gemini-3.1-pro-preview")) as [->|H2].
  { rewrite lookup_singleton_eq. apply lookup_singleton_ne. congruence. }
  rewrite lookup_singleton_ne by congruence. reflexivity.
Qed.

Lemma no_override (k : string) :
  k <> "reasoning" -> default ∅ (@None dict) !! k = None.
Proof. reflexivity. Qed.

Lemma recs_reduced_override (k : string) :
  k <> "reasoning" -> default ∅ (Some Recs.REDUCED_REASONING) !! k = None.
Proof. intros Hk. apply lookup_singleton_ne. congruence. Qed.

Lemma writer_reduced_override (k : string) :
  k <> "reasoning" -> default ∅ (Some Writer.REDUCED_REASONING) !! k = None.
Proof. intros Hk. apply lookup_singleton_ne. congruence. Qed.

Ltac base_lookup :=
  repeat (rewrite lookup_insert_ne by discriminate);
  first [ apply lookup_insert_eq | apply lookup_singleton_eq ].

Lemma batch_request_question sys model user key temp t v x :
  (forall k, k <> "reasoning" -> default ∅ x !! k = None) ->
  same_question sys model user key temp
    (Recs.batch_request sys model user key temp t v x).
Proof.
  intros Hx. unfold same_question, Recs.batch_request, Recs.batch_payload.
  cbn [req_url req_headers req_json].
  split; [reflexivity|]. split; [reflexivity|].
  repeat split.
  all: rewrite lookup_union_r
    by (apply lookup_union_None; split;
        [apply Hx; discriminate|apply recs_extra_only_reasoning; discriminate]).
  all: base_lookup.
Qed.

Lemma stream_request_question sys model user key temp v :
  same_question sys model user key temp (Recs.stream_request sys model user key temp v).
Proof.
  unfold same_question, Recs.stream_request, Recs.stream_payload.
  cbn [req_url req_headers req_json].
  split; [reflexivity|]. split; [reflexivity|].
  repeat split.
  all: rewrite lookup_union_r by (apply recs_extra_only_reasoning; discriminate).
  all: base_lookup.
Qed.

Lemma post_request_question sys model user key temp t v x :
  (forall k, k <> "reasoning" -> default ∅ x !! k = None) ->
  same_question sys model user key temp
    (Writer.post_request sys model user key temp t v x).
Proof.
  intros Hx. unfold same_question, Writer.post_request, Writer.payload.
  cbn [req_url req_headers req_json].
  split; [reflexivity|]. split; [reflexivity|].
  repeat split.
  all: rewrite lookup_union_r
    by (apply lookup_union_None; split;
        [apply Hx; discriminate|apply writer_extra_only_reasoning; discriminate]).
  all: base_lookup.
Qed.

(** The requests of the batch strategy. *)
Lemma batch_trace rt net sys model user key temp v t (w : world) :
  let rq1 := Recs.batch_request sys model user key temp t v None in
  let rq2 := Recs.batch_request sys model user key temp t (Recs.retry_max_tokens v)
               (Some Recs.REDUCED_REASONING) in
  (Recs._call_openrouter_batch rt net sys model user key temp v t w).2 = w ++ [rq1]
  \/ (Recs._call_openrouter_batch rt net sys model user key temp v t w).2
     = w ++ [rq1; rq2].
Proof.
  rewrite batch_run. cbv zeta.
  repeat (match goal with |- context [match ?x with _ => _ end] => destruct x end);
    cbn [snd]; rewrite <- ?app_assoc; auto.
Qed.

Lemma batch_trace_question rt net sys model user key temp v t (w : world) :
  exists rest,
    (Recs._call_openrouter_batch rt net sys model user key temp v t w).2 = w ++ rest
    /\ (1 <= length rest <= 2)%nat
    /\ Forall (same_question sys model user key temp) rest.
Proof.
  destruct (batch_trace rt net sys model user key temp v t w) as [H|H];
    rewrite H; eexists; (split; [reflexivity|]); (split; [simpl; lia|]).
  - constructor; [|constructor]. apply batch_request_question, no_override.
  - constructor; [|constructor; [|constructor]].
    + apply batch_request_question, no_override.
    + apply batch_request_question, recs_reduced_override.
Qed.

Lemma writer_trace rt net sys model user key temp v t (w : world) :
  let rq1 := Writer.post_request sys model user key temp t v None in
  let rq2 := Writer.post_request sys model user key temp t (Writer.retry_max_tokens v)
               (Some Writer.REDUCED_REASONING) in
  (Writer.call_openrouter rt net sys model user key temp v t w).2 = w ++ [rq1]
  \/ (Writer.call_openrouter rt net sys model user key temp v t w).2
     = w ++ [rq1; rq2].
Proof.
  rewrite writer_run. cbv zeta.
  repeat (match goal with |- context [match ?x with _ => _ end] => destruct x end);
    cbn [snd]; rewrite <- ?app_assoc; auto.
Qed.

End QuestionFacts.

(** X3. The requests of one call. A call of the recommendations module
    makes one to three requests (one or two in batch mode), a call of the
    writing module one or two, all appended to the requests made before;
    and every one of them goes to the same endpoint with the same
    credentials and puts the same model, messages and temperature: a retry
    or a fallback changes the budget, the reasoning setting and the
    transport, never the question. *)
Theorem every_request_puts_the_same_question rt net sys model user key temp v t
    (w : world) :
  (forall stream, exists rest,
     (Recs._call_openrouter rt net sys model user key temp v t stream w).2 = w ++ rest
     /\ (1 <= length rest <= if stream then 3 else 2)%nat
     /\ Forall (same_question sys model user key temp) rest)
  /\ exists rest,
       (Writer.call_openrouter rt net sys model user key temp v t w).2 = w ++ rest
       /\ (1 <= length rest <= 2)%nat
       /\ Forall (same_question sys model user key temp) rest.
Proof.
  split.
  - intros [|].
    + rewrite DispatchFacts.dispatch_run. cbv zeta.
      set (rq := Recs.stream_request sys model user key temp v).
      assert (Q : same_question sys model user key temp rq)
        by apply QuestionFacts.stream_request_question.
      assert (B : forall v', exists rest,
                 (Recs._call_openrouter_batch rt net sys model user key temp v' t
                    (w ++ [rq])).2 = w ++ rest
                 /\ (1 <= length rest <= 3)%nat
                 /\ Forall (same_question sys model user key temp) rest).
      { intros v'.
        destruct (QuestionFacts.batch_trace_question rt net sys model user key temp v' t
                    (w ++ [rq])) as (rest & E & L & F).
        exists (rq :: rest). rewrite E, <- app_assoc. split; [reflexivity|].
        split; [simpl; lia|]. constructor; assumption. }
      destruct (stream_exchange rt net _ (length w) rq) as [d|e].
      * destruct (Recs.wants_retry model d); [apply B|].
        exists [rq]. split; [reflexivity|]. split; [simpl; lia|].
        constructor; [exact Q|constructor].
      * destruct (network_level e); [apply B|].
        exists [rq]. split; [reflexivity|]. split; [simpl; lia|].
        constructor; [exact Q|constructor].
    + apply QuestionFacts.batch_trace_question.
  - destruct (QuestionFacts.writer_trace rt net sys model user key temp v t w) as [H|H];
      rewrite H; eexists; (split; [reflexivity|]); (split; [simpl; lia|]).
    + constructor; [|constructor].
      apply QuestionFacts.post_request_question, QuestionFacts.no_override.
    + constructor; [|constructor; [|constructor]].
      * apply QuestionFacts.post_request_question, QuestionFacts.no_override.
      * apply QuestionFacts.post_request_question, QuestionFacts.writer_reduced_override.
Qed.

(** ** When a second request is made *)

Module ConverseFacts.

Import RunFacts DispatchFacts FailureFacts PolicyFacts RetryFacts.

Lemma get_is_inv (d : dict) (k s : string) :
  get_is d k s = true -> d !! k = Some (JStr s).
Proof.
  unfold get_is. destruct (d !! k) as [[| | |s'| |]|]; try discriminate.
  simpl. intros H. apply String.eqb_eq in H. subst. reflexivity.
Qed.

Lemma recs_wants_retry_inv model (d : dict) :
  Recs.wants_retry model d = true ->
  model ∈ Recs.MODELS_WITH_RETRY
  /\ d !! "error" = Some (JStr "Empty response from model")
  /\ d !! "finish_reason" = Some (JStr "length").
Proof.
  unfold Recs.wants_retry. intros H.
  apply andb_true_iff in H as [H Hf]. apply andb_true_iff in H as [Hm He].
  split; [apply bool_decide_eq_true in Hm; exact Hm|].
  split; apply get_is_inv; assumption.
Qed.

Lemma writer_wants_retry_inv model (d : dict) :
  Writer.wants_retry model d = true ->
  model = "google/gemini-3.1-pro-preview"
  /\ d !! "error" = Some (JStr "Empty response from model")
  /\ d !! "finish_reason" = Some (JStr "length").
Proof.
  unfold Writer.wants_retry. intros H.
  apply andb_true_iff in H as [H Hf]. apply andb_true_iff in H as [Hm He].
  split; [apply String.eqb_eq, Hm|].
  split; apply get_is_inv; assumption.
Qed.

End ConverseFacts.

(** X4. A second request is made only for the reasons the code names.
    In the batch strategy of the recommendations module and in the writing
    module, two requests mean that the model is one of those retried
    (in the writing module: the Gemini model) and that the first response
    was read as empty with finish reason ["length"]. In streaming mode, a
    request after the streaming one means that the stream raised a network
    error or a timeout, or that the model is one of those retried and the
    stream was read as empty with finish reason ["length"]. *)
Theorem second_request_only_after_truncation_or_fallback rt net sys model user key
    temp v t (w : world) :
  (length (Recs._call_openrouter_batch rt net sys model user key temp v t w).2
   = S (S (length w)) ->
   model ∈ Recs.MODELS_WITH_RETRY
   /\ exists d1,
        batch_exchange rt net (clock net (length w)) (length w)
          (Recs.batch_request sys model user key temp t v None) = Ok d1
        /\ d1 !! "error" = Some (JStr "Empty response from model")
        /\ d1 !! "finish_reason" = Some (JStr "length"))
  /\ (length (Writer.call_openrouter rt net sys model user key temp v t w).2
      = S (S (length w)) ->
      model = "google/gemini-3.1-pro-preview"
      /\ exists d1,
           writer_exchange rt net (clock net (length w)) (length w)
             (Writer.post_request sys model user key temp t v None) = Ok d1
           /\ d1 !! "error" = Some (JStr "Empty response from model")
           /\ d1 !! "finish_reason" = Some (JStr "length"))
  /\ ((S (length w)
       < length (Recs._call_openrouter rt net sys model user key temp v t true w).2)%nat ->
      (exists e,
         stream_exchange rt net (clock net (length w)) (length w)
           (Recs.stream_request sys model user key temp v) = Raise e
         /\ network_level e = true)
      \/ (model ∈ Recs.MODELS_WITH_RETRY
          /\ exists d1,
               stream_exchange rt net (clock net (length w)) (length w)
                 (Recs.stream_request sys model user key temp v) = Ok d1
               /\ d1 !! "error" = Some (JStr "Empty response from model")
               /\ d1 !! "finish_reason" = Some (JStr "length"))).
Proof.
  split; [|split].
  - rewrite RunFacts.batch_run. cbv zeta.
    destruct (batch_exchange rt net _ (length w) _) as [d1|e1] eqn:E1.
    + destruct (Recs.wants_retry model d1) eqn:W.
      * intros _. destruct (ConverseFacts.recs_wants_retry_inv _ _ W) as (A & B & C).
        split; [exact A|]. exists d1. repeat split; assumption.
      * cbn [snd]. rewrite RunFacts.length_snoc. lia.
    + cbn [snd]. rewrite RunFacts.length_snoc. lia.
  - rewrite RetryFacts.writer_run. cbv zeta.
    destruct (writer_exchange rt net _ (length w) _) as [d1|e1] eqn:E1.
    + destruct (Writer.wants_retry model d1) eqn:W.
      * intros _. destruct (ConverseFacts.writer_wants_retry_inv _ _ W) as (A & B & C).
        split; [exact A|]. exists d1. repeat split; assumption.
      * cbn [snd]. rewrite RunFacts.length_snoc. lia.
    + cbn [snd]. rewrite RunFacts.length_snoc. lia.
  - rewrite DispatchFacts.dispatch_run. cbv zeta.
    destruct (stream_exchange rt net _ (length w) _) as [d1|e1] eqn:E1.
    + destruct (Recs.wants_retry model d1) eqn:W.
      * intros _. right.
        destruct (ConverseFacts.recs_wants_retry_inv _ _ W) as (A & B & C).
        split; [exact A|]. exists d1. repeat split; assumption.
      * cbn [snd]. rewrite RunFacts.length_snoc. lia.
    + destruct (network_level e1) eqn:N.
      * intros _. left. exists e1. split; [reflexivity|exact N].
      * cbn [snd]. rewrite RunFacts.length_snoc. lia.
Qed.

Lemma second_request_witness :
  "openai/gpt-5.2" ∈ Recs.MODELS_WITH_RETRY
  /\ exists d1,
       batch_exchange Sample.sample_runtime Sample.truncating 0 0
         (Recs.batch_request "S" "openai/gpt-5.2" "u" "k" (JNum 0) 60 1000 None) = Ok d1
       /\ d1 !! "error" = Some (JStr "Empty response from model")
       /\ d1 !! "finish_reason" = Some (JStr "length").
Proof.
  apply (proj1 (second_request_only_after_truncation_or_fallback Sample.sample_runtime
                  Sample.truncating "S" "openai/gpt-5.2" "u" "k" (JNum 0) 1000 60 [])).
  vm_compute. reflexivity.
Defined.

(** ** Errors inside a stream *)

Module AbortFacts.

Lemma por_text (m : string) (d : json) : m <> "" -> por (JStr m) d = JStr m.
Proof. destruct m; [congruence|reflexivity]. Qed.

Lemma handle_error_line rt st raw kvs m
    (Hdata : Sse.is_data_line raw = true) (Hnot_done : Sse.is_done raw = false)
    (Hchunk : json_loads rt (Sse.payload_of raw) = Some (JObj kvs))
    (Herr : assoc "error" kvs = Some (JStr m)
            \/ exists ekv, assoc "error" kvs = Some (JObj ekv)
                           /\ assoc "message" ekv = Some (JStr m) /\ m <> "") :
  Recs.handle_line rt st raw
  = Ok (Recs.Return {[ "error" := JStr ("Stream error: " +:+ m) ]}).
Proof.
  unfold Sse.is_done in Hnot_done. rewrite Hdata in Hnot_done. cbn [andb] in Hnot_done.
  unfold Sse.is_data_line in Hdata. unfold Sse.payload_of in *.
  destruct (SseFacts.data_line_shape _ Hdata) as [N C].
  unfold Recs.handle_line. rewrite N, C, Hdata, Hnot_done. cbn [negb orb].
  rewrite Hchunk. cbn [py_in res_bind py_item].
  destruct Herr as [He|(ekv & He & Hm & Hne)]; rewrite He.
  - rewrite bool_decide_eq_true_2 by (eexists; reflexivity).
    cbn [is_dict py_str]. destruct m; reflexivity.
  - rewrite bool_decide_eq_true_2 by (eexists; reflexivity).
    cbn [is_dict py_get res_bind]. rewrite Hm.
    change (default JNull (Some (JStr m))) with (JStr m).
    rewrite por_text by exact Hne. reflexivity.
Qed.

End AbortFacts.

(** X5. An error object inside a stream ends the reading at once. When a
    200 streaming response delivers lines that are noise or fragments and
    then a data line whose payload is an object with an ["error"] entry
    (a text, or an object with a non-empty text ["message"]), the outcome is
    the dict with the single entry ["error"] = "Stream error: <text>",
    whatever content the earlier fragments carried, whatever lines follow
    and however the transfer would have ended. *)
Theorem stream_error_ends_the_reading rt elapsed resp lines events raw rest kvs m
    (Hstatus : status resp = 200)
    (Hreads : Forall2 (Sse.reads rt) lines events)
    (Hcontent : content resp = lines ++ raw :: rest)
    (Hdata : Sse.is_data_line raw = true)
    (Hnot_done : Sse.is_done raw = false)
    (Hchunk : json_loads rt (Sse.payload_of raw) = Some (JObj kvs))
    (Herr : assoc "error" kvs = Some (JStr m)
            \/ exists ekv, assoc "error" kvs = Some (JObj ekv)
                           /\ assoc "message" ekv = Some (JStr m) /\ m <> "") :
  Recs.read_stream_response rt elapsed resp
  = Ok {[ "error" := JStr ("Stream error: " +:+ m) ]}.
Proof.
  unfold Recs.read_stream_response. rewrite Hstatus. cbn [Z.eqb Pos.eqb negb].
  rewrite Hcontent, (SseFacts.consume_events rt lines events Hreads).
  cbn [Recs.consume].
  rewrite (AbortFacts.handle_error_line rt _ raw kvs m Hdata Hnot_done Hchunk Herr).
  reflexivity.
Qed.

Lemma stream_error_witness :
  Recs.read_stream_response Fixtures.fixture_runtime 0 Fixtures.failing_stream
  = Ok {[ "error" := JStr "Stream error: overloaded" ]}.
Proof.
  refine (stream_error_ends_the_reading Fixtures.fixture_runtime 0 Fixtures.failing_stream
            [Sample.data_line (Sample.content_chunk_text "Hel")]
            [Sse.Fragment "Hel" "" None]
            (Sample.data_line Fixtures.error_chunk_text)
            [Sample.data_line (Sample.content_chunk_text "lo")]
            [("error", JObj [("message", JStr "overloaded")])] "overloaded"
            eq_refl _ eq_refl eq_refl eq_refl eq_refl _).
  - refine (List.Forall2_cons _ _ _ (List.Forall2_nil _)).
    apply (Sse.reads_fragment _ _ (Sample.content_chunk "Hel")); [reflexivity..|].
    exact (Sse.carries_fragment
             [("choices", JArr [JObj [("delta", JObj [("content", JStr "Hel")])]])]
             [("delta", JObj [("content", JStr "Hel")])] []
             [("content", JStr "Hel")] "Hel" "" None eq_refl eq_refl eq_refl
             (Sse.text_present "Hel") Sse.text_absent Sse.finish_null).
  - right. exists [("message", JStr "overloaded")].
    split; [reflexivity|]. split; [reflexivity|discriminate].
Defined.

(** ** Blank content and content parts *)

(** X6. A completion whose content is made of whitespace only. The batch
    reader of the recommendations module tests the content before it
    strips it, so it reports a success whose content is the empty text;
    the writing module returns the whitespace as it came; the streaming
    reader strips first, so the same text delivered by a stream is the
    failure "Empty response from model". *)
Theorem blank_content_is_read_three_ways rt elapsed resp kvs ckv rest mkv s
    (Hstatus : status resp = 200)
    (Hbody : json_body resp = Ok (JObj kvs))
    (Henv : assoc "error" kvs = None)
    (Hchoices : assoc "choices" kvs = Some (JArr (JObj ckv :: rest)))
    (Hmessage : por (default JNull (assoc "message" ckv)) (JObj []) = JObj mkv)
    (Hcontent : assoc "content" mkv = Some (JStr s))
    (Hs : s <> "")
    (Hblank : strip s = "") :
  Recs.read_batch_response rt elapsed resp
  = Ok {[ "content" := JStr "";
          "finish_reason" := default JNull (assoc "finish_reason" ckv);
          "elapsed_seconds" := JNum elapsed ]}
  /\ Writer.read_response rt elapsed resp
     = Ok {[ "content" := JStr s;
             "finish_reason" := default JNull (assoc "finish_reason" ckv);
             "elapsed_seconds" := JNum elapsed ]}
  /\ forall streamed lines events,
       status streamed = 200 ->
       content streamed = lines -> content_end streamed = None ->
       Forall2 (Sse.reads rt) lines events ->
       Sse.all_content events = s ->
       Recs.read_stream_response rt elapsed streamed
       = Ok {[ "error" := JStr "Empty response from model";
               "finish_reason" := Sse.finish_json (Sse.last_finish events);
               "has_reasoning" := JBool (Sse.any_reasoning events);
               "elapsed_seconds" := JNum elapsed;
               "streamed" := JBool true ]}.
Proof.
  assert (Hn : nonempty s = true) by (apply StrFacts.nonempty_true, Hs).
  split; [|split].
  - unfold Recs.read_batch_response.
    rewrite Hstatus, Hbody. cbn [Z.eqb Pos.eqb negb res_bind].
    rewrite (EmptyFacts.no_envelope kvs Henv). cbn [res_bind py_get]. rewrite Hchoices.
    change (por (default JNull (Some (JArr (JObj ckv :: rest)))) (JArr []))
      with (JArr (JObj ckv :: rest)).
    cbn [truthy negb py_item0 res_bind].
    rewrite EmptyFacts.por_obj. cbn [py_get res_bind]. rewrite Hmessage.
    cbn [py_get res_bind]. rewrite Hcontent.
    change (_coerce_content_to_text (default JNull (Some (JStr s)))) with s.
    rewrite Hn, Hblank. reflexivity.
  - unfold Writer.read_response.
    rewrite Hstatus, Hbody. cbn [Z.eqb Pos.eqb negb res_bind].
    rewrite (EmptyFacts.no_envelope kvs Henv). cbn [res_bind py_get]. rewrite Hchoices.
    change (por (default JNull (Some (JArr (JObj ckv :: rest)))) (JArr []))
      with (JArr (JObj ckv :: rest)).
    cbn [truthy negb py_item0 res_bind].
    rewrite EmptyFacts.por_obj. cbn [py_get res_bind]. rewrite Hmessage.
    cbn [py_get res_bind]. rewrite Hcontent.
    change (_coerce_content_to_text (default JNull (Some (JStr s)))) with s.
    rewrite Hn. reflexivity.
  - intros streamed lines events Hst Hc He Hreads Hall.
    unfold Recs.read_stream_response. rewrite Hst. cbn [Z.eqb Pos.eqb negb].
    rewrite Hc, <- (app_nil_r lines), (SseFacts.consume_events rt lines events Hreads).
    cbn [Recs.consume]. rewrite He. cbn [res_bind].
    rewrite SseFacts.finish_events. unfold Sse.stream_outcome.
    rewrite Hall, Hblank. reflexivity.
Qed.

Lemma blank_content_witness :
  Recs.read_batch_response Sample.sample_runtime 7
    (Sample.ok_response (Sample.completion " "))
  = Ok {[ "content" := JStr "";
          "finish_reason" := JStr "stop";
          "elapsed_seconds" := JNum 7 ]}.
Proof.
  refine (proj1 (blank_content_is_read_three_ways Sample.sample_runtime 7
                   (Sample.ok_response (Sample.completion " "))
                   _ _ [] [("content", JStr " ")] " "
                   eq_refl eq_refl eq_refl eq_refl eq_refl eq_refl _ eq_refl)).
  discriminate.
Defined.

Module CoerceFacts.

Lemma join_empty_cons (x : string) (r : list string) : join "" (x :: r) = x +:+ join "" r.
Proof.
  destruct r as [|y r]; [symmetry; apply StrFacts.app_nil_r|reflexivity].
Qed.

Lemma join_empty_app (xs ys : list string) :
  join "" (xs ++ ys) = join "" xs +:+ join "" ys.
Proof.
  induction xs as [|x xs IH]; [reflexivity|].
  rewrite <- app_comm_cons, !join_empty_cons, IH. symmetry. apply StrFacts.app_assoc.
Qed.

End CoerceFacts.

(** X7. [_coerce_content_to_text] on a list of parts: the text of a list is
    the concatenation, in order, of the texts of its parts, so it
    distributes over the concatenation of lists; a text part and an object
    with a text under ["text"] contribute that text; any other part
    contributes nothing. *)
Theorem coerce_content_concatenates_parts (xs ys : list json) :
  _coerce_content_to_text (JArr (xs ++ ys))
  = _coerce_content_to_text (JArr xs) +:+ _coerce_content_to_text (JArr ys)
  /\ (forall s, _coerce_content_to_text (JArr (JStr s :: ys))
                = s +:+ _coerce_content_to_text (JArr ys))
  /\ (forall kvs s,
        assoc "text" kvs = Some (JStr s) ->
        _coerce_content_to_text (JArr (JObj kvs :: ys))
        = s +:+ _coerce_content_to_text (JArr ys))
  /\ (forall part,
        (forall s, part <> JStr s) ->
        (forall kvs s, part = JObj kvs -> assoc "text" kvs <> Some (JStr s)) ->
        _coerce_content_to_text (JArr (xs ++ part :: ys))
        = _coerce_content_to_text (JArr (xs ++ ys))).
Proof.
  unfold _coerce_content_to_text. split; [|split; [|split]].
  - rewrite omap_app. apply CoerceFacts.join_empty_app.
  - intros s. exact (CoerceFacts.join_empty_cons s (omap coerce_part ys)).
  - intros kvs s H.
    change (omap coerce_part (JObj kvs :: ys))
      with (match coerce_part (JObj kvs) with
            | Some t => t :: omap coerce_part ys
            | None => omap coerce_part ys
            end).
    unfold coerce_part at 1. rewrite H. apply CoerceFacts.join_empty_cons.
  - intros part Hs Ho. rewrite !omap_app.
    change (omap coerce_part (part :: ys))
      with (match coerce_part part with
            | Some t => t :: omap coerce_part ys
            | None => omap coerce_part ys
            end).
    assert (N : coerce_part part = None).
    { destruct part as [| | |s| |kvs]; try reflexivity.
      - destruct (Hs s eq_refl).
      - simpl. destruct (assoc "text" kvs) as [[| | |s| |]|] eqn:E; try reflexivity.
        destruct (Ho kvs s eq_refl E). }
    rewrite N. reflexivity.
Qed.

Lemma coerce_content_witness :
  _coerce_content_to_text
    (JArr [JObj [("type", JStr "text"); ("text", JStr "Hel")]; JStr "lo"])
  = "Hel" +:+ "lo".
Proof.
  apply (proj1 (proj2 (proj2 (coerce_content_concatenates_parts [] [JStr "lo"])))
           [("type", JStr "text"); ("text", JStr "Hel")] "Hel").
  reflexivity.
Defined.

(** ** The fan-out, label by label *)

Module LastWinsFacts.

(** A label that no task carries keeps the entry it had. *)
Lemma await_all_other (tasks : list (string * res dict)) (label : string) :
  (forall j lt, tasks !! j = Some lt -> lt.1 <> label) ->
  forall out0 out, Recs.await_all tasks out0 = Ok out -> out !! label = out0 !! label.
Proof.
  induction tasks as [|[l r] tasks IH]; intros Hno out0 out H; simpl in H.
  - injection H as <-. reflexivity.
  - destruct r as [d|e]; [|discriminate H]. simpl in H.
    rewrite (IH (fun j lt Hj => Hno (S j) lt Hj) _ _ H).
    apply lookup_insert_ne. exact (Hno 0%nat (l, Ok d) eq_refl).
Qed.

(** The entry of a label is the result of the last task that carries it. *)
Lemma await_all_last (tasks : list (string * res dict)) :
  forall i label r out0 out,
    tasks !! i = Some (label, r) ->
    (forall j lt, (i < j)%nat -> tasks !! j = Some lt -> lt.1 <> label) ->
    Recs.await_all tasks out0 = Ok out ->
    exists d, r = Ok d /\ out !! label = Some d.
Proof.
  induction tasks as [|[l0 r0] tasks IH]; intros i label r out0 out Hi Hlast H.
  - discriminate Hi.
  - simpl in H. destruct r0 as [d0|e0]; [|discriminate H]. simpl in H.
    destruct i as [|i].
    + injection Hi as -> <-. exists d0. split; [reflexivity|].
      rewrite (await_all_other tasks label
                 (fun j lt Hj => Hlast (S j) lt (Nat.lt_0_succ j) Hj) _ _ H).
      apply lookup_insert_eq.
    + eapply (IH i label r _ out Hi); [|exact H].
      intros j lt Hj. apply (Hlast (S j) lt). lia.
Qed.

Lemma await_all_dom (tasks : list (string * res dict)) :
  forall out0 out,
    Recs.await_all tasks out0 = Ok out ->
    dom out = dom out0 ∪ list_to_set (map fst tasks).
Proof.
  induction tasks as [|[l r] tasks IH]; intros out0 out H; simpl in H.
  - injection H as <-. simpl. rewrite (right_id_L ∅ (∪)). reflexivity.
  - destruct r as [d|e]; [|discriminate H]. simpl in H.
    rewrite (IH _ _ H), dom_insert_L. simpl.
    rewrite (comm_L (∪) {[l]}), <- (assoc_L (∪)). reflexivity.
Qed.

Lemma models_fold_other (models : list (string * string)) (label : string) :
  (forall j lm, models !! j = Some lm -> lm.1 <> label) ->
  forall m0 : gmap string string,
    foldl (fun m lm => <[lm.1 := lm.2]> m) m0 models !! label = m0 !! label.
Proof.
  induction models as [|[l0 id0] models IH]; intros Hno m0; simpl; [reflexivity|].
  rewrite (IH (fun j lm Hj => Hno (S j) lm Hj)).
  apply lookup_insert_ne. exact (Hno 0%nat (l0, id0) eq_refl).
Qed.

Lemma models_fold_last (models : list (string * string)) :
  forall i label id (m0 : gmap string string),
    models !! i = Some (label, id) ->
    (forall j lm, (i < j)%nat -> models !! j = Some lm -> lm.1 <> label) ->
    foldl (fun m lm => <[lm.1 := lm.2]> m) m0 models !! label = Some id.
Proof.
  induction models as [|[l0 id0] models IH]; intros i label id m0 Hi Hlast.
  - discriminate Hi.
  - simpl. destruct i as [|i].
    + injection Hi as -> ->.
      rewrite (models_fold_other models label
                 (fun j lm Hj => Hlast (S j) lm (Nat.lt_0_succ j) Hj)).
      apply lookup_insert_eq.
    + apply (IH i label id _ Hi). intros j lm Hj. apply (Hlast (S j) lm). lia.
Qed.

Lemma models_fold_dom (models : list (string * string)) :
  forall m0 : gmap string string,
    dom (foldl (fun m lm => <[lm.1 := lm.2]> m) m0 models)
    = dom m0 ∪ list_to_set (map fst models).
Proof.
  induction models as [|[l0 id0] models IH]; intros m0; simpl.
  - rewrite (right_id_L ∅ (∪)). reflexivity.
  - rewrite IH, dom_insert_L.
    rewrite (comm_L (∪) {[l0]}), <- (assoc_L (∪)). reflexivity.
Qed.

End LastWinsFacts.

(** X8. What the fan-out [run_models] returns, when it returns. The entry
    of a label in ["results"] is the outcome of the call made for the last
    model spec that carries the label (so with distinct labels every
    model's outcome is there, and with a repeated label only the last
    one), the entry of the label in ["meta"]["models"] is the model of
    that same spec, and the two mappings have the same labels. *)
Theorem fanout_keeps_the_last_spec_of_a_label rt nets sys today prompt sources key
    models v temp t stream out i label id
    (Hrun : Recs.run_models rt nets sys today prompt sources key models v temp t stream
            = Ok out)
    (Hspec : models !! i = Some (label, id))
    (Hlast : forall j lm, (i < j)%nat -> models !! j = Some lm -> lm.1 <> label) :
  (exists d,
     (Recs._call_openrouter rt (nets i) sys id
        (Prompt.build_user_prompt prompt sources today) key temp v t stream []).1 = Ok d
     /\ Recs.results out !! label = Some d)
  /\ Recs.meta_models out !! label = Some id
  /\ dom (Recs.results out) = dom (Recs.meta_models out).
Proof.
  unfold Recs.run_models in Hrun.
  set (tasks := imap _ models) in Hrun.
  destruct (Recs.await_all tasks ∅) as [res|e] eqn:E; [|discriminate Hrun].
  injection Hrun as <-. cbn [Recs.results Recs.meta_models].
  assert (Hfst : map fst tasks = map fst models)
    by (subst tasks; apply FanoutFacts.imap_fst; reflexivity).
  split; [|split].
  - apply (LastWinsFacts.await_all_last tasks i label _ ∅ res); [| |exact E].
    + subst tasks. rewrite list_lookup_imap, Hspec. reflexivity.
    + intros j [l r] Hj Hl. subst tasks. rewrite list_lookup_imap in Hl.
      destruct (models !! j) as [lm|] eqn:Em; [|discriminate Hl].
      injection Hl as <- _. exact (Hlast j lm Hj Em).
  - apply (LastWinsFacts.models_fold_last models i label id ∅ Hspec Hlast).
  - rewrite (LastWinsFacts.await_all_dom tasks ∅ res E).
    unfold Recs.models_dict. rewrite LastWinsFacts.models_fold_dom, Hfst.
    rewrite !dom_empty_L. reflexivity.
Qed.

Lemma fanout_witness :
  exists out,
    Recs.run_models Sample.sample_runtime (fun _ => Sample.unreachable) "S" "2026-01-01"
      "which laptop" "" "k" [("A", "model/a"); ("A", "model/b")] 1000 (JNum 0) 60 false
    = Ok out
    /\ Recs.meta_models out !! "A" = Some "model/b".
Proof.
  destruct (FanoutFacts.run_models_batch_returns Sample.sample_runtime
              (fun _ => Sample.unreachable) "S" "2026-01-01" "which laptop" "" "k"
              [("A", "model/a"); ("A", "model/b")] 1000 (JNum 0) 60)
    as (out & Hrun & _).
  exists out. split; [exact Hrun|].
  refine (proj1 (proj2 (fanout_keeps_the_last_spec_of_a_label _ _ _ _ _ _ _ _ _ _ _ _
                          out 1%nat "A" "model/b" Hrun eq_refl _))).
  intros j lm Hj Hl. destruct j as [|[|j]]; [lia|lia|discriminate Hl].
Defined.

(** ** Stripping twice *)

Module StripFacts.

Import StrFacts LineFacts.

Section Both.

Context (p : ascii -> bool).

(** What is left of a left strip is empty or starts with a kept character. *)
Lemma lstrip_by_head (s : string) :
  lstrip_by p s = "" \/ exists c t, lstrip_by p s = String c t /\ p c = false.
Proof.
  induction s as [|c s IH]; [left; reflexivity|]. simpl.
  destruct (p c) eqn:E; [exact IH|]. right. exists c, s. split; [reflexivity|exact E].
Qed.

Lemma lstrip_rstrip_fixed (s : string) :
  lstrip_by p s = s -> lstrip_by p (rstrip_by p s) = rstrip_by p s.
Proof.
  intros H. destruct (lstrip_by_head s) as [E|(c & t & E & Hc)]; rewrite H in E; subst s.
  - reflexivity.
  - simpl. rewrite Hc. destruct (rstrip_by p t); simpl; rewrite Hc; reflexivity.
Qed.

Lemma strip_by_idem (s : string) :
  rstrip_by p (lstrip_by p (rstrip_by p (lstrip_by p s))) = rstrip_by p (lstrip_by p s).
Proof.
  rewrite (lstrip_rstrip_fixed (lstrip_by p s)) by apply lstrip_by_idem.
  apply rstrip_by_idem.
Qed.

End Both.

Lemma strip_idem (s : string) : strip (strip s) = strip s.
Proof. apply strip_by_idem. Qed.

Lemma lstrip_strip (s : string) : lstrip (strip s) = strip s.
Proof. apply lstrip_rstrip_fixed, lstrip_by_idem. Qed.

Lemma rstrip_strip (s : string) : rstrip (strip s) = strip s.
Proof. apply rstrip_by_idem. Qed.

End StripFacts.

(** X9. The draft that [normalize_draft] returns never begins or ends with
    whitespace, whatever the regular-expression passes did and whether or
    not the platform is a short-form one; and cutting a draft to six lines
    a second time changes nothing. *)
Theorem normalize_draft_result_is_stripped rt text platform :
  strip (Writer.normalize_draft rt text platform) = Writer.normalize_draft rt text platform
  /\ forall cleaned,
       Writer.limit_lines (Writer.limit_lines cleaned) = Writer.limit_lines cleaned.
Proof.
  split.
  - unfold Writer.normalize_draft.
    assert (C : strip (Writer.clean_markup rt text) = Writer.clean_markup rt text)
      by apply StripFacts.strip_idem.
    destruct (Writer.short_form platform); [|exact C].
    unfold Writer.limit_lines.
    destruct (6 <? length (Writer.non_empty_lines (Writer.clean_markup rt text)))%nat;
      [apply StripFacts.strip_idem|exact C].
  - intros cleaned. apply LineFacts.limit_lines_short, LineFacts.limit_lines_bound.
Qed.

(** ** Model specs *)

Module SpecFacts.

Import StrFacts Cli.

Lemma split_once_app sep (a b : string) :
  has_char sep a = false -> split_once sep (a +:+ String sep b) = Some (a, b).
Proof.
  induction a as [|c a IH]; intros H.
  - rewrite app_nil_l. simpl. rewrite Ascii.eqb_refl. reflexivity.
  - simpl in H. apply orb_false_iff in H as [Hc Ha].
    rewrite app_cons. simpl. rewrite Hc, (IH Ha). reflexivity.
Qed.

Lemma split_once_inv sep (s a b : string) :
  split_once sep s = Some (a, b) -> s = a +:+ String sep b /\ has_char sep a = false.
Proof.
  revert a. induction s as [|c s IH]; intros a H; [discriminate H|].
  simpl in H. destruct (Ascii.eqb c sep) eqn:E.
  - injection H as <- <-. apply Ascii.eqb_eq in E. subst c.
    split; [rewrite app_nil_l; reflexivity|reflexivity].
  - destruct (split_once sep s) as [[a' b']|]; [|discriminate H].
    injection H as <- <-. destruct (IH a' eq_refl) as [-> Ha].
    split; [rewrite app_cons; reflexivity|]. simpl. rewrite E. exact Ha.
Qed.

Lemma split_once_none sep (s : string) :
  split_once sep s = None <-> has_char sep s = false.
Proof.
  induction s as [|c s IH]; [split; reflexivity|].
  simpl. destruct (Ascii.eqb c sep); [split; discriminate|].
  destruct (split_once sep s) as [[a b]|]; simpl.
  - split; [discriminate|]. intros H. apply IH in H. discriminate H.
  - split; [intros _; apply IH; reflexivity|reflexivity].
Qed.

End SpecFacts.

(** X10. Reading the [--model] specs. A spec [label=model] whose label and
    model are non-empty texts without surrounding whitespace, the label
    without [=], is read back as the pair (label, model), in the order
    given; the model may itself contain [=], since a spec is cut at its
    first [=]. Conversely every pair the loop accepts comes from a spec of
    that position cut at its first [=], both sides stripped and neither
    empty. *)
Theorem model_specs_round_trip :
  (forall ms : list (string * string),
     Forall (fun lm => has_char "=" lm.1 = false
                       /\ strip lm.1 = lm.1 /\ lm.1 <> ""
                       /\ strip lm.2 = lm.2 /\ lm.2 <> "") ms ->
     Cli.parse_models (map (fun lm => lm.1 +:+ "=" +:+ lm.2) ms) = Some ms)
  /\ forall raws ms,
       Cli.parse_models raws = Some ms ->
       Forall2 (fun raw lm =>
                  exists a b,
                    raw = a +:+ "=" +:+ b /\ has_char "=" a = false
                    /\ lm = (strip a, strip b) /\ strip a <> "" /\ strip b <> "")
               raws ms.
Proof.
  split.
  - induction 1 as [|[l m] ms (Hc & Hl & Hln & Hm & Hmn) _ IH]; [reflexivity|].
    cbn [map Cli.parse_models fst snd] in *.
    change ("=" +:+ m) with (String "="%char m).
    rewrite (SpecFacts.split_once_app _ l m Hc), Hl, Hm.
    apply StrFacts.nonempty_true in Hln, Hmn. rewrite Hln, Hmn. cbn [negb orb].
    rewrite IH. reflexivity.
  - induction raws as [|raw raws IH]; intros ms H; simpl in H.
    + injection H as <-. constructor.
    + destruct (Cli.split_once "=" raw) as [[a b]|] eqn:E; [|discriminate H].
      destruct (nonempty (strip a)) eqn:Na; [|discriminate H].
      destruct (nonempty (strip b)) eqn:Nb; [|discriminate H].
      cbn [negb orb] in H.
      destruct (Cli.parse_models raws) as [ms'|]; [|discriminate H].
      injection H as <-. constructor; [|apply IH; reflexivity].
      destruct (SpecFacts.split_once_inv _ _ _ _ E) as [-> Ha].
      exists a, b. split; [reflexivity|]. split; [exact Ha|]. split; [reflexivity|].
      split; apply StrFacts.nonempty_true; assumption.
Qed.

Lemma model_specs_witness :
  Cli.parse_models ["Fast=vendor/model-a"; "Wide=vendor/model:b=1"]
  = Some [("Fast", "vendor/model-a"); ("Wide", "vendor/model:b=1")].
Proof.
  apply (proj1 model_specs_round_trip
           [("Fast", "vendor/model-a"); ("Wide", "vendor/model:b=1")]).
  repeat constructor; try reflexivity; discriminate.
Defined.

Module ModelArgFacts.

Import Cli.

(** One inadmissible spec makes the loop give up. *)
Lemma parse_models_rejects (raws : list string) (raw : string) :
  raw ∈ raws ->
  has_char "=" raw = false
  \/ (exists a b, raw = a +:+ "=" +:+ b /\ has_char "=" a = false
                  /\ (strip a = "" \/ strip b = "")) ->
  parse_models raws = None.
Proof.
  intros Hin Hbad. induction raws as [|r raws IH]; [inversion Hin|].
  simpl. destruct (split_once "=" r) as [[a b]|] eqn:E; [|reflexivity].
  destruct (negb (nonempty (strip a)) || negb (nonempty (strip b))) eqn:B; [reflexivity|].
  apply elem_of_cons in Hin as [<-|Hin].
  - exfalso. apply orb_false_iff in B as [Ba Bb].
    apply negb_false_iff, StrFacts.nonempty_true in Ba, Bb.
    destruct Hbad as [Hn|(a' & b' & -> & Ha' & Hblank)].
    + apply SpecFacts.split_once_none in Hn. congruence.
    + change ("=" +:+ b') with (String "="%char b') in E.
      rewrite (SpecFacts.split_once_app _ a' b' Ha') in E. injection E as <- <-.
      destruct Hblank; contradiction.
  - rewrite (IH Hin). reflexivity.
Qed.

End ModelArgFacts.

(** X11. The [--model] option of the recommendations tool, for a command
    line with a prompt, no sources file and a key. If one spec has no [=],
    or has a blank label or a blank model, the tool exits with status 2.
    If all specs are admissible and streaming is off, the tool exits with
    status 0 whatever the network does, as long as the results can be
    written. *)
Theorem model_option_exit_status rt host nets sys today extract args key
    (Hprompt : strip (Cli.ra_prompt args) <> "")
    (Hsources : Cli.ra_sources_file args = "")
    (Hkey : Cli.openrouter_key host = Ok (Some key))
    (Hk : key <> "") :
  (forall raw,
     raw ∈ Cli.ra_model args ->
     has_char "=" raw = false
     \/ (exists a b, raw = a +:+ "=" +:+ b /\ has_char "=" a = false
                     /\ (strip a = "" \/ strip b = "")) ->
     Cli.exit_status (Cli.recs_main rt host nets sys today extract (Some args)) = 2)
  /\ (forall ms,
        Cli.ra_model args <> [] ->
        Cli.parse_models (Cli.ra_model args) = Some ms ->
        Cli.ra_no_stream args = true ->
        (forall r, Cli.write_results host r = Ok tt) ->
        Cli.exit_status (Cli.recs_main rt host nets sys today extract (Some args)) = 0).
Proof.
  assert (Hrun : forall parsed,
            match Cli.ra_model args with
            | [] => Some (Cli._default_models (Cli.codex_runtime host)
                            (Cli.opus_model_id host))
            | raws => Cli.parse_models raws
            end = parsed ->
            Cli.recs_main rt host nets sys today extract (Some args)
            = match parsed with
              | None => Ok 2
              | Some models =>
                  res_bind
                    (Recs.run_models rt nets sys today (Cli.ra_prompt args) "" key models
                       (Z.max 500 (Z.min (Cli.ra_max_tokens args) 16000))
                       (Cli.ra_temperature args)
                       (Z.max 30 (Z.min (Cli.ra_timeout args) 600))
                       (negb (Cli.ra_no_stream args)))
                    (fun result =>
                       res_bind (Cli.write_results host result) (fun _ => Ok 0))
              end).
  { intros parsed <-. unfold Cli.recs_main.
    rewrite (CliFacts.nonblank_nonempty _ Hprompt). cbn [negb andb res_bind].
    destruct (strip (Cli.ra_prompt args)) eqn:E; [contradiction|]. cbn [nonempty negb].
    rewrite Hsources, Hkey. cbn [nonempty andb res_bind default].
    destruct key; [contradiction|]. cbn [nonempty negb]. reflexivity. }
  split.
  - intros raw Hin Hbad.
    rewrite (Hrun None); [reflexivity|].
    destruct (Cli.ra_model args) as [|r raws] eqn:Em; [inversion Hin|].
    apply (ModelArgFacts.parse_models_rejects _ raw Hin Hbad).
  - intros ms Hne Hparse Hns Hw.
    rewrite (Hrun (Some ms)).
    + rewrite Hns. cbn [negb].
      destruct (FanoutFacts.run_models_batch_returns rt nets sys today
                  (Cli.ra_prompt args) "" key ms
                  (Z.max 500 (Z.min (Cli.ra_max_tokens args) 16000))
                  (Cli.ra_temperature args)
                  (Z.max 30 (Z.min (Cli.ra_timeout args) 600)))
        as (out & -> & _).
      cbn [res_bind]. rewrite Hw. reflexivity.
    + destruct (Cli.ra_model args); [contradiction|exact Hparse].
Qed.

(** ** Result lists *)

Lemma model_option_witness :
  Cli.exit_status
    (Cli.recs_main Sample.sample_runtime Sample.recs_host_ok (fun _ => Sample.unreachable)
       "S" "2026-01-01" (fun text _ => text) (Some Fixtures.bad_model_command)) = 2.
Proof.
  refine (proj1 (model_option_exit_status Sample.sample_runtime Sample.recs_host_ok
                   (fun _ => Sample.unreachable) "S" "2026-01-01" (fun text _ => text)
                   Fixtures.bad_model_command "k" _ eq_refl eq_refl _) "gpt" _ _).
  - vm_compute. discriminate.
  - discriminate.
  - apply list_elem_of_here.
  - left. reflexivity.
Defined.

Module ResultsFacts.

Import Cli.

Lemma is_list_inv (v : json) : is_list v = true -> exists xs, v = JArr xs.
Proof. destruct v; try discriminate. eexists; reflexivity. Qed.

Lemma item_of_get (kvs : list (string * json)) (k : string) (xs : list json) :
  default JNull (assoc k kvs) = JArr xs -> py_item (JObj kvs) k = Ok (JArr xs).
Proof. simpl. destruct (assoc k kvs); simpl; [intros ->; reflexivity|discriminate]. Qed.

(** The three places a result list is looked for, in order. *)
Lemma coerce_results_obj (kvs : list (string * json)) :
  _coerce_results (JObj kvs)
  = Ok (let fallback :=
          match assoc "results" kvs with
          | Some (JArr xs) => JArr xs
          | _ => match assoc "data" kvs with
                 | Some (JArr xs) => JArr xs
                 | _ => JArr []
                 end
          end in
        match assoc "data" kvs with
        | Some (JObj dkv) =>
            match assoc "results" dkv with
            | Some (JArr xs) => JArr xs
            | _ => fallback
            end
        | _ => fallback
        end).
Proof.
  unfold _coerce_results. cbn [py_get py_item res_bind].
  destruct (assoc "data" kvs) as [[| | | |ys|dkv]|] eqn:Ed;
    destruct (assoc "results" kvs) as [[| | | |zs|]|] eqn:Er;
    cbn; rewrite ?Ed, ?Er; try reflexivity.
  all: destruct (assoc "results" dkv) as [[| | | |ws|]|] eqn:Edr;
    cbn; rewrite ?Ed, ?Er, ?Edr; reflexivity.
Qed.

End ResultsFacts.

(** X12. [_coerce_results] on a decoded response. For a JSON object it never
    raises and always gives a list: the list under ["data"]["results"] when
    there is one, otherwise the list under ["results"], otherwise the list
    under ["data"], otherwise the empty list (also when ["data"] is an
    object that has no list under ["results"]). For a decoded document that
    is not an object it raises [AttributeError], so that the tool ends with
    status 1. *)
Theorem coerce_results_picks_a_list (kvs : list (string * json)) :
  (exists xs, Cli._coerce_results (JObj kvs) = Ok (JArr xs))
  /\ (forall dkv xs,
        assoc "data" kvs = Some (JObj dkv) -> assoc "results" dkv = Some (JArr xs) ->
        Cli._coerce_results (JObj kvs) = Ok (JArr xs))
  /\ (forall xs,
        (forall dkv ys, assoc "data" kvs = Some (JObj dkv) ->
                        assoc "results" dkv <> Some (JArr ys)) ->
        assoc "results" kvs = Some (JArr xs) ->
        Cli._coerce_results (JObj kvs) = Ok (JArr xs))
  /\ (forall xs,
        Cli.is_list (default JNull (assoc "results" kvs)) = false ->
        assoc "data" kvs = Some (JArr xs) ->
        Cli._coerce_results (JObj kvs) = Ok (JArr xs))
  /\ ((forall dkv ys, assoc "data" kvs = Some (JObj dkv) ->
                      assoc "results" dkv <> Some (JArr ys)) ->
      Cli.is_list (default JNull (assoc "results" kvs)) = false ->
      Cli.is_list (default JNull (assoc "data" kvs)) = false ->
      Cli._coerce_results (JObj kvs) = Ok (JArr []))
  /\ forall data host no_title args key,
       is_dict data = false ->
       Cli.firecrawl_key host = Some key -> nonempty key = true ->
       Cli.request_json host key (Cli.search_payload args) = Ok data ->
       Cli._coerce_results data = Raise (PyError "AttributeError")
       /\ Cli.exit_status (Cli.search_main host no_title (Some args)) = 1.
Proof.
  rewrite ResultsFacts.coerce_results_obj. cbv zeta.
  split; [|split; [|split; [|split; [|split]]]].
  - repeat (match goal with |- context [match ?x with _ => _ end] => destruct x end);
      eexists; reflexivity.
  - intros dkv xs Hd Hr. rewrite Hd, Hr. reflexivity.
  - intros xs Hno Hr. rewrite Hr.
    destruct (assoc "data" kvs) as [[| | | |ys|dkv]|] eqn:Ed; try reflexivity.
    destruct (assoc "results" dkv) as [[| | | |zs|]|] eqn:Er; try reflexivity.
    destruct (Hno dkv zs eq_refl Er).
  - intros xs Hr Hd. rewrite Hd.
    destruct (assoc "results" kvs) as [[| | | |zs|]|]; try reflexivity.
    discriminate Hr.
  - intros Hno Hr Hl.
    destruct (assoc "results" kvs) as [[| | | |zs|]|]; cbn in Hr; try discriminate Hr.
    all: destruct (assoc "data" kvs) as [[| | | |ys|dkv]|]; cbn in Hl;
      try discriminate Hl; try reflexivity.
    all: destruct (assoc "results" dkv) as [[| | | |ws|]|] eqn:Er; try reflexivity.
    all: destruct (Hno dkv ws eq_refl Er).
  - intros data host no_title args key Hdata Hkey Hn Hreq.
    assert (E : (let? d := py_get data "data" in
                 let? nested :=
                   if is_dict d then let? r := py_get d "results" in Ok (Cli.is_list r)
                   else Ok false in
                 if nested then let? d := py_item data "data" in py_item d "results"
                 else
                   let? r := py_get data "results" in
                   if Cli.is_list r then py_item data "results"
                   else
                     let? d := py_get data "data" in
                     if Cli.is_list d then py_item data "data" else Ok (JArr []))
                = Raise (PyError "AttributeError")).
    { destruct data; try reflexivity. discriminate Hdata. }
    split; [exact E|].
    unfold Cli.search_main. rewrite Hkey. cbn [from_option id]. rewrite Hn, Hreq.
    cbn [negb]. unfold Cli._coerce_results. rewrite E. reflexivity.
Qed.

Lemma coerce_results_witness :
  Cli._coerce_results
    (JObj [("results", JArr []); ("data", JObj [("results", JArr [JStr "hit"])])])
  = Ok (JArr [JStr "hit"]).
Proof.
  apply (proj1 (proj2 (coerce_results_picks_a_list
                         [("results", JArr []);
                          ("data", JObj [("results", JArr [JStr "hit"])])]))
           [("results", JArr [JStr "hit"])] [JStr "hit"]); reflexivity.
Defined.

(** ** The .env file of the recommendations module *)

Module EnvFacts.

Import Env.

(** [if key not in out: out[key] = value] keeps what [out] has. *)
Lemma insert_absent (out : gmap string string) (k v : string) :
  (if bool_decide (is_Some (out !! k)) then out else <[k := v]> out) = out ∪ {[ k := v ]}.
Proof.
  apply map_eq. intros i. destruct (bool_decide (is_Some (out !! k))) eqn:B.
  - apply bool_decide_eq_true in B as [x Hx].
    destruct (out !! i) as [y|] eqn:Ei.
    + symmetry. apply lookup_union_Some_l. exact Ei.
    + rewrite lookup_union_r by exact Ei.
      symmetry. apply lookup_singleton_ne. intros ->. congruence.
  - apply bool_decide_eq_false in B.
    assert (N : out !! k = None).
    { destruct (out !! k) eqn:E; [|reflexivity]. destruct B. eexists; reflexivity. }
    rewrite insert_union_singleton_r by exact N. reflexivity.
Qed.

Lemma read_lines_union (lines : list string) :
  forall out, read_lines lines out = out ∪ read_lines lines ∅.
Proof.
  induction lines as [|raw rest IH]; intros out; simpl.
  - rewrite (right_id_L ∅ (∪)). reflexivity.
  - destruct (env_line raw) as [[k v]|]; [|apply IH].
    rewrite !insert_absent, (left_id_L ∅ (∪)).
    rewrite (IH (out ∪ {[k := v]})), (IH {[k := v]}).
    symmetry. apply (assoc_L (∪)).
Qed.

Lemma read_lines_app (l1 l2 : list string) :
  forall out, read_lines (l1 ++ l2) out = read_lines l2 (read_lines l1 out).
Proof.
  induction l1 as [|raw rest IH]; intros out; simpl; [reflexivity|].
  destruct (env_line raw) as [[k v]|]; apply IH.
Qed.

(** Lines that do not define [key] leave it undefined. *)
Lemma read_lines_skip (key : string) (lines : list string) :
  Forall (fun raw => forall v, env_line raw <> Some (key, v)) lines ->
  read_lines lines ∅ !! key = None.
Proof.
  induction 1 as [|raw rest Hraw _ IH]; simpl; [reflexivity|].
  destruct (env_line raw) as [[k v]|] eqn:E; [|exact IH].
  rewrite insert_absent, (left_id_L ∅ (∪)), read_lines_union.
  apply lookup_union_None. split; [|exact IH].
  apply lookup_singleton_ne. intros ->. exact (Hraw v eq_refl).
Qed.

Lemma or_else_nonempty (a : option string) (v : string) :
  Cli.or_else a None = Some v -> v <> "".
Proof.
  unfold Cli.or_else. destruct a as [s|]; [|discriminate].
  destruct s; [discriminate|]. intros [= <-]. discriminate.
Qed.

End EnvFacts.

(** X13. [_read_env_file]: the first definition of a key wins. Reading a
    file made of two runs of lines gives the definitions of the first run,
    completed by those of the second run for the keys the first run does
    not define; a line that defines nothing (blank, a comment, without [=],
    with a blank key) can be dropped anywhere; a path that does not exist
    gives no definition. *)
Theorem env_file_first_definition_wins (l1 l2 : list string) :
  Env._read_env_file (Some (l1 ++ l2))
  = Env._read_env_file (Some l1) ∪ Env._read_env_file (Some l2)
  /\ (forall key,
        Env._read_env_file (Some (l1 ++ l2)) !! key
        = match Env._read_env_file (Some l1) !! key with
          | Some v => Some v
          | None => Env._read_env_file (Some l2) !! key
          end)
  /\ (forall raw,
        Env.env_line raw = None ->
        Env._read_env_file (Some (l1 ++ raw :: l2)) = Env._read_env_file (Some (l1 ++ l2)))
  /\ Env._read_env_file None = ∅.
Proof.
  assert (U : Env._read_env_file (Some (l1 ++ l2))
              = Env._read_env_file (Some l1) ∪ Env._read_env_file (Some l2)).
  { unfold Env._read_env_file.
    rewrite EnvFacts.read_lines_app. apply EnvFacts.read_lines_union. }
  split; [exact U|]. split; [|split; [|reflexivity]].
  - intros key. rewrite U.
    destruct (Env._read_env_file (Some l1) !! key) as [v|] eqn:E.
    + apply lookup_union_Some_l. exact E.
    + apply lookup_union_r. exact E.
  - intros raw Hraw. unfold Env._read_env_file.
    rewrite !EnvFacts.read_lines_app. simpl. rewrite Hraw. reflexivity.
Qed.

Lemma env_file_witness :
  Env._read_env_file (Some (["KEY=first"] ++ "# a comment" :: ["KEY=second"]))
  = Env._read_env_file (Some (["KEY=first"] ++ ["KEY=second"])).
Proof.
  apply (proj1 (proj2 (proj2 (env_file_first_definition_wins ["KEY=first"] ["KEY=second"])))
           "# a comment").
  reflexivity.
Defined.

(** X14. [_getenv_with_dotenv]: a non-empty environment variable is the
    answer whatever the file says; an empty one counts as unset; the answer
    is never an empty text; and when the environment has nothing, the first
    line of the file that defines the key decides alone: its value if that
    is not empty, and nothing otherwise, even if a later line defines the
    key again. *)
Theorem getenv_prefers_environment (env : Env.environ) (file : option (list string))
    (key : string) :
  (forall v, env !! key = Some v -> v <> "" ->
             Env._getenv_with_dotenv env file key = Some v)
  /\ (forall v, Env._getenv_with_dotenv env file key = Some v -> v <> "")
  /\ (forall pre raw post v,
        env !! key = None \/ env !! key = Some "" ->
        file = Some (pre ++ raw :: post) ->
        Forall (fun l => forall v', Env.env_line l <> Some (key, v')) pre ->
        Env.env_line raw = Some (key, v) ->
        Env._getenv_with_dotenv env file key = if nonempty v then Some v else None)
  /\ (env !! key = None \/ env !! key = Some "" ->
      file = None -> Env._getenv_with_dotenv env file key = None).
Proof.
  unfold Env._getenv_with_dotenv. split; [|split; [|split]].
  - intros v -> Hv. destruct v; [contradiction|reflexivity].
  - intros v. destruct (env !! key) as [val|].
    + destruct val; [apply EnvFacts.or_else_nonempty|].
      cbn [nonempty]. intros [= <-]. discriminate.
    + apply EnvFacts.or_else_nonempty.
  - intros pre raw post v Henv -> Hpre Hraw.
    assert (L : Env._read_env_file (Some (pre ++ raw :: post)) !! key = Some v).
    { unfold Env._read_env_file.
      rewrite EnvFacts.read_lines_app, EnvFacts.read_lines_union.
      rewrite lookup_union_r by (apply EnvFacts.read_lines_skip, Hpre).
      simpl. rewrite Hraw, EnvFacts.insert_absent, (left_id_L ∅ (∪)).
      rewrite EnvFacts.read_lines_union.
      apply lookup_union_Some_l, lookup_singleton_eq. }
    rewrite L. destruct Henv as [-> | ->]; cbn [nonempty Cli.or_else];
      destruct (nonempty v); reflexivity.
  - intros Henv ->. destruct Henv as [-> | ->]; reflexivity.
Qed.

Lemma getenv_witness :
  Env._getenv_with_dotenv {[ "OPENROUTER_API_KEY" := "" ]}
    (Some (["# keys"] ++ "OPENROUTER_API_KEY=" :: ["OPENROUTER_API_KEY=sk-2"]))
    "OPENROUTER_API_KEY"
  = None.
Proof.
  refine (proj1 (proj2 (proj2 (getenv_prefers_environment _ _ _)))
            ["# keys"] "OPENROUTER_API_KEY=" ["OPENROUTER_API_KEY=sk-2"] ""
            _ eq_refl _ eq_refl).
  - right. reflexivity.
  - constructor; [|constructor]. intros v'. vm_compute. discriminate.
Defined.

(** ** Assignment lines *)

Module AssignFacts.

Import StrFacts LineFacts StripFacts Env.

Section Chars.

Context (p : ascii -> bool).

Lemma rstrip_by_snoc (s : string) (c : ascii) :
  p c = true -> rstrip_by p (s +:+ String c "") = rstrip_by p s.
Proof.
  intros Hc. induction s as [|a s IH].
  - rewrite app_nil_l. simpl. rewrite Hc. reflexivity.
  - rewrite app_cons. simpl. rewrite IH. reflexivity.
Qed.

Lemma rstrip_by_keep (s : string) (c : ascii) :
  p c = false -> rstrip_by p (s +:+ String c "") = s +:+ String c "".
Proof.
  intros Hc. apply eq_trans with (s +:+ rstrip_by p (String c "")).
  - apply rstrip_by_app. simpl. rewrite Hc. discriminate.
  - simpl. rewrite Hc. reflexivity.
Qed.

Lemma lstrip_by_keep (s : string) (c : ascii) :
  p c = false -> lstrip_by p (String c s) = String c s.
Proof. intros Hc. simpl. rewrite Hc. reflexivity. Qed.

Lemma lstrip_by_skip (s : string) (c : ascii) :
  p c = true -> lstrip_by p (String c s) = lstrip_by p s.
Proof. intros Hc. simpl. rewrite Hc. reflexivity. Qed.

(** A string both strips leave alone, between two stripped characters. *)
Lemma strip_chars_between (s : string) (c : ascii) :
  p c = true -> lstrip_by p s = s -> rstrip_by p s = s ->
  strip_chars p (String c s +:+ String c "") = s.
Proof.
  intros Hc Hl Hr. unfold strip_chars. rewrite app_cons, (lstrip_by_skip _ c Hc).
  destruct s as [|a s].
  - rewrite app_nil_l. simpl. rewrite Hc. reflexivity.
  - rewrite lstrip_by_app by (rewrite Hl; discriminate).
    rewrite Hl, (rstrip_by_snoc _ c Hc). exact Hr.
Qed.

Lemma strip_chars_fixed (s : string) :
  strip_chars p s = s -> lstrip_by p s = s /\ rstrip_by p s = s.
Proof.
  unfold strip_chars. intros H. split.
  - rewrite <- H at 1 2. apply lstrip_rstrip_fixed, lstrip_by_idem.
  - rewrite <- H at 1 2. apply rstrip_by_idem.
Qed.

End Chars.

Lemma strip_fixed_parts (s : string) : strip s = s -> lstrip s = s /\ rstrip s = s.
Proof. apply (strip_chars_fixed is_space). Qed.

(** A stripped, non-empty text followed by anything is stripped on the left. *)
Lemma lstrip_prefix (k rest : string) :
  strip k = k -> k <> "" -> lstrip (k +:+ rest) = k +:+ rest.
Proof.
  intros Hk Hne. destruct (strip_fixed_parts k Hk) as [Hl _].
  unfold lstrip in *. rewrite lstrip_by_app by (rewrite Hl; exact Hne).
  rewrite Hl. reflexivity.
Qed.

(** [=] and a stripped value, stripped on the right. *)
Lemma rstrip_assignment (k v : string) :
  strip v = v -> rstrip (k +:+ String "=" v) = k +:+ String "=" v.
Proof.
  intros Hv. destruct (strip_fixed_parts v Hv) as [_ Hr]. unfold rstrip in *.
  assert (E : rstrip_by is_space (String "=" v) = String "=" v).
  { destruct v as [|a v]; [reflexivity|].
    rewrite rstrip_by_cons by (rewrite Hr; discriminate). rewrite Hr. reflexivity. }
  rewrite rstrip_by_app by (rewrite E; discriminate). rewrite E. reflexivity.
Qed.

Lemma startswith_app (q k rest : string) :
  k <> "" -> String.length q = 1%nat -> startswith q (k +:+ rest) = startswith q k.
Proof.
  intros Hk Hq. destruct q as [|a [|b q]]; try discriminate Hq.
  destruct k as [|c k]; [contradiction|]. rewrite app_cons. simpl.
  rewrite !andb_true_r. reflexivity.
Qed.

(** A line [key=value] with a line end, as the loop of the
    recommendations module sees it after [strip]. *)
Lemma strip_assignment (k v : string) :
  strip k = k -> k <> "" -> strip v = v ->
  strip (k +:+ "=" +:+ v +:+ nl) = k +:+ String "=" v.
Proof.
  intros Hk Hne Hv. unfold strip.
  change (k +:+ "=" +:+ v +:+ nl) with (k +:+ String "=" (v +:+ nl)).
  rewrite (lstrip_prefix k _ Hk Hne).
  assert (E : k +:+ String "=" (v +:+ nl) = (k +:+ String "=" v) +:+ nl).
  { rewrite app_assoc. reflexivity. }
  rewrite E. unfold rstrip, nl. rewrite rstrip_by_snoc by reflexivity.
  apply (rstrip_assignment k v Hv).
Qed.

(** The same line with the value between double quotes. *)
Lemma strip_quoted_assignment (k v : string) :
  strip k = k -> k <> "" ->
  strip (k +:+ "=" +:+ Sample.dq +:+ v +:+ Sample.dq +:+ nl)
  = k +:+ String "=" (Sample.dq +:+ v +:+ Sample.dq).
Proof.
  intros Hk Hne. unfold strip.
  change (k +:+ "=" +:+ Sample.dq +:+ v +:+ Sample.dq +:+ nl)
    with (k +:+ String "=" (String "034" (v +:+ String "034" nl))).
  rewrite (lstrip_prefix k _ Hk Hne).
  assert (E : k +:+ String "=" (String "034" (v +:+ String "034" nl))
              = ((k +:+ String "=" (String "034" v)) +:+ String "034" "") +:+ nl).
  { rewrite !app_assoc, !app_cons, ?app_assoc. reflexivity. }
  rewrite E. unfold rstrip, nl. rewrite rstrip_by_snoc by reflexivity.
  rewrite rstrip_by_keep by reflexivity.
  rewrite !app_assoc, ?app_cons. reflexivity.
Qed.

Lemma strip_quoted (v : string) :
  strip (Sample.dq +:+ v +:+ Sample.dq) = Sample.dq +:+ v +:+ Sample.dq.
Proof.
  unfold strip, lstrip, rstrip.
  change (Sample.dq +:+ v +:+ Sample.dq) with (String "034" v +:+ String "034" "").
  rewrite app_cons, lstrip_by_keep by reflexivity.
  rewrite <- app_cons. apply rstrip_by_keep. reflexivity.
Qed.

End AssignFacts.

(** X15. A line of a .env file read back by [_read_env_file]. For a key
    that is a non-empty text without surrounding whitespace, without [=]
    and not starting with [#], and a value without a quote character at
    either end: the line [key=value] defines key as value when the value
    has no surrounding whitespace, and the line [key="value"] defines it
    as value whatever whitespace the value carries. *)
Theorem env_line_round_trip (key value : string)
    (Hkey : strip key = key) (Hk : key <> "")
    (Heq : has_char "=" key = false)
    (Hcomment : startswith "#" key = false)
    (Hdq : Env.strip_chars Env.is_dquote value = value)
    (Hsq : Env.strip_chars Env.is_squote value = value) :
  (strip value = value ->
   Env.env_line (key +:+ "=" +:+ value +:+ nl) = Some (key, value))
  /\ Env.env_line (key +:+ "=" +:+ Sample.dq +:+ value +:+ Sample.dq +:+ nl)
     = Some (key, value).
Proof.
  assert (Hn : nonempty key = true) by (apply StrFacts.nonempty_true, Hk).
  destruct (AssignFacts.strip_chars_fixed _ _ Hdq) as [Hdl Hdr].
  split.
  - intros Hv. unfold Env.env_line.
    rewrite (AssignFacts.strip_assignment key value Hkey Hk Hv).
    rewrite (AssignFacts.startswith_app "#" key _ Hk eq_refl), Hcomment.
    assert (Hl : nonempty (key +:+ String "=" value) = true)
      by (destruct key; [contradiction|reflexivity]).
    rewrite Hl. cbn [negb orb].
    rewrite (SpecFacts.split_once_app _ key value Heq), Hkey, Hv, Hdq, Hsq, Hn.
    reflexivity.
  - unfold Env.env_line.
    rewrite (AssignFacts.strip_quoted_assignment key value Hkey Hk).
    rewrite (AssignFacts.startswith_app "#" key _ Hk eq_refl), Hcomment.
    assert (Hl : nonempty (key +:+ String "=" (Sample.dq +:+ value +:+ Sample.dq))
                 = true)
      by (destruct key; [contradiction|reflexivity]).
    rewrite Hl. cbn [negb orb].
    rewrite (SpecFacts.split_once_app _ key _ Heq), Hkey, Hn.
    rewrite AssignFacts.strip_quoted.
    change (Sample.dq +:+ value +:+ Sample.dq)
      with (String "034" value +:+ String "034" "").
    rewrite (AssignFacts.strip_chars_between Env.is_dquote value "034" eq_refl Hdl Hdr).
    rewrite Hsq. reflexivity.
Qed.

Lemma env_line_witness :
  Env.env_line ("OPENROUTER_API_KEY" +:+ "=" +:+ Sample.dq +:+ "sk 1" +:+ Sample.dq +:+ nl)
  = Some ("OPENROUTER_API_KEY", "sk 1").
Proof.
  refine (proj2 (env_line_round_trip "OPENROUTER_API_KEY" "sk 1" eq_refl _ eq_refl
                   eq_refl eq_refl eq_refl)).
  discriminate.
Defined.

(** ** The .env loader of the writing module *)

Module DotenvFacts.

Import StrFacts Env.

Lemma scan_lines_first (key : string) (pre : list string) :
  forall raw post value,
    Forall (fun l => dotenv_line key l = None) pre ->
    dotenv_line key raw = Some value ->
    scan_lines key (pre ++ raw :: post) = value.
Proof.
  induction pre as [|l pre IH]; intros raw post value Hpre Hraw; simpl.
  - rewrite Hraw. reflexivity.
  - inversion Hpre as [|? ? Hl Hrest]; subst. rewrite Hl. apply IH; assumption.
Qed.

Lemma dotenv_line_nonempty (key raw v : string) :
  dotenv_line key raw = Some (Some v) -> v <> "".
Proof.
  unfold dotenv_line. intros H.
  destruct (negb _ || _); [discriminate H|].
  destruct (Cli.split_once _ _) as [[k v']|]; [|discriminate H].
  destruct (negb (String.eqb _ _)); [discriminate H|].
  injection H as H.
  match type of H with
  | (if nonempty ?x then _ else _) = _ => destruct x; [discriminate H|]
  end.
  injection H as <-. discriminate.
Qed.

Lemma scan_lines_nonempty (key : string) (lines : list string) (v : string) :
  scan_lines key lines = Some v -> v <> "".
Proof.
  induction lines as [|l lines IH]; simpl; [discriminate|].
  destruct (dotenv_line key l) as [[x|]|] eqn:E; [|discriminate|exact IH].
  intros [= ->]. eapply dotenv_line_nonempty, E.
Qed.

(** A key that does not start with [export ] is not taken for the prefix. *)
Lemma no_export (key rest : string) :
  startswith "export " key = false ->
  startswith "export " (key +:+ String "=" rest) = false.
Proof.
  intros H.
  destruct key as [|c1 [|c2 [|c3 [|c4 [|c5 [|c6 [|c7 key]]]]]]];
    rewrite ?app_cons, ?app_nil_l; cbn [startswith] in *;
    try exact H;
    change (Ascii.eqb _ "="%char) with false;
    rewrite ?andb_false_r; reflexivity.
Qed.

Lemma lstrip_by_shorter p (s : string) :
  (String.length (lstrip_by p s) <= String.length s)%nat.
Proof.
  induction s as [|a s IH]; simpl; [lia|]. destruct (p a); simpl; lia.
Qed.

Lemma load_nonempty (env : environ) (text : option string) (key v : string) :
  _load_dotenv_var env text key = Some v -> v <> "".
Proof.
  unfold _load_dotenv_var. destruct (env !! key) as [[|c existing]|]; cbn [nonempty].
  - destruct text; [apply scan_lines_nonempty|discriminate].
  - intros [= <-]. discriminate.
  - destruct text; [apply scan_lines_nonempty|discriminate].
Qed.

Lemma or_else_load (env : environ) (text : option string) (key : string) :
  Cli.or_else (env !! key) (_load_dotenv_var env text key) = _load_dotenv_var env text key.
Proof.
  unfold _load_dotenv_var. destruct (env !! key) as [[|c existing]|]; reflexivity.
Qed.

End DotenvFacts.

(** X16. [_load_dotenv_var] of the writing module: a non-empty environment
    variable is the answer whatever the file says; the answer is never an
    empty text; without file, or with an unreadable one, an unset or empty
    variable gives nothing; and otherwise the first line of the file that
    is about the key decides alone, so that an empty first value gives
    nothing even when a later line sets the key. The test of the
    environment that [main] makes before the call changes nothing. *)
Theorem load_dotenv_var_first_match_decides (env : Env.environ) (text : option string)
    (key : string) :
  (forall v, env !! key = Some v -> v <> "" ->
             Env._load_dotenv_var env text key = Some v)
  /\ (forall v, Env._load_dotenv_var env text key = Some v -> v <> "")
  /\ (env !! key = None \/ env !! key = Some "" ->
      text = None -> Env._load_dotenv_var env text key = None)
  /\ (forall t pre raw post value,
        env !! key = None \/ env !! key = Some "" ->
        text = Some t ->
        Env.splitlines false t = pre ++ raw :: post ->
        Forall (fun l => Env.dotenv_line key l = None) pre ->
        Env.dotenv_line key raw = Some value ->
        Env._load_dotenv_var env text key = value)
  /\ Cli.or_else (env !! key) (Env._load_dotenv_var env text key)
     = Env._load_dotenv_var env text key.
Proof.
  split; [|split; [apply DotenvFacts.load_nonempty|]];
    [|split; [|split; [|apply DotenvFacts.or_else_load]]];
    unfold Env._load_dotenv_var.
  - intros v -> Hv. destruct v; [contradiction|reflexivity].
  - intros Henv ->. destruct Henv as [-> | ->]; reflexivity.
  - intros t pre raw post value Henv -> Hsplit Hpre Hraw.
    rewrite Hsplit, (DotenvFacts.scan_lines_first key pre raw post value Hpre Hraw).
    destruct Henv as [-> | ->]; reflexivity.
Qed.

Lemma load_dotenv_var_witness :
  Env._load_dotenv_var ∅ (Some ("# keys" +:+ nl +:+ "KEY=" +:+ nl +:+ "KEY=late")) "KEY"
  = None.
Proof.
  refine (proj1 (proj2 (proj2 (proj2
            (load_dotenv_var_first_match_decides ∅
               (Some ("# keys" +:+ nl +:+ "KEY=" +:+ nl +:+ "KEY=late")) "KEY"))))
            ("# keys" +:+ nl +:+ "KEY=" +:+ nl +:+ "KEY=late")
            ["# keys"] "KEY=" ["KEY=late"] None _ eq_refl eq_refl _ eq_refl).
  - left. reflexivity.
  - constructor; [reflexivity|constructor].
Defined.

(** X17. A line [export key=value]. For a key without surrounding
    whitespace, without [=], not starting with [#] or with [export ], and
    a non-empty value without surrounding whitespace and without a quote
    character at either end: the writing module reads the line as the
    assignment of value to key, with or without the [export ] prefix; the
    recommendations module reads the line with the prefix as the
    definition of the key [export key], and so finds no value for key. *)
Theorem export_prefix_is_read_by_the_writer_only (key value : string)
    (Hkey : strip key = key) (Hk : key <> "")
    (Heq : has_char "=" key = false)
    (Hcomment : startswith "#" key = false)
    (Hexport : startswith "export " key = false)
    (Hvalue : strip value = value) (Hv : value <> "")
    (Hdq : Env.strip_chars Env.is_dquote value = value)
    (Hsq : Env.strip_chars Env.is_squote value = value) :
  Env.dotenv_line key (key +:+ "=" +:+ value) = Some (Some value)
  /\ Env.dotenv_line key ("export " +:+ key +:+ "=" +:+ value) = Some (Some value)
  /\ Env.env_line ("export " +:+ key +:+ "=" +:+ value +:+ nl)
     = Some ("export " +:+ key, value)
  /\ Env._read_env_file (Some ["export " +:+ key +:+ "=" +:+ value +:+ nl]) !! key = None.
Proof.
  assert (Hn : nonempty key = true) by (apply StrFacts.nonempty_true, Hk).
  assert (Hvn : nonempty value = true) by (apply StrFacts.nonempty_true, Hv).
  destruct (AssignFacts.strip_chars_fixed _ _ Hdq) as [Hdl Hdr].
  destruct (AssignFacts.strip_chars_fixed _ _ Hsq) as [Hsl Hsr].
  assert (Hline : strip (key +:+ String "=" value) = key +:+ String "=" value).
  { unfold strip. rewrite (AssignFacts.lstrip_prefix key _ Hkey Hk).
    apply AssignFacts.rstrip_assignment, Hvalue. }
  assert (Hquote : startswith Sample.dq value && Env.endswith_char "034" value
                   || startswith "'" value && Env.endswith_char "'" value = false).
  { destruct value as [|c value]; [contradiction|].
    unfold Env.is_dquote, Env.is_squote in Hdl, Hsl. cbn [lstrip_by] in Hdl, Hsl.
    cbn [startswith Sample.dq].
    rewrite (Ascii.eqb_sym "034" c), (Ascii.eqb_sym "'" c).
    destruct (Ascii.eqb c "034") eqn:E1.
    { exfalso. apply (f_equal String.length) in Hdl. cbn [String.length] in Hdl.
      pose proof (DotenvFacts.lstrip_by_shorter (fun c => Ascii.eqb c "034") value). lia. }
    destruct (Ascii.eqb c "'") eqn:E2; [|reflexivity].
    exfalso. apply (f_equal String.length) in Hsl. cbn [String.length] in Hsl.
    pose proof (DotenvFacts.lstrip_by_shorter (fun c => Ascii.eqb c "'") value). lia. }
  assert (Hplain : Env.dotenv_line key (key +:+ String "=" value) = Some (Some value)).
  { unfold Env.dotenv_line. rewrite Hline.
    rewrite (AssignFacts.startswith_app "#" key _ Hk eq_refl), Hcomment.
    assert (Hl : nonempty (key +:+ String "=" value) = true)
      by (destruct key; [contradiction|reflexivity]).
    rewrite Hl. cbn [negb orb].
    rewrite (DotenvFacts.no_export key value Hexport).
    rewrite (SpecFacts.split_once_app _ key value Heq), Hkey, String.eqb_refl.
    cbn [negb]. rewrite Hvalue.
    change (String "034" "") with Sample.dq. rewrite Hquote, Hvn. reflexivity. }
  assert (Hprefixed : strip ("export " +:+ key) = "export " +:+ key).
  { unfold strip, lstrip, rstrip.
    change ("export " +:+ key) with (String "e" ("xport " +:+ key)).
    rewrite AssignFacts.lstrip_by_keep by reflexivity.
    change (String "e" ("xport " +:+ key)) with ("export " +:+ key).
    destruct (AssignFacts.strip_fixed_parts key Hkey) as [_ Hr]. unfold rstrip in Hr.
    rewrite LineFacts.rstrip_by_app by (rewrite Hr; exact Hk).
    rewrite Hr. reflexivity. }
  split; [exact Hplain|]. split; [|split].
  - unfold Env.dotenv_line.
    assert (E : "export " +:+ key +:+ "=" +:+ value
                = ("export " +:+ key) +:+ String "=" value)
      by (rewrite StrFacts.app_assoc; reflexivity).
    assert (S : strip ("export " +:+ key +:+ "=" +:+ value)
                = "export " +:+ key +:+ "=" +:+ value).
    { rewrite E. unfold strip.
      rewrite (AssignFacts.lstrip_prefix _ _ Hprefixed) by discriminate.
      apply AssignFacts.rstrip_assignment, Hvalue. }
    rewrite S.
    change (nonempty ("export " +:+ key +:+ "=" +:+ value)) with true.
    change (startswith "#" ("export " +:+ key +:+ "=" +:+ value)) with false.
    change (startswith "export " ("export " +:+ key +:+ "=" +:+ value)) with true.
    cbn [negb orb].
    change (drop_str 7 ("export " +:+ key +:+ "=" +:+ value))
      with (key +:+ String "=" value).
    rewrite (AssignFacts.lstrip_prefix key _ Hkey Hk).
    rewrite (SpecFacts.split_once_app _ key value Heq), Hkey, String.eqb_refl.
    cbn [negb]. rewrite Hvalue.
    change (String "034" "") with Sample.dq. rewrite Hquote, Hvn. reflexivity.
  - assert (E : "export " +:+ key +:+ "=" +:+ value +:+ nl
                = ("export " +:+ key) +:+ "=" +:+ value +:+ nl)
      by (rewrite StrFacts.app_assoc; reflexivity).
    rewrite E. unfold Env.env_line.
    rewrite (AssignFacts.strip_assignment _ value Hprefixed)
      by (discriminate || exact Hvalue).
    change (nonempty (("export " +:+ key) +:+ String "=" value)) with true.
    change (startswith "#" (("export " +:+ key) +:+ String "=" value)) with false.
    cbn [negb orb].
    rewrite (SpecFacts.split_once_app _ ("export " +:+ key) value)
      by (cbn; exact Heq).
    rewrite Hprefixed, Hvalue, Hdq, Hsq. reflexivity.
  - assert (E : "export " +:+ key +:+ "=" +:+ value +:+ nl
                = ("export " +:+ key) +:+ "=" +:+ value +:+ nl)
      by (rewrite StrFacts.app_assoc; reflexivity).
    rewrite E. unfold Env._read_env_file, Env.read_lines, Env.env_line.
    rewrite (AssignFacts.strip_assignment _ value Hprefixed)
      by (discriminate || exact Hvalue).
    change (nonempty (("export " +:+ key) +:+ String "=" value)) with true.
    change (startswith "#" (("export " +:+ key) +:+ String "=" value)) with false.
    cbn [negb orb].
    rewrite (SpecFacts.split_once_app _ ("export " +:+ key) value)
      by (cbn; exact Heq).
    rewrite Hprefixed, Hvalue, Hdq, Hsq.
    change (nonempty ("export " +:+ key)) with true. cbv iota.
    rewrite EnvFacts.insert_absent, (left_id_L ∅ (∪)).
    apply lookup_singleton_ne. intros E'.
    apply (f_equal String.length) in E'.
    change (String.length ("export " +:+ key)) with (7 + String.length key)%nat in E'.
    lia.
Qed.

Lemma export_prefix_witness :
  Env.dotenv_line "KEY" ("export " +:+ "KEY" +:+ "=" +:+ "sk-1") = Some (Some "sk-1")
  /\ Env._read_env_file (Some ["export " +:+ "KEY" +:+ "=" +:+ "sk-1" +:+ nl]) !! "KEY"
     = None.
Proof.
  destruct (export_prefix_is_read_by_the_writer_only "KEY" "sk-1")
    as (_ & A & _ & B); try reflexivity; try discriminate.
  split; [exact A|exact B].
Defined.

(** ** Sections of a sources file *)

Module SectionFacts.

Import StrFacts Markdown.

(** A right strip keeps the first character of what it leaves. *)
Lemma rstrip_by_head p (c : ascii) (s : string) :
  rstrip_by p (String c s) = ""
  \/ exists r, rstrip_by p (String c s) = String c r.
Proof.
  simpl. destruct (rstrip_by p s) as [|a r].
  - destruct (p c); [left; reflexivity|right; eexists; reflexivity].
  - right. eexists; reflexivity.
Qed.

Lemma startswith_rstrip p (q raw : string) :
  String.length q = 1%nat ->
  startswith q (rstrip_by p raw) = true -> startswith q raw = true.
Proof.
  intros Hq H. destruct q as [|a [|b q]]; try discriminate Hq.
  destruct raw as [|c raw]; [discriminate H|].
  destruct (rstrip_by_head p c raw) as [E|[r E]]; rewrite E in H; [discriminate H|].
  exact H.
Qed.

Lemma find_heading_none (q : string) (lines : list string) :
  Forall (fun raw => startswith "#" raw = false) lines ->
  forall i, find_heading q i lines = None.
Proof.
  induction 1 as [|raw rest Hraw _ IH]; intros i; cbn [find_heading]; [reflexivity|].
  destruct (startswith "#" (rstrip_lf raw)) eqn:E; [|apply IH].
  apply (startswith_rstrip _ "#" raw eq_refl) in E. congruence.
Qed.

(** The line the first loop stops at is a heading line. *)
Lemma find_heading_some (q : string) (lines : list string) :
  forall i start level,
    find_heading q i lines = Some (start, level) ->
    exists raw,
      (i <= start)%nat /\ lines !! (start - i)%nat = Some raw
      /\ startswith "#" raw = true.
Proof.
  induction lines as [|raw rest IH]; intros i start level H; cbn [find_heading] in H;
    [discriminate H|].
  assert (Hrest : find_heading q (S i) rest = Some (start, level) ->
                  exists raw0, (i <= start)%nat
                               /\ (raw :: rest) !! (start - i)%nat = Some raw0
                               /\ startswith "#" raw0 = true).
  { intros H'. destruct (IH _ _ _ H') as (raw0 & Hle & Hl & Hs).
    exists raw0. split; [lia|]. split; [|exact Hs].
    replace (start - i)%nat with (S (start - S i)) by lia. exact Hl. }
  destruct (startswith "#" (rstrip_lf raw)) eqn:E; cbn [negb] in H; [|auto].
  destruct (nonempty (title (rstrip_lf raw))); cbn [negb] in H; [|auto].
  destruct (startswith q (lower (title (rstrip_lf raw)))); [|auto].
  injection H as <- <-. exists raw. split; [lia|].
  rewrite Nat.sub_diag. split; [reflexivity|].
  exact (startswith_rstrip _ "#" raw eq_refl E).
Qed.

Lemma find_heading_found (q : string) (lines : list string) :
  forall i,
    find_heading q i lines = None <-> Forall (fun raw => heading_for q raw = false) lines.
Proof.
  induction lines as [|raw rest IH]; intros i; cbn [find_heading].
  - split; [constructor|reflexivity].
  - rewrite Forall_cons. unfold heading_for.
    destruct (startswith "#" (rstrip_lf raw)); cbn [negb andb];
      [destruct (nonempty (title (rstrip_lf raw))); cbn [negb andb];
       [destruct (startswith q (lower (title (rstrip_lf raw))))|]|].
    2-4: rewrite IH; tauto.
    split; [discriminate|]. intros [H _]. discriminate H.
Qed.

Lemma find_end_after (level : nat) (lines : list string) :
  forall j, (j <= find_end level j lines)%nat.
Proof.
  induction lines as [|raw rest IH]; intros j; cbn [find_end]; [lia|].
  destruct (negb _); [specialize (IH (S j)); lia|].
  destruct (_ <=? _)%nat; [lia|specialize (IH (S j)); lia].
Qed.

Lemma strip_head (c : ascii) (s : string) :
  is_space c = false -> exists body, strip (String c s) = String c body.
Proof.
  intros Hc. unfold strip, lstrip, rstrip. cbn [lstrip_by]. rewrite Hc.
  destruct (rstrip_by_head is_space c s) as [E|[r E]].
  - simpl in E. destruct (rstrip_by is_space s); [rewrite Hc in E|]; discriminate E.
  - exists r. exact E.
Qed.

(** What the function returns is empty or starts with a heading mark. *)
Lemma section_shape (text query : string) :
  _extract_markdown_section text query = ""
  \/ exists body,
       _extract_markdown_section text query = String "#" body +:+ nl
       /\ strip (String "#" body) = String "#" body.
Proof.
  unfold _extract_markdown_section.
  destruct (negb _); [left; reflexivity|].
  destruct (find_heading _ 0 _) as [[start level]|] eqn:E; [|left; reflexivity].
  right. destruct (find_heading_some _ _ _ _ _ E) as (raw & _ & Hl & Hs).
  rewrite Nat.sub_0_r in Hl.
  pose proof (find_end_after level (drop (S start) (Env.splitlines true text))
                (S start)) as Hend.
  set (end_ := find_end level (S start) _) in *.
  rewrite (drop_S _ _ _ Hl).
  replace (end_ - start)%nat with (S (end_ - S start)) by lia.
  cbn [take]. destruct raw as [|c raw]; [discriminate Hs|].
  cbn [startswith] in Hs. rewrite andb_true_r in Hs. apply Ascii.eqb_eq in Hs.
  subst c. rewrite CoerceFacts.join_empty_cons, StrFacts.app_cons.
  destruct (strip_head "#" (raw +:+ join "" (take (end_ - S start)
              (drop (S start) (Env.splitlines true text)))) eq_refl) as [body Hb].
  exists body. split; [rewrite Hb; reflexivity|].
  rewrite <- Hb. apply StripFacts.strip_idem.
Qed.

Lemma app_nl_nonempty (s : string) : s +:+ nl <> "".
Proof. destruct s; discriminate. Qed.

(** It is empty exactly when no line is a heading for the query. *)
Lemma section_found (text query : string) :
  strip query <> "" ->
  _extract_markdown_section text query = ""
  <-> Forall (fun raw => heading_for (lower (strip query)) raw = false)
        (Env.splitlines true text).
Proof.
  intros Hq. unfold _extract_markdown_section.
  assert (Hn : nonempty (lower (strip query)) = true)
    by (destruct (strip query); [contradiction|reflexivity]).
  rewrite Hn. cbn [negb].
  rewrite <- (find_heading_found (lower (strip query)) _ 0%nat).
  destruct (find_heading _ 0 _) as [[start level]|]; [|tauto].
  split; [|discriminate]. intros H. destruct (app_nl_nonempty _ H).
Qed.

End SectionFacts.

(** X20. [_extract_markdown_section]: a query that is blank gives the empty
    text, and so does a text none of whose lines starts with [#]; in every
    case the result is the empty text or a text that starts with the [#]
    of a heading line and ends with one line feed, the part before that
    line feed having no surrounding whitespace. *)
Theorem extracted_section_starts_at_a_heading (text query : string) :
  (strip query = "" -> Markdown._extract_markdown_section text query = "")
  /\ (Forall (fun raw => startswith "#" raw = false) (Env.splitlines true text) ->
      Markdown._extract_markdown_section text query = "")
  /\ (Markdown._extract_markdown_section text query = ""
      \/ exists body,
           Markdown._extract_markdown_section text query = String "#" body +:+ nl
           /\ strip (String "#" body) = String "#" body)
  /\ (strip query <> "" ->
      (Markdown._extract_markdown_section text query = ""
       <-> Forall (fun raw => Markdown.heading_for (lower (strip query)) raw = false)
             (Env.splitlines true text))).
Proof.
  split; [|split; [|split]].
  - unfold Markdown._extract_markdown_section. intros ->. reflexivity.
  - unfold Markdown._extract_markdown_section. intros H.
    destruct (negb _); [reflexivity|].
    rewrite (SectionFacts.find_heading_none _ _ H). reflexivity.
  - apply SectionFacts.section_shape.
  - apply SectionFacts.section_found.
Qed.

Lemma extracted_section_witness :
  Markdown._extract_markdown_section ("# Notes" +:+ nl +:+ "text") "  " = "".
Proof.
  apply (proj1 (extracted_section_starts_at_a_heading ("# Notes" +:+ nl +:+ "text") "  ")).
  reflexivity.
Defined.

(** ** Writing the results out *)

Module NameFacts.

Import Markdown.

Lemma safe_char_allowed (c : ascii) :
  is_alnum (safe_char c) || has_char (safe_char c) "-_." = true.
Proof.
  unfold safe_char. destruct (is_alnum c || has_char c "-_.") eqn:E; [exact E|].
  reflexivity.
Qed.

Lemma map_chars_allowed (s : string) (c : ascii) :
  has_char c (map_chars safe_char s) = true ->
  is_alnum c || has_char c "-_." = true.
Proof.
  induction s as [|a s IH]; [discriminate|]. simpl.
  intros H. apply orb_true_iff in H as [H|H]; [|exact (IH H)].
  apply Ascii.eqb_eq in H. subst c. apply safe_char_allowed.
Qed.

End NameFacts.

(** X21. The file name [main] makes from a label for [--out-dir]. It is
    never empty; each of its characters is alphanumeric or one of [-],
    [_] and [.], so that it holds no path separator, whatever the label;
    and it does not tell all labels apart: the labels [a/b] and [a-b] are
    written to the same file. *)
Theorem safe_name_is_a_plain_file_name (label : string) :
  Markdown.safe_name label <> ""
  /\ (forall c, has_char c (Markdown.safe_name label) = true ->
                Markdown.is_alnum c || has_char c "-_." = true)
  /\ has_char "/" (Markdown.safe_name label) = false
  /\ has_char "092"%char (Markdown.safe_name label) = false
  /\ Markdown.safe_name "a/b" = Markdown.safe_name "a-b".
Proof.
  assert (A : forall c, has_char c (Markdown.safe_name label) = true ->
                        Markdown.is_alnum c || has_char c "-_." = true).
  { intros c. unfold Markdown.safe_name.
    destruct (nonempty (Markdown.map_chars Markdown.safe_char (strip label))).
    - apply NameFacts.map_chars_allowed.
    - intros H. revert c H. cbn [has_char].
      intros c H. repeat (apply orb_true_iff in H as [H|H];
                          [apply Ascii.eqb_eq in H; subst c; reflexivity|]).
      discriminate H. }
  split; [|split; [exact A|split; [|split; [|reflexivity]]]].
  - unfold Markdown.safe_name.
    destruct (Markdown.map_chars Markdown.safe_char (strip label)) eqn:E;
      cbn [nonempty]; discriminate.
  - destruct (has_char "/" (Markdown.safe_name label)) eqn:E; [|reflexivity].
    apply A in E. discriminate E.
  - destruct (has_char "092"%char (Markdown.safe_name label)) eqn:E; [|reflexivity].
    apply A in E. discriminate E.
Qed.

Module RenderFacts.

Import Markdown.

Lemma content_of_failure (d : dict) :
  d !! "content" = None ->
  por (default JNull (d !! "content")) (JStr "") = JStr "".
Proof. intros ->. reflexivity. Qed.

Lemma content_of_text (d : dict) (s : string) :
  d !! "content" = Some (JStr s) ->
  por (default JNull (d !! "content")) (JStr "") = JStr s.
Proof. intros ->. destruct s; reflexivity. Qed.

End RenderFacts.

(** X22. Writing out the result of a call. For a dict that a call returns
    (an ["error"] entry, or a ["content"] entry that is a text, never
    both), neither the markdown section nor the per-model file raises. The
    section is the heading, a blank line and one paragraph: the error
    behind [Error: ] when the error is truthy, and otherwise the stripped
    content, or [(empty)] when that is blank. The per-model file of
    [--out-dir] never reports the error: for a failed call it reads
    [(empty)]. *)
Theorem results_are_written_without_error rt title (d : dict)
    (Hd : failure_or_text d) :
  (d !! "content" = None ->
   Markdown.model_file d = Ok ("(empty)" +:+ nl)
   /\ Markdown.section rt title d
      = Ok ("## " +:+ title +:+ nl +:+ nl
            +:+ (if get_truthy d "error"
                 then "Error: " +:+ py_str rt (default JNull (d !! "error"))
                 else "(empty)") +:+ nl))
  /\ (forall s,
        d !! "content" = Some (JStr s) ->
        Markdown.model_file d
        = Ok ((if nonempty (strip s) then strip s else "(empty)") +:+ nl)
        /\ Markdown.section rt title d
           = Ok ("## " +:+ title +:+ nl +:+ nl
                 +:+ (if nonempty (strip s) then strip s else "(empty)") +:+ nl))
  /\ exists file text,
       Markdown.model_file d = Ok file /\ Markdown.section rt title d = Ok text.
Proof.
  assert (A : d !! "content" = None ->
              Markdown.model_file d = Ok ("(empty)" +:+ nl)
              /\ Markdown.section rt title d
                 = Ok ("## " +:+ title +:+ nl +:+ nl
                       +:+ (if get_truthy d "error"
                            then "Error: " +:+ py_str rt (default JNull (d !! "error"))
                            else "(empty)") +:+ nl)).
  { intros Hc. unfold Markdown.model_file, Markdown.section.
    rewrite (RenderFacts.content_of_failure d Hc). cbn [res_bind].
    split; [reflexivity|]. destruct (get_truthy d "error"); reflexivity. }
  assert (B : forall s,
            d !! "content" = Some (JStr s) ->
            Markdown.model_file d
            = Ok ((if nonempty (strip s) then strip s else "(empty)") +:+ nl)
            /\ Markdown.section rt title d
               = Ok ("## " +:+ title +:+ nl +:+ nl
                     +:+ (if nonempty (strip s) then strip s else "(empty)") +:+ nl)).
  { intros s Hc. unfold Markdown.model_file, Markdown.section.
    rewrite (RenderFacts.content_of_text d s Hc). cbn [res_bind].
    split; [reflexivity|].
    destruct Hd as [[[e He] Hn]|[He _]]; [congruence|].
    unfold get_truthy. rewrite He.
    destruct (nonempty (strip s)); reflexivity. }
  split; [exact A|]. split; [exact B|].
  destruct Hd as [[_ Hn]|[_ [s Hs]]].
  - destruct (A Hn) as [-> ->]. eexists _, _. split; reflexivity.
  - destruct (B s Hs) as [-> ->]. eexists _, _. split; reflexivity.
Qed.

Lemma results_written_witness :
  Markdown.model_file {[ "error" := JStr "Timeout after 60s" ]} = Ok ("(empty)" +:+ nl)
  /\ Markdown.section Sample.sample_runtime "GPT-5.2" {[ "error" := JStr "Timeout after 60s" ]}
     = Ok ("## GPT-5.2" +:+ nl +:+ nl +:+ "Error: Timeout after 60s" +:+ nl).
Proof.
  refine (proj1 (results_are_written_without_error Sample.sample_runtime "GPT-5.2"
                   {[ "error" := JStr "Timeout after 60s" ]} _) _).
  - left. split; [eexists; reflexivity|reflexivity].
  - reflexivity.
Defined.

(** ** Keys, runtime and exit status *)

(** X18. The key lookup and the exit status. With a prompt and no sources
    file, the recommendations tool exits with status 2 when the lookup in
    the environment and the .env file finds no key. The writing tool exits
    with status 1 when its lookup finds no key, and with status 0 when it
    finds one, whatever the network does. An environment variable set to
    the empty text and no .env file is such a case of no key. *)
Theorem key_lookup_decides_the_exit_status (env : Env.environ) :
  (forall rt file read_text write_results nets sys today extract args,
     strip (Cli.ra_prompt args) <> "" -> Cli.ra_sources_file args = "" ->
     Env._getenv_with_dotenv env file "OPENROUTER_API_KEY" = None ->
     Cli.exit_status
       (Cli.recs_main rt (Env.recs_host_of env file read_text write_results)
          nets sys today extract (Some args)) = 2)
  /\ (forall rt text net_a net_b sys args,
        Cli.exit_status
          (Cli.writer_main rt (Env.writer_host_of env text) net_a net_b sys (Some args))
        = match Env._load_dotenv_var env text "OPENROUTER_API_KEY" with
          | Some _ => 0
          | None => 1
          end)
  /\ (env !! "OPENROUTER_API_KEY" = None \/ env !! "OPENROUTER_API_KEY" = Some "" ->
      Env._getenv_with_dotenv env None "OPENROUTER_API_KEY" = None
      /\ Env._load_dotenv_var env None "OPENROUTER_API_KEY" = None).
Proof.
  split; [|split].
  - intros rt file read_text write_results nets sys today extract args Hp Hs Hkey.
    apply CliFacts.recs_missing_key; [exact Hp|exact Hs|].
    left. cbn [Env.recs_host_of Cli.openrouter_key]. rewrite Hkey. reflexivity.
  - intros rt text net_a net_b sys args.
    destruct (Env._load_dotenv_var env text "OPENROUTER_API_KEY") as [key|] eqn:E.
    + apply (CliFacts.writer_requests_fail_or_not _ _ _ _ _ _ key).
      * cbn [Env.writer_host_of Cli.environ_key Cli.dotenv_key].
        rewrite DotenvFacts.or_else_load. exact E.
      * apply StrFacts.nonempty_true. eapply DotenvFacts.load_nonempty, E.
    + apply CliFacts.writer_missing_key.
      cbn [Env.writer_host_of Cli.environ_key Cli.dotenv_key].
      rewrite DotenvFacts.or_else_load. exact E.
  - intros H. unfold Env._getenv_with_dotenv, Env._load_dotenv_var.
    destruct H as [-> | ->]; split; reflexivity.
Qed.

Lemma key_lookup_witness :
  Cli.exit_status
    (Cli.recs_main Sample.sample_runtime
       (Env.recs_host_of {[ "OPENROUTER_API_KEY" := "" ]} None
          (fun _ => Raise (PyError "FileNotFoundError")) (fun _ => Ok tt))
       (fun _ => Sample.unreachable) "S" "2026-01-01" (fun text _ => text)
       (Some Sample.recs_command)) = 2.
Proof.
  refine (proj1 (key_lookup_decides_the_exit_status {[ "OPENROUTER_API_KEY" := "" ]})
            Sample.sample_runtime None (fun _ => Raise (PyError "FileNotFoundError"))
            (fun _ => Ok tt) (fun _ => Sample.unreachable) "S" "2026-01-01"
            (fun text _ => text) Sample.recs_command _ eq_refl eq_refl).
  vm_compute. discriminate.
Defined.

(** X19. Telling the Codex runtime. Whatever the writing module takes for
    the Codex runtime from the environment, the recommendations module
    takes for it too; the converse fails exactly when the only variables
    set are the two that the recommendations module alone looks at, and
    then, in one and the same environment, the recommendations tool asks
    Opus and Gemini while the writing tool asks GPT-5.2 and Gemini. *)
Theorem codex_detection_differs (env : Env.environ) :
  (Env.writer_is_codex_runtime false env = true -> Env.recs_is_codex_runtime env = true)
  /\ (Env.recs_is_codex_runtime env = true ->
      Env.writer_is_codex_runtime false env = false ->
      Env.env_set env "CODEX_INTERNAL_ORIGINATOR_OVERRIDE"
      || Env.env_set env "CODEX_SANDBOX_NETWORK_DISABLED" = true
      /\ map snd (Cli._default_models (Env.recs_is_codex_runtime env)
                    (Env.recs_opus_model_id env))
         = [Env.recs_opus_model_id env; "google/gemini-3.1-pro-preview"]
      /\ Writer._second_model_id (Env.writer_is_codex_runtime false env)
           (Env.writer_opus_model_id env) = "openai/gpt-5.2")
  /\ (Env.env_set env "CODEX_INTERNAL_ORIGINATOR_OVERRIDE"
      || Env.env_set env "CODEX_SANDBOX_NETWORK_DISABLED" = true ->
      Env.recs_is_codex_runtime env = true).
Proof.
  unfold Env.recs_is_codex_runtime, Env.writer_is_codex_runtime.
  cbn [orb].
  destruct (Env.env_set env "CODEX_SANDBOX"), (Env.env_set env "CODEX_MANAGED_BY_NPM"),
    (Env.env_set env "CODEX"), (Env.env_set env "CODEX_INTERNAL_ORIGINATOR_OVERRIDE"),
    (Env.env_set env "CODEX_SANDBOX_NETWORK_DISABLED"); cbn;
    repeat split; intros; try discriminate; reflexivity.
Qed.

Lemma codex_detection_witness :
  Env.recs_is_codex_runtime {[ "CODEX_SANDBOX_NETWORK_DISABLED" := "1" ]} = true.
Proof.
  apply (proj2 (proj2 (codex_detection_differs
                         {[ "CODEX_SANDBOX_NETWORK_DISABLED" := "1" ]}))).
  reflexivity.
Defined.

(** ** Search results as markdown *)

Module RenderableFacts.

Import Cli Results.

Lemma textual_truthy (v : json) :
  textual v = true -> truthy v = true -> exists s, v = JStr s.
Proof.
  destruct v; cbn [textual]; intros H T; try (eexists; reflexivity);
    rewrite T in H; discriminate H.
Qed.

Lemma field_textual (kvs : list (string * json)) (k1 k2 fallback : string) :
  textual (default JNull (assoc k1 kvs)) = true ->
  textual (default JNull (assoc k2 kvs)) = true ->
  exists s, field (JObj kvs) k1 k2 fallback = Ok s.
Proof.
  unfold field. cbn [py_get res_bind]. intros H1 H2.
  destruct (truthy (default JNull (assoc k1 kvs))) eqn:T1.
  - destruct (textual_truthy _ H1 T1) as [s ->]. eexists; reflexivity.
  - cbn [res_bind]. unfold por.
    destruct (truthy (default JNull (assoc k2 kvs))) eqn:T2.
    + destruct (textual_truthy _ H2 T2) as [s ->]. eexists; reflexivity.
    + eexists; reflexivity.
Qed.

Lemma md_lines_renderable no_title (rs : list json) :
  Forall renderable rs ->
  forall i, exists lines,
    md_lines no_title i rs = Ok lines
    /\ (length rs <= length lines <= 2 * length rs)%nat.
Proof.
  induction 1 as [|r rs (kvs & -> & Hk) _ IH]; intros i.
  - exists []. split; [reflexivity|simpl; lia].
  - cbn [md_lines].
    repeat match goal with
           | H : Forall _ (_ :: _) |- _ => apply Forall_cons in H as [? H]
           end.
    destruct (field_textual kvs "title" "name" no_title) as [title ->]; [assumption..|].
    destruct (field_textual kvs "url" "link" "") as [url ->]; [assumption..|].
    destruct (field_textual kvs "snippet" "description" "") as [snippet ->];
      [assumption..|].
    cbn [res_bind]. destruct (IH (i + 1)) as (more & -> & Hl). cbn [res_bind].
    eexists. split; [reflexivity|].
    rewrite length_app. destruct (nonempty url); [destruct (nonempty snippet)|];
      simpl; lia.
Qed.

End RenderableFacts.

(** X23. Rendering search results as markdown. When every result is an
    object whose title, name, url, link, snippet and description are texts
    or values that count as false, [_to_md] does not raise: it gives one
    or two lines per result, joined, right-stripped and ended by one line
    feed, and the tool exits with status 0. A result that is not an object
    makes [_to_md] raise, and the tool then ends with status 1 although
    the search itself succeeded; with [--format json] the same response
    gives status 0. *)
Theorem markdown_needs_textual_results host no_title args key data (rs : list json)
    (Hkey : Cli.firecrawl_key host = Some key) (Hk : nonempty key = true)
    (Hdata : Cli.request_json host key (Cli.search_payload args) = Ok data)
    (Hresults : Cli._coerce_results data = Ok (JArr rs)) :
  (Forall Results.renderable rs ->
   (exists lines,
      Cli.md_lines no_title 1 rs = Ok lines
      /\ (length rs <= length lines <= 2 * length rs)%nat
      /\ Cli._to_md no_title (JArr rs) = Ok (rstrip (join nl lines) +:+ nl))
   /\ Cli.exit_status (Cli.search_main host no_title (Some args)) = 0)
  /\ (forall r rest,
        rs = r :: rest -> is_dict r = false ->
        Cli._to_md no_title (JArr rs) = Raise (PyError "AttributeError")
        /\ Cli.exit_status (Cli.search_main host no_title (Some args))
           = if String.eqb (Cli.sa_format args) "json" then 0 else 1).
Proof.
  assert (Hmain : Cli.search_main host no_title (Some args)
                  = if String.eqb (Cli.sa_format args) "json" then Ok 0
                    else res_bind (Cli._to_md no_title (JArr rs)) (fun _ => Ok 0)).
  { unfold Cli.search_main. rewrite Hkey. cbn [default from_option id].
    rewrite Hk, Hdata, Hresults. reflexivity. }
  split.
  - intros Hr.
    destruct (RenderableFacts.md_lines_renderable no_title rs Hr 1) as (lines & E & L).
    assert (Hmd : Cli._to_md no_title (JArr rs) = Ok (rstrip (join nl lines) +:+ nl))
      by (unfold Cli._to_md; rewrite E; reflexivity).
    split; [exists lines; repeat split; [exact E|lia|lia|exact Hmd]|].
    rewrite Hmain, Hmd. destruct (String.eqb _ _); reflexivity.
  - intros r rest -> Hnot.
    assert (Hmd : Cli._to_md no_title (JArr (r :: rest)) = Raise (PyError "AttributeError"))
      by (destruct r; try reflexivity; discriminate Hnot).
    split; [exact Hmd|]. rewrite Hmain, Hmd.
    destruct (String.eqb _ _); reflexivity.
Qed.

Lemma markdown_witness :
  Cli.exit_status (Cli.search_main Fixtures.hits_host "-" (Some Fixtures.md_command)) = 0.
Proof.
  refine (proj2 (proj1 (markdown_needs_textual_results Fixtures.hits_host "-"
                          Fixtures.md_command "k" _ [Fixtures.one_hit]
                          eq_refl eq_refl eq_refl eq_refl) _)).
  constructor; [|constructor].
  exists [("title", JStr "Desk"); ("url", JStr "https://example.org/desk");
          ("description", JNull)].
  split; [reflexivity|]. repeat constructor.
Defined.

(** ** Transport of the requests *)

Module TransportFacts.

Import RunFacts DispatchFacts FailureFacts PolicyFacts RetryFacts.

Lemma batch_trace_transport rt net sys model user key temp v t (w : world) :
  exists rest,
    (Recs._call_openrouter_batch rt net sys model user key temp v t w).2 = w ++ rest
    /\ Forall (fun rq => is_streaming rq = false
                         /\ req_timeout rq = {| total := Some t; sock_read := None |})
         rest.
Proof.
  destruct (QuestionFacts.batch_trace rt net sys model user key temp v t w) as [H|H];
    rewrite H; eexists; (split; [reflexivity|]).
  - constructor; [|constructor].
    split; [apply batch_request_not_streaming|]; reflexivity.
  - constructor; [|constructor; [|constructor]].
    + split; [apply batch_request_not_streaming|]; reflexivity.
    + split; [apply batch_request_not_streaming|]; reflexivity.
Qed.

End TransportFacts.

(** X24. The transport of the requests of a call. In streaming mode the
    first request, and only the first, asks for a stream; it has no total
    timeout and waits for each read at most the stall timeout of the model
    (60 seconds unless the model has its own). Every other request of the
    recommendations module, and every request of the writing module, is a
    plain request bounded by the timeout of the call. *)
Theorem only_the_first_request_streams rt net sys model user key temp v t (w : world) :
  (exists rest,
     (Recs._call_openrouter rt net sys model user key temp v t true w).2
     = w ++ Recs.stream_request sys model user key temp v :: rest
     /\ is_streaming (Recs.stream_request sys model user key temp v) = true
     /\ req_timeout (Recs.stream_request sys model user key temp v)
        = {| total := None;
             sock_read := Some (default 60 (Recs.MODEL_STALL_TIMEOUTS !! model)) |}
     /\ Forall (fun rq => is_streaming rq = false
                          /\ req_timeout rq = {| total := Some t; sock_read := None |})
          rest)
  /\ (exists rest,
        (Recs._call_openrouter rt net sys model user key temp v t false w).2 = w ++ rest
        /\ Forall (fun rq => is_streaming rq = false
                             /\ req_timeout rq = {| total := Some t; sock_read := None |})
             rest)
  /\ exists rest,
       (Writer.call_openrouter rt net sys model user key temp v t w).2 = w ++ rest
       /\ Forall (fun rq => is_streaming rq = false
                            /\ req_timeout rq = {| total := Some t; sock_read := None |})
            rest.
Proof.
  split; [|split].
  - rewrite DispatchFacts.dispatch_run. cbv zeta.
    set (rq := Recs.stream_request sys model user key temp v).
    assert (B : forall v', exists rest,
               (Recs._call_openrouter_batch rt net sys model user key temp v' t
                  (w ++ [rq])).2 = w ++ rq :: rest
               /\ is_streaming rq = true
               /\ req_timeout rq
                  = {| total := None;
                       sock_read := Some (default 60 (Recs.MODEL_STALL_TIMEOUTS !! model)) |}
               /\ Forall (fun rq => is_streaming rq = false
                                    /\ req_timeout rq
                                       = {| total := Some t; sock_read := None |}) rest).
    { intros v'.
      destruct (TransportFacts.batch_trace_transport rt net sys model user key temp v' t
                  (w ++ [rq])) as (rest & E & F).
      exists rest. rewrite E, <- app_assoc. split; [reflexivity|].
      split; [apply FailureFacts.stream_request_streaming|]. split; [reflexivity|exact F]. }
    destruct (stream_exchange rt net _ (length w) rq) as [d|e].
    + destruct (Recs.wants_retry model d); [apply B|].
      exists []. split; [reflexivity|].
      split; [apply FailureFacts.stream_request_streaming|].
      split; [reflexivity|constructor].
    + destruct (network_level e); [apply B|].
      exists []. split; [reflexivity|].
      split; [apply FailureFacts.stream_request_streaming|].
      split; [reflexivity|constructor].
  - apply TransportFacts.batch_trace_transport.
  - destruct (QuestionFacts.writer_trace rt net sys model user key temp v t w) as [H|H];
      rewrite H; eexists; (split; [reflexivity|]).
    + constructor; [|constructor].
      split; [apply TerminalFacts.writer_request_not_streaming|]; reflexivity.
    + constructor; [|constructor; [|constructor]].
      * split; [apply TerminalFacts.writer_request_not_streaming|]; reflexivity.
      * split; [apply TerminalFacts.writer_request_not_streaming|]; reflexivity.
Qed.

(** ** Two retries after a stream *)

Module EscalationFacts.

Lemma retry_of_retry (v : Z) : Recs.retry_max_tokens (Recs.retry_max_tokens v) = 16000.
Proof. unfold Recs.retry_max_tokens. lia. Qed.

(** The plain batch request carries the reasoning setting of the model,
    not the reduced one. *)
Lemma plain_reasoning sys model user key temp t v :
  req_json (Recs.batch_request sys model user key temp t v None) !! "reasoning"
  = default ∅ (Recs.MODEL_EXTRA_PARAMS !! model) !! "reasoning".
Proof.
  unfold Recs.batch_request, Recs.batch_payload. cbn [req_json default from_option id].
  rewrite (left_id_L ∅ (∪)).
  destruct (default ∅ (Recs.MODEL_EXTRA_PARAMS !! model) !! "reasoning") as [x|] eqn:E.
  - apply lookup_union_Some_l. exact E.
  - rewrite lookup_union_r by exact E.
    rewrite !lookup_insert_ne by discriminate.
    apply lookup_singleton_ne. discriminate.
Qed.

End EscalationFacts.

(** X25. A streamed attempt can be followed by two more requests. For a
    retried model whose stream is read as empty with finish reason
    ["length"], the batch strategy is run at three times the budget
    (between 8000 and 16000) with the reasoning setting of the model, not
    a reduced one; if that response is empty and truncated as well, the
    batch strategy retries on its own account, always at a budget of 16000
    and with the reduced reasoning. The budget the outcome reports is then
    the one of the second request, not the 16000 of the third. *)
Theorem streamed_truncation_can_retry_twice rt net sys model user key temp v t
    (w : world)
    (Hmodel : model ∈ Recs.MODELS_WITH_RETRY)
    (Herror0 : returned (stream_exchange rt net (clock net (length w)) (length w)
                           (Recs.stream_request sys model user key temp v)) "error"
               = Some (JStr "Empty response from model"))
    (Hfinish0 : returned (stream_exchange rt net (clock net (length w)) (length w)
                            (Recs.stream_request sys model user key temp v))
                  "finish_reason"
                = Some (JStr "length"))
    (Herror1 : returned (batch_exchange rt net (clock net (S (length w))) (S (length w))
                           (Recs.batch_request sys model user key temp t
                              (Recs.retry_max_tokens v) None)) "error"
               = Some (JStr "Empty response from model"))
    (Hfinish1 : returned (batch_exchange rt net (clock net (S (length w))) (S (length w))
                            (Recs.batch_request sys model user key temp t
                               (Recs.retry_max_tokens v) None)) "finish_reason"
                = Some (JStr "length")) :
  exists out,
    Recs._call_openrouter rt net sys model user key temp v t true w
    = (Ok out,
       w ++ [Recs.stream_request sys model user key temp v;
             Recs.batch_request sys model user key temp t (Recs.retry_max_tokens v) None;
             Recs.batch_request sys model user key temp t 16000
               (Some Recs.REDUCED_REASONING)])
    /\ req_json (Recs.batch_request sys model user key temp t (Recs.retry_max_tokens v)
                   None) !! "reasoning"
       = default ∅ (Recs.MODEL_EXTRA_PARAMS !! model) !! "reasoning"
    /\ req_json (Recs.batch_request sys model user key temp t 16000
                   (Some Recs.REDUCED_REASONING)) !! "reasoning"
       = Some (JObj [("max_tokens", JNum 512)])
    /\ out !! "retried_with_max_tokens" = Some (JNum (Recs.retry_max_tokens v))
    /\ 8000 <= Recs.retry_max_tokens v <= 16000.
Proof.
  destruct (stream_exchange rt net _ (length w) _) as [d0|e0] eqn:Hstream;
    [|discriminate Herror0].
  destruct (batch_exchange rt net _ (S (length w)) _) as [d1|e1] eqn:Hbatch;
    [|discriminate Herror1].
  cbn [returned] in *.
  pose proof (RetryFacts.recs_wants_retry model d0 Hmodel Herror0 Hfinish0) as W0.
  pose proof (RetryFacts.recs_wants_retry model d1 Hmodel Herror1 Hfinish1) as W1.
  rewrite DispatchFacts.dispatch_run. cbv zeta. rewrite Hstream, W0.
  rewrite RunFacts.batch_run. cbv zeta.
  rewrite RunFacts.length_snoc, Hbatch, W1, EscalationFacts.retry_of_retry.
  destruct (batch_exchange rt net (clock net (S (length w))) (S (S (length w))) _)
    as [d2|e2]; cbn [fst snd]; eexists;
    (split; [rewrite <- !app_assoc; reflexivity|]);
    (split; [apply EscalationFacts.plain_reasoning|]);
    (split; [apply RetryFacts.recs_override|]);
    (split; [apply RetryFacts.annotate_lookup|unfold Recs.retry_max_tokens; lia]).
Qed.

Lemma streamed_truncation_witness :
  map (fun rq => req_json rq !! "max_tokens")
    (Recs._call_openrouter Fixtures.truncation_runtime Fixtures.always_truncating
       "S" "openai/gpt-5.2" "u" "k" (JNum 0) 1000 60 true []).2
  = [Some (JNum (1000 + 4096)); Some (JNum (8000 + 4096)); Some (JNum (16000 + 4096))].
Proof.
  assert (Hm : "openai/gpt-5.2" ∈ Recs.MODELS_WITH_RETRY)
    by (apply (bool_decide_unpack _); vm_compute; exact I).
  destruct (streamed_truncation_can_retry_twice Fixtures.truncation_runtime
              Fixtures.always_truncating "S" "openai/gpt-5.2" "u" "k" (JNum 0) 1000 60 []
              Hm)
    as (out & -> & _); [vm_compute; reflexivity..|].
  vm_compute. reflexivity.
Defined.

(** ** The sources flag *)

Module GroundingFacts.

Lemma prompt_shape (request_text sources today : string) :
  Prompt.build_user_prompt request_text sources today
  = Prompt.request_part request_text today
    +:+ (if nonempty (strip sources) then Prompt.grounding_section (strip sources) else "").
Proof.
  unfold Prompt.build_user_prompt, Prompt.request_part, Prompt.grounding_section.
  destruct (nonempty (strip sources)).
  - rewrite !StrFacts.app_assoc. reflexivity.
  - rewrite StrFacts.app_nil_r. reflexivity.
Qed.

End GroundingFacts.

(** X26. The flag [has_sources] that [run_models] reports tells what was
    sent: it is true exactly when the user prompt of the calls ends with
    the grounding section, and false exactly when the prompt is the dated
    request alone; every request of every call carries that prompt. *)
Theorem has_sources_tells_what_was_sent rt nets sys today prompt sources key models
    v temp t stream out
    (Hrun : Recs.run_models rt nets sys today prompt sources key models v temp t stream
            = Ok out) :
  (Recs.has_sources out = true
   <-> Prompt.build_user_prompt prompt sources today
       = Prompt.request_part prompt today +:+ Prompt.grounding_section (strip sources)
       /\ strip sources <> "")
  /\ (Recs.has_sources out = false
      <-> Prompt.build_user_prompt prompt sources today = Prompt.request_part prompt today)
  /\ forall i label model,
       models !! i = Some (label, model) ->
       Forall (fun rq => req_json rq !! "messages"
                         = Some (messages sys (Prompt.build_user_prompt prompt sources today)))
         (Recs._call_openrouter rt (nets i) sys model
            (Prompt.build_user_prompt prompt sources today) key temp v t stream []).2.
Proof.
  unfold Recs.run_models in Hrun.
  destruct (Recs.await_all _ ∅) as [res|e]; [|discriminate Hrun].
  injection Hrun as <-. cbn [Recs.has_sources].
  rewrite (GroundingFacts.prompt_shape prompt sources today).
  split; [|split].
  - destruct (nonempty (strip sources)) eqn:E.
    + split; [|reflexivity]. intros _. split; [reflexivity|].
      apply StrFacts.nonempty_true, E.
    + split; [discriminate|]. intros [_ H].
      apply StrFacts.nonempty_false in E. contradiction.
  - destruct (nonempty (strip sources)) eqn:E.
    + split; [discriminate|]. intros H. apply StrFacts.app_eq_l in H. discriminate H.
    + split; [|reflexivity]. intros _. apply StrFacts.app_nil_r.
  - intros i label model _.
    rewrite <- (GroundingFacts.prompt_shape prompt sources today).
    assert (Q : forall s, exists rest,
              (Recs._call_openrouter rt (nets i) sys model
                 (Prompt.build_user_prompt prompt sources today) key temp v t s []).2
              = [] ++ rest
              /\ Forall (same_question sys model
                           (Prompt.build_user_prompt prompt sources today) key temp) rest).
    { intros [|].
      - rewrite DispatchFacts.dispatch_run. cbv zeta.
        set (rq := Recs.stream_request sys model _ key temp v).
        assert (B : forall v', exists rest,
                   (Recs._call_openrouter_batch rt (nets i) sys model
                      (Prompt.build_user_prompt prompt sources today) key temp v' t
                      ([] ++ [rq])).2 = [] ++ rest
                   /\ Forall (same_question sys model
                                (Prompt.build_user_prompt prompt sources today) key temp)
                        rest).
        { intros v'.
          destruct (QuestionFacts.batch_trace_question rt (nets i) sys model
                      (Prompt.build_user_prompt prompt sources today) key temp v' t
                      ([] ++ [rq])) as (rest & E & _ & F).
          exists (rq :: rest). rewrite E. split; [reflexivity|].
          constructor; [apply QuestionFacts.stream_request_question|exact F]. }
        destruct (stream_exchange rt (nets i) _ _ rq) as [d|e].
        + destruct (Recs.wants_retry model d); [apply B|].
          exists [rq]. split; [reflexivity|].
          constructor; [apply QuestionFacts.stream_request_question|constructor].
        + destruct (network_level e); [apply B|].
          exists [rq]. split; [reflexivity|].
          constructor; [apply QuestionFacts.stream_request_question|constructor].
      - destruct (QuestionFacts.batch_trace_question rt (nets i) sys model
                    (Prompt.build_user_prompt prompt sources today) key temp v t [])
          as (rest & E & _ & F).
        exists rest. split; [exact E|exact F]. }
    destruct (Q stream) as (rest & -> & F). cbn [app].
    eapply Forall_impl; [exact F|]. intros rq (_ & _ & _ & M & _). exact M.
Qed.

Lemma has_sources_witness :
  exists out,
    Recs.run_models Sample.sample_runtime (fun _ => Sample.unreachable) "S" "2026-01-01"
      "which laptop" "  " "k" Sample.two_models 1000 (JNum 0) 60 false = Ok out
    /\ Prompt.build_user_prompt "which laptop" "  " "2026-01-01"
       = Prompt.request_part "which laptop" "2026-01-01".
Proof.
  destruct (FanoutFacts.run_models_batch_returns Sample.sample_runtime
              (fun _ => Sample.unreachable) "S" "2026-01-01" "which laptop" "  " "k"
              Sample.two_models 1000 (JNum 0) 60) as (out & Hrun & _).
  exists out. split; [exact Hrun|].
  apply (proj1 (proj2 (has_sources_tells_what_was_sent _ _ _ _ _ _ _ _ _ _ _ _ out Hrun))).
  apply (f_equal (fun r => match r with Ok o => Recs.has_sources o | Raise _ => true end))
    in Hrun.
  cbn in Hrun. symmetry. exact Hrun.
Defined.
